(** * Gatekeeper key service: the server actions of [src/app/actions.ts]

    The actions are asynchronous TypeScript functions over three MongoDB
    collections ([keys], [users], [prices]).  They are embedded here as
    computations in a small reader/state/exception monad:

    - the state is the content of the three collections, each a list of
      documents in natural (insertion) order, together with the schedule
      of storage faults still to come;
    - the environment holds what an action reads from outside: the answer
      of the time service, the server clock, the server's time-zone
      offset and the bytes handed out by [randomBytes];
    - a store call that meets a fault throws, exactly as a rejected
      driver promise does, and whatever was written before stays written.

    Library functions the actions call (the MongoDB driver, [date-fns],
    the JavaScript built-ins) are modelled from their documented
    behaviour; everything else follows the source line by line. *)

From Stdlib Require Import ZArith List String Ascii Bool Lia Floats DecimalString.
Import ListNotations.

Local Open Scope string_scope.
Local Open Scope Z_scope.

(** ** JavaScript values *)

Module JS.

(** A JavaScript [number] is an IEEE 754 binary64 value. *)
Definition number : Type := float.

(** The number denoted by an integer, correctly rounded. *)
Definition number_of_Z (z : Z) : number :=
  SF2Prim (binary_normalize prec emax z 0 false).

Definition isNaN (x : number) : bool := PrimFloat.is_nan x.

(** Two stored numbers are the same value when they agree bit for bit
    (so [0] and [-0] differ, unlike under [==]). *)
Definition same_number (x y : number) : bool := PrimFloat.Leibniz.eqb x y.

(** A [Date] is an instant: milliseconds since 1970-01-01T00:00:00Z. *)
Definition Date : Type := Z.

Definition ms_per_minute : Z := 60000.
Definition ms_per_day : Z := 86400000.

(** A calendar date as [formatISO(_, {representation: 'date'})] prints
    it, ["YYYY-MM-DD"], is identified with its day number: the count of
    days since 1970-01-01.  [IsoDate_to_string] gives the text. *)
Definition IsoDate : Type := Z.

(** [formatISO(d, { representation: 'date' })] prints the calendar date
    of [d] in the local zone of the process, [tz] minutes east of
    UTC. *)
Definition formatISO_date (tz : Z) (d : Date) : IsoDate :=
  (d + tz * ms_per_minute) / ms_per_day.

(** [addDays(d, n)] moves the local calendar day by [n] and keeps the
    time of day; at a fixed offset that is [n] whole days later. *)
Definition addDays (d : Date) (n : Z) : Date := d + n * ms_per_day.

(** [new Date("YYYY-MM-DD")]: a date-only string is read as midnight
    UTC at the start of that day. *)
Definition Date_of_iso (s : IsoDate) : Date := s * ms_per_day.

(** Day number to (year, month, day) in the proleptic Gregorian
    calendar, and back. *)
Definition civil_from_days (z0 : Z) : Z * Z * Z :=
  let z := z0 + 719468 in
  let era := z / 146097 in
  let doe := z - era * 146097 in
  let yoe := (doe - doe / 1460 + doe / 36524 - doe / 146096) / 365 in
  let doy := doe - (365 * yoe + yoe / 4 - yoe / 100) in
  let mp := (5 * doy + 2) / 153 in
  let d := doy - (153 * mp + 2) / 5 + 1 in
  let m := if mp <? 10 then mp + 3 else mp - 9 in
  let y := yoe + era * 400 in
  ((if m <=? 2 then y + 1 else y), m, d).

Definition days_from_civil (y0 m d : Z) : IsoDate :=
  let y := if m <=? 2 then y0 - 1 else y0 in
  let era := y / 400 in
  let yoe := y - era * 400 in
  let doy := (153 * (if 2 <? m then m - 3 else m + 9) + 2) / 5 + d - 1 in
  let doe := yoe * 365 + yoe / 4 - yoe / 100 + doy in
  era * 146097 + doe - 719468.

Definition decimal (n : nat) : string :=
  NilEmpty.string_of_uint (Nat.to_uint n).

Definition pad2 (z : Z) : string :=
  (if z <? 10 then "0" else "") ++ decimal (Z.to_nat z).

Definition pad4 (z : Z) : string :=
  (if z <? 10 then "000" else if z <? 100 then "00"
   else if z <? 1000 then "0" else "") ++ decimal (Z.to_nat z).

Definition IsoDate_to_string (s : IsoDate) : string :=
  let '(y, m, d) := civil_from_days s in
  pad4 y ++ "-" ++ pad2 m ++ "-" ++ pad2 d.

(** [s.split(sep)] for a one-character separator. *)
Fixpoint split_from (sep : ascii) (cur : string) (s : string) : list string :=
  match s with
  | EmptyString => [cur]
  | String c rest =>
      if Ascii.eqb c sep then cur :: split_from sep "" rest
      else split_from sep (cur ++ String c "") rest
  end.

Definition split (sep : ascii) (s : string) : list string :=
  split_from sep "" s.

Definition startsWith (s p : string) : bool := String.prefix p s.

(** The double-quote character, for messages that quote a name. *)
Definition dquote : string := String (ascii_of_nat 34) "".

End JS.

Import JS.

(** ** Documents *)

(** A MongoDB [ObjectId], as the 12-byte value it is.  Ids reach the
    actions as the 24-digit rendering of a stored [_id]. *)
Definition ObjectId : Type := N.

Inductive UserRole : Type := admin | moderator.

Definition UserRole_eqb (a b : UserRole) : bool :=
  match a, b with
  | admin, admin | moderator, moderator => true
  | _, _ => false
  end.

(** The session identity handed to the actions ([User] of [app/page]). *)
Module User.
Record t : Type := mk {
  loggedIn : bool;
  role : UserRole;
  username : string;
  userId : option ObjectId
}.
End User.

Module KeyDoc.
Record t : Type := mk {
  key : string;
  prefix : string;
  validityDays : Z;
  price : number;
  expires : option IsoDate;
  activationDate : option IsoDate;
  isActive : bool;
  createdAt : Date;
  createdBy : string
}.

(** The [$set] of [activateKey]. *)
Definition set_activation (a e : IsoDate) (d : t) : t :=
  mk (key d) (prefix d) (validityDays d) (price d)
     (Some e) (Some a) true (createdAt d) (createdBy d).
End KeyDoc.

Module UserDoc.
Record t : Type := mk {
  _id : ObjectId;
  username : string;
  password : string;
  role : UserRole;
  debt : number;
  createdAt : Date
}.

Definition set_debt (v : number) (d : t) : t :=
  mk (_id d) (username d) (password d) (role d) v (createdAt d).

(** [$inc: { debt: amount }]. *)
Definition inc_debt (amount : number) (d : t) : t :=
  set_debt (debt d + amount)%float d.
End UserDoc.

Module PriceDoc.
Record t : Type := mk {
  validityDays : Z;
  price : number
}.

Definition set_price (p : number) (d : t) : t := mk (validityDays d) p.
End PriceDoc.

(** ** Collections *)

Module Mongo.
Section Collection.
Context {Doc : Type}.
Variable filter_ : Doc -> bool.

(** [findOne(filter)]: the first matching document. *)
Definition findOne (c : list Doc) : option Doc := List.find filter_ c.

(** [updateOne(filter, update)] rewrites the first match only. *)
Fixpoint updateOne (update : Doc -> Doc) (c : list Doc) : list Doc :=
  match c with
  | [] => []
  | d :: rest =>
      if filter_ d then update d :: rest
      else d :: updateOne update rest
  end.

(** [deleteOne(filter)] removes the first match only. *)
Fixpoint deleteOne (c : list Doc) : list Doc :=
  match c with
  | [] => []
  | d :: rest => if filter_ d then rest else d :: deleteOne rest
  end.

(** [deleteMany(filter)] removes every match. *)
Definition deleteMany (c : list Doc) : list Doc :=
  List.filter (fun d => negb (filter_ d)) c.

Definition countDocuments (c : list Doc) : nat :=
  List.length (List.filter filter_ c).

(** [updateOne(filter, update, { upsert: true })]. *)
Definition upsertOne (update : Doc -> Doc) (fresh : Doc) (c : list Doc)
  : list Doc :=
  if List.existsb filter_ c then updateOne update c else (c ++ [fresh])%list.
End Collection.

Definition insertMany {Doc : Type} (docs c : list Doc) : list Doc := (c ++ docs)%list.

Record UpdateResult : Type := mkUpdateResult {
  matchedCount : nat;
  modifiedCount : nat
}.

Record DeleteResult : Type := mkDeleteResult { deletedCount : nat }.
End Mongo.

(** ** The world the actions run in *)

Record World : Type := mkWorld {
  keys : list KeyDoc.t;
  users : list UserDoc.t;
  prices : list PriceDoc.t;
  (** One entry per store call still to come: [true] makes it fail. *)
  faults : list bool
}.

Definition with_keys (ks : list KeyDoc.t) (w : World) : World :=
  mkWorld ks (users w) (prices w) (faults w).
Definition with_users (us : list UserDoc.t) (w : World) : World :=
  mkWorld (keys w) us (prices w) (faults w).
Definition with_prices (ps : list PriceDoc.t) (w : World) : World :=
  mkWorld (keys w) (users w) ps (faults w).
Definition with_faults (fs : list bool) (w : World) : World :=
  mkWorld (keys w) (users w) (prices w) fs.

Record Env : Type := mkEnv {
  (** What the time service answers (its [utc_datetime]); [None] when the
      fetch fails or the status is not ok. *)
  time_api : option Date;
  (** [new Date()] on the server. *)
  server_clock : Date;
  (** Offset of the server's local zone, minutes east of UTC. *)
  tz_offset : Z;
  (** [randomBytes(16).toString('hex').toUpperCase()], per draw. *)
  random_hex : nat -> string
}.

(** What an action can throw: a failure of the store
    ([StorageError]), the driver's refusal of an empty batch
    ([MongoInvalidArgumentError]), and the [RangeError] of [date-fns] on
    an invalid date. *)
Inductive exn : Type :=
| StorageError
| InvalidArgument
| RangeError.

Inductive outcome (A : Type) : Type :=
| Returned (a : A)
| Thrown (e : exn).
Arguments Returned {A} a.
Arguments Thrown {A} e.

Definition M (A : Type) : Type := Env -> World -> outcome A * World.

Definition ret {A} (a : A) : M A := fun _ w => (Returned a, w).

Definition bind {A B} (m : M A) (k : A -> M B) : M B :=
  fun env w =>
    match m env w with
    | (Returned a, w') => k a env w'
    | (Thrown e, w') => (Thrown e, w')
    end.

(** [try { m } catch (error) { h }]. *)
Definition try_catch {A} (m : M A) (h : exn -> M A) : M A :=
  fun env w =>
    match m env w with
    | (Returned a, w') => (Returned a, w')
    | (Thrown e, w') => h e env w'
    end.

Declare Scope action_scope.
Delimit Scope action_scope with action.
Notation "x <- m ;; k" := (bind m (fun x => k))
  (at level 61, m at next level, right associativity) : action_scope.
Notation "m ;;; k" := (bind m (fun _ => k))
  (at level 61, right associativity) : action_scope.

Definition ask : M Env := fun env w => (Returned env, w).

Definition throw {A} (e : exn) : M A := fun _ w => (Thrown e, w).

(** One call to the store: it fails when the fault schedule says so, and
    otherwise reads or rewrites the collections in one step. *)
Definition store_call {A} (op : World -> A * World) : M A :=
  fun _ w =>
    match faults w with
    | true :: later => (Thrown StorageError, with_faults later w)
    | false :: later =>
        let (a, w') := op (with_faults later w) in (Returned a, w')
    | [] => let (a, w') := op w in (Returned a, w')
    end.

Local Open Scope action_scope.

(** ** Store calls of the three collections *)

Definition by_key (k : string) (d : KeyDoc.t) : bool :=
  String.eqb (KeyDoc.key d) k.
Definition by_prefix (p : string) (d : KeyDoc.t) : bool :=
  String.eqb (KeyDoc.prefix d) p.
Definition by_createdBy (u : string) (d : KeyDoc.t) : bool :=
  String.eqb (KeyDoc.createdBy d) u.
Definition by_id (id : ObjectId) (d : UserDoc.t) : bool :=
  N.eqb (UserDoc._id d) id.
Definition by_validityDays (v : Z) (d : PriceDoc.t) : bool :=
  Z.eqb (PriceDoc.validityDays d) v.

(** What the driver reports for an [updateOne]: a matched document whose
    fields the update leaves as they were counts as matched but not as
    modified. *)
Definition update_result {Doc : Type} (flt : Doc -> bool)
    (changes : Doc -> bool) (c : list Doc) : Mongo.UpdateResult :=
  match Mongo.findOne flt c with
  | None => Mongo.mkUpdateResult 0 0
  | Some d => Mongo.mkUpdateResult 1 (if changes d then 1 else 0)
  end.

Definition keys_findOne (flt : KeyDoc.t -> bool) : M (option KeyDoc.t) :=
  store_call (fun w => (Mongo.findOne flt (keys w), w)).

Definition keys_updateOne (flt : KeyDoc.t -> bool) (update : KeyDoc.t -> KeyDoc.t)
  : M unit :=
  store_call (fun w => (tt, with_keys (Mongo.updateOne flt update (keys w)) w)).

(** [insertMany(docs)]: the driver refuses an empty batch before it
    calls the store. *)
Definition keys_insertMany (docs : list KeyDoc.t) : M unit :=
  match docs with
  | [] => throw InvalidArgument
  | _ :: _ =>
      store_call (fun w => (tt, with_keys (Mongo.insertMany docs (keys w)) w))
  end.

Definition keys_deleteOne (flt : KeyDoc.t -> bool) : M Mongo.DeleteResult :=
  store_call (fun w =>
    (Mongo.mkDeleteResult (if List.existsb flt (keys w) then 1 else 0)%nat,
     with_keys (Mongo.deleteOne flt (keys w)) w)).

Definition keys_deleteMany (flt : KeyDoc.t -> bool) : M Mongo.DeleteResult :=
  store_call (fun w =>
    (Mongo.mkDeleteResult (Mongo.countDocuments flt (keys w)),
     with_keys (Mongo.deleteMany flt (keys w)) w)).

Definition users_findOne (flt : UserDoc.t -> bool) : M (option UserDoc.t) :=
  store_call (fun w => (Mongo.findOne flt (users w), w)).

(** [updateOne(filter, { $set: { debt: v } })]. *)
Definition users_updateOne_set_debt (flt : UserDoc.t -> bool) (v : number)
  : M Mongo.UpdateResult :=
  store_call (fun w =>
    (update_result flt (fun d => negb (same_number (UserDoc.debt d) v)) (users w),
     with_users (Mongo.updateOne flt (UserDoc.set_debt v) (users w)) w)).

(** [updateOne(filter, { $inc: { debt: amount } })]; the caller drops the
    driver's report. *)
Definition users_updateOne_inc_debt (flt : UserDoc.t -> bool) (amount : number)
  : M unit :=
  store_call (fun w =>
    (tt, with_users (Mongo.updateOne flt (UserDoc.inc_debt amount) (users w)) w)).

Definition users_deleteOne (flt : UserDoc.t -> bool) : M Mongo.DeleteResult :=
  store_call (fun w =>
    (Mongo.mkDeleteResult (if List.existsb flt (users w) then 1 else 0)%nat,
     with_users (Mongo.deleteOne flt (users w)) w)).

Definition prices_findOne (flt : PriceDoc.t -> bool) : M (option PriceDoc.t) :=
  store_call (fun w => (Mongo.findOne flt (prices w), w)).

(** One [updateOne] of a [bulkWrite]: filter on the tier, [$set] the
    price, [upsert: true]. *)
Definition price_upsert (ps : list PriceDoc.t) (op : Z * number)
  : list PriceDoc.t :=
  Mongo.upsertOne (by_validityDays (fst op)) (PriceDoc.set_price (snd op))
                  (PriceDoc.mk (fst op) (snd op)) ps.

(** The operations of an ordered [bulkWrite] run one after another, each
    a write of its own: at the first that fails the call rejects, those
    before it stay applied and those after it are not tried. *)
Fixpoint bulk_upserts (operations : list (Z * number)) : M unit :=
  match operations with
  | [] => ret tt
  | op :: rest =>
      store_call (fun w => (tt, with_prices (price_upsert (prices w) op) w)) ;;;
      bulk_upserts rest
  end.

(** [bulkWrite(operations)]; the driver refuses an empty batch. *)
Definition prices_bulkWrite (operations : list (Z * number)) : M unit :=
  match operations with
  | [] => throw InvalidArgument
  | _ :: _ => bulk_upserts operations
  end.

(** [await clientPromise], the first thing every action does.  Where the
    first collection call of an action follows at once, a lost
    connection shows as the failure of that call and is not told apart
    from it; [updateAllPrices] may make no collection call at all, so
    there connecting is a step of its own. *)
Definition getPricesCollection : M unit := store_call (fun w => (tt, w)).

(** ** Time helper *)

(** The instant [getMoscowTime] resolves to: what the time service
    reports, or the server clock when the service cannot be used. *)
Definition reported_time (env : Env) : Date :=
  match time_api env with
  | Some t => t
  | None => server_clock env
  end.

(** [getMoscowTime] catches every failure of the fetch itself, so it
    never throws and never touches the store. *)
Definition getMoscowTime : M Date :=
  fun env w => (Returned (reported_time env), w).

Definition new_Date : M Date := fun env w => (Returned (server_clock env), w).

(** ** Results *)

Record Status : Type := mkStatus {
  success : bool;
  message : string
}.

Definition PriceState : Type := Status.

Record ActivateResult : Type := mkActivateResult {
  a_success : bool;
  a_message : string;
  a_expires : option IsoDate
}.

Record VerifyResult : Type := mkVerifyResult {
  valid : bool;
  v_message : string;
  v_expires : option IsoDate
}.

(** An entry of [newKeysForFile]. *)
Record GeneratedKey : Type := mkGeneratedKey {
  g_key : string;
  g_validityDays : Z;
  g_price : number
}.

Record GenerateResult : Type := mkGenerateResult {
  g_keys : list GeneratedKey
}.

(** ** User (moderator) management *)

Definition deleteModerator (id : ObjectId) : M Status :=
  moderatorToDelete <- users_findOne (by_id id) ;;
  match moderatorToDelete with
  | None => ret (mkStatus false "Moderator not found.")
  | Some m =>
      keys_deleteMany (by_createdBy (UserDoc.username m)) ;;;
      result <- users_deleteOne (by_id id) ;;
      if Nat.eqb (Mongo.deletedCount result) 1 then
        ret (mkStatus true
               ("Moderator " ++ dquote ++ UserDoc.username m ++ dquote
                ++ " and all their keys have been deleted."))
      else
        ret (mkStatus false "Failed to delete moderator after cleaning up keys.")
  end.

Definition clearModeratorDebt (id : ObjectId) : M Status :=
  result <- users_updateOne_set_debt (by_id id) 0%float ;;
  if Nat.eqb (Mongo.modifiedCount result) 1 then
    ret (mkStatus true "Debt cleared successfully.")
  else
    ret (mkStatus false "Failed to clear debt.").

(** ** Price management *)

Section PriceManagement.
(** [parseInt(s, 10)] and [parseFloat(s)] are the JavaScript built-ins;
    [None] stands for the [NaN] of [parseInt], whose other results are
    integers. *)
Variable parseInt10 : option string -> option Z.
Variable parseFloat : string -> number.

(** The body of the loop over [formData.entries()]: the operation an
    entry contributes, if any. *)
Definition price_operation (entry : string * string) : option (Z * number) :=
  let (key, value) := entry in
  if startsWith key "price-" then
    let validityDays := parseInt10 (List.nth_error (split "-" key) 1) in
    let price := parseFloat value in
    match validityDays with
    | None => None
    | Some v =>
        if isNaN price || (price <? 0)%float then None
        else Some (v, price)
    end
  else None.

Fixpoint price_operations (formData : list (string * string))
  : list (Z * number) :=
  match formData with
  | [] => []
  | entry :: rest =>
      match price_operation entry with
      | Some op => op :: price_operations rest
      | None => price_operations rest
      end
  end.

Definition updateAllPrices (formData : list (string * string)) : M PriceState :=
  try_catch
    (getPricesCollection ;;;
     let operations := price_operations formData in
     (if (0 <? List.length operations)%nat
      then prices_bulkWrite operations
      else ret tt) ;;;
     ret (mkStatus true "Prices updated successfully."))
    (fun _ => ret (mkStatus false "Database error while updating prices.")).
End PriceManagement.

(** ** Key management *)

Definition is_moderator (user : User.t) : bool :=
  UserRole_eqb (User.role user) moderator.

(** [count] is the integer the dashboard form submits; the loop body runs
    for [i = 0 .. count - 1], draws the [i]-th random suffix and stamps
    [createdAt] from the server clock, read as one instant for the whole
    call. *)
Definition generateKeys (prefix : string) (count : Z) (validityDays : Z)
    (user : User.t) : M GenerateResult :=
  price <- (if is_moderator user then
              priceDoc <- prices_findOne (by_validityDays validityDays) ;;
              let price := match priceDoc with
                           | Some d => PriceDoc.price d
                           | None => 0%float
                           end in
              let totalCost := (number_of_Z count * price)%float in
              match User.userId user with
              | Some userId =>
                  users_updateOne_inc_debt (by_id userId) totalCost
              | None => ret tt
              end ;;;
              ret price
            else ret 0%float) ;;
  env <- ask ;;
  now <- new_Date ;;
  let charged := if is_moderator user then price else 0%float in
  let indices := List.seq 0 (Z.to_nat count) in
  let key_of i := prefix ++ "-" ++ random_hex env i in
  let keysToInsert :=
    List.map (fun i =>
      KeyDoc.mk (key_of i) prefix validityDays charged None None false
                now (User.username user)) indices in
  let newKeysForFile :=
    List.map (fun i => mkGeneratedKey (key_of i) validityDays charged) indices in
  keys_insertMany keysToInsert ;;;
  ret (mkGenerateResult newKeysForFile).

Definition deleteKey (key : string) : M Status :=
  result <- keys_deleteOne (by_key key) ;;
  if Nat.eqb (Mongo.deletedCount result) 1 then
    ret (mkStatus true ("Key " ++ key ++ " deleted."))
  else
    ret (mkStatus false "Key not found.").

Definition deleteKeysByPrefix (prefix : string) : M Status :=
  result <- keys_deleteMany (by_prefix prefix) ;;
  ret (mkStatus true
         (decimal (Mongo.deletedCount result) ++ " keys with prefix "
          ++ dquote ++ prefix ++ dquote ++ " deleted.")).

(** ** API functions *)

Definition key_not_found : ActivateResult :=
  mkActivateResult false "Key not found." None.
Definition key_already_activated : ActivateResult :=
  mkActivateResult false "Key already activated." None.
Definition key_activated (expiresStr : IsoDate) : ActivateResult :=
  mkActivateResult true "Key activated successfully." (Some expiresStr).

Definition activateKey (key : string) : M ActivateResult :=
  keyData <- keys_findOne (by_key key) ;;
  match keyData with
  | None => ret key_not_found
  | Some kd =>
      if KeyDoc.isActive kd then ret key_already_activated
      else
        now <- getMoscowTime ;;
        env <- ask ;;
        let activationDateStr := formatISO_date (tz_offset env) now in
        let validity := if KeyDoc.validityDays kd >=? 36500 then 36500
                        else KeyDoc.validityDays kd in
        let expirationDate := addDays now validity in
        let expiresStr := formatISO_date (tz_offset env) expirationDate in
        keys_updateOne (by_key key)
          (KeyDoc.set_activation activationDateStr expiresStr) ;;;
        ret (key_activated expiresStr)
  end.

Definition key_not_activated : VerifyResult :=
  mkVerifyResult false "Key not activated." None.
Definition key_expired : VerifyResult :=
  mkVerifyResult false "Key has expired." None.
Definition key_is_active (expires : IsoDate) : VerifyResult :=
  mkVerifyResult true "Key is active." (Some expires).

Definition verifyKey (key : string) : M VerifyResult :=
  keyData <- keys_findOne (by_key key) ;;
  match keyData with
  | None => ret (mkVerifyResult false "Key not found." None)
  | Some kd =>
      match KeyDoc.isActive kd, KeyDoc.expires kd with
      | true, Some expires =>
          now <- getMoscowTime ;;
          let expirationDate := Date_of_iso expires in
          if now >? expirationDate then ret key_expired
          else ret (key_is_active expires)
      | _, _ => ret key_not_activated
      end
  end.

(** ** Overlapping calls of [activateKey]

    A call touches the store twice, at its [findOne] and at its
    [updateOne], and awaits the time service in between.  Other requests
    run during the awaits, so two calls may interleave at the grain of
    these two store calls. *)

Inductive Activation : Type :=
| Called
| Writing (activationDateStr expiresStr : IsoDate)
| Settled (r : outcome ActivateResult).

(** The part of [activateKey] up to its next store call. *)
Definition activation_step (key : string) (env : Env) (st : Activation)
    (w : World) : Activation * World :=
  match st with
  | Called =>
      match keys_findOne (by_key key) env w with
      | (Thrown e, w') => (Settled (Thrown e), w')
      | (Returned None, w') => (Settled (Returned key_not_found), w')
      | (Returned (Some kd), w') =>
          if KeyDoc.isActive kd then
            (Settled (Returned key_already_activated), w')
          else
            match getMoscowTime env w' with
            | (Thrown e, w'') => (Settled (Thrown e), w'')
            | (Returned now, w'') =>
                let validity := if KeyDoc.validityDays kd >=? 36500 then 36500
                                else KeyDoc.validityDays kd in
                (Writing (formatISO_date (tz_offset env) now)
                         (formatISO_date (tz_offset env) (addDays now validity)),
                 w'')
            end
      end
  | Writing activationDateStr expiresStr =>
      match keys_updateOne (by_key key)
              (KeyDoc.set_activation activationDateStr expiresStr) env w with
      | (Thrown e, w') => (Settled (Thrown e), w')
      | (Returned _, w') => (Settled (Returned (key_activated expiresStr)), w')
      end
  | Settled r => (Settled r, w)
  end.

Inductive Caller : Type := First | Second.

Record Race : Type := mkRace {
  first : Activation;
  second : Activation;
  store : World
}.

Definition race_step (key : string) (env1 env2 : Env) (r : Race) (c : Caller)
  : Race :=
  match c with
  | First =>
      let (st, w) := activation_step key env1 (first r) (store r) in
      mkRace st (second r) w
  | Second =>
      let (st, w) := activation_step key env2 (second r) (store r) in
      mkRace (first r) st w
  end.

(** Both calls start on the same store; [schedule] says whose turn each
    store call is. *)
Definition run_race (key : string) (env1 env2 : Env) (schedule : list Caller)
    (w : World) : Race :=
  List.fold_left (race_step key env1 env2) schedule (mkRace Called Called w).

Definition succeeded (st : Activation) : bool :=
  match st with
  | Settled (Returned r) => a_success r
  | _ => false
  end.

Definition already_active (st : Activation) : bool :=
  match st with
  | Settled (Returned r) =>
      negb (a_success r) && String.eqb (a_message r) "Key already activated."
  | _ => false
  end.

(** ** Readings of the store used to state the properties *)

Definition by_username (u : string) (d : UserDoc.t) : bool :=
  String.eqb (UserDoc.username d) u.

(** The price stored for a tier, if the tier has a row. *)
Definition tier_price (ps : list PriceDoc.t) (v : Z) : option number :=
  option_map PriceDoc.price (Mongo.findOne (by_validityDays v) ps).

(** The unit price [generateKeys] charges a moderator for a tier. *)
Definition priceFor (ps : list PriceDoc.t) (v : Z) : number :=
  match Mongo.findOne (by_validityDays v) ps with
  | Some d => PriceDoc.price d
  | None => 0%float
  end.

(** The price of tier [v] once [operations] have run in order, given
    what it is now: the last operation on the tier decides. *)
Fixpoint applied_price (v : Z) (operations : list (Z * number))
    (current : option number) : option number :=
  match operations with
  | [] => current
  | (v', p) :: rest =>
      applied_price v rest (if Z.eqb v' v then Some p else current)
  end.

(** The entry of [newKeysForFile] that goes with a stored key. *)
Definition file_entry (d : KeyDoc.t) : GeneratedKey :=
  mkGeneratedKey (KeyDoc.key d) (KeyDoc.validityDays d) (KeyDoc.price d).

(** What [verifyKey] answers at instant [now] when its [findOne] sees
    the keys [ks]. *)
Definition verdict (now : Date) (ks : list KeyDoc.t) (key : string)
  : VerifyResult :=
  match Mongo.findOne (by_key key) ks with
  | None => mkVerifyResult false "Key not found." None
  | Some kd =>
      match KeyDoc.isActive kd, KeyDoc.expires kd with
      | true, Some e =>
          if now >? Date_of_iso e then key_expired else key_is_active e
      | _, _ => key_not_activated
      end
  end.

(** Whether [verifyKey], run at [env] on the store [w], answers valid. *)
Definition valid_after (env : Env) (w : World) (key : string) : bool :=
  match fst (verifyKey key env w) with
  | Returned r => valid r
  | Thrown _ => false
  end.

(** Of the next [m] store calls, how many go through before the first
    that the fault schedule [fs] fails. *)
Fixpoint writes_through (fs : list bool) (m : nat) {struct m} : nat :=
  match m, fs with
  | O, _ => O
  | S _, true :: _ => O
  | S m', false :: later => S (writes_through later m')
  | S m', [] => S m'
  end.

(** ** Authentication *)

(** The two variables of [process.env] that [login] reads. *)
Record ProcessEnv : Type := mkProcessEnv {
  APP_USERNAME : option string;
  APP_PASSWORD : option string
}.

(** [process.env.X || fallback]: an unset or empty variable gives the
    fallback. *)
Definition env_or (v : option string) (fallback : string) : string :=
  match v with
  | Some s => if String.eqb s "" then fallback else s
  | None => fallback
  end.

(** How [login] ends: it sets the [auth_session] cookie to the JSON text
    of a session and redirects to the root page, or it returns its state
    with the failure message.  The cookie is kept as the session it
    spells out. *)
Inductive LoginOutcome : Type :=
| Redirected (auth_session : User.t)
| LoginFailed (message : string).

Definition login_failed : LoginOutcome :=
  LoginFailed "Login failed. Please check your credentials.".

(** The session [login] writes for the stored account [m]. *)
Definition moderator_session (m : UserDoc.t) : User.t :=
  User.mk true (UserDoc.role m) (UserDoc.username m) (Some (UserDoc._id m)).

(** The document [createModerator] inserts. *)
Definition new_moderator (new_id : ObjectId) (username hashedPassword : string)
    (now : Date) : UserDoc.t :=
  UserDoc.mk new_id username hashedPassword moderator 0%float now.

(** The test [login] makes first: the posted fields are the configured
    admin's. *)
Definition admin_credentials (penv : ProcessEnv) (username password : string)
  : bool :=
  String.eqb username (env_or (APP_USERNAME penv) "admin")
  && String.eqb password (env_or (APP_PASSWORD penv) "password").

(** [UserState]: both fields are optional. *)
Record UserState : Type := mkUserState {
  u_message : option string;
  u_success : option bool
}.

Definition users_insertOne (doc : UserDoc.t) : M unit :=
  store_call (fun w => (tt, with_users (users w ++ [doc])%list w)).

Section Auth.
(** [bcrypt.compare(password, hash)] and [bcrypt.hash(password, 10)]. *)
Variable bcrypt_compare : string -> string -> bool.
Variable bcrypt_hash : string -> string.

(** [username] and [password] are the two fields the login form posts. *)
Definition login (penv : ProcessEnv) (username password : string)
  : M LoginOutcome :=
  let appUsername := env_or (APP_USERNAME penv) "admin" in
  let appPassword := env_or (APP_PASSWORD penv) "password" in
  if String.eqb username appUsername && String.eqb password appPassword then
    ret (Redirected (User.mk true admin appUsername None))
  else
    moderator <- users_findOne (by_username username) ;;
    match moderator with
    | Some m =>
        if bcrypt_compare password (UserDoc.password m) then
          ret (Redirected (User.mk true (UserDoc.role m) (UserDoc.username m)
                             (Some (UserDoc._id m))))
        else
          ret (LoginFailed "Login failed. Please check your credentials.")
    | None => ret (LoginFailed "Login failed. Please check your credentials.")
    end.

(** [new_id] is the [_id] the driver gives the inserted document.  A
    field the form does not carry is falsy like the empty one. *)
Definition createModerator (new_id : ObjectId) (username password : string)
  : M UserState :=
  if String.eqb username "" || String.eqb password "" then
    ret (mkUserState (Some "Username and password are required.") None)
  else
    try_catch
      (existingUser <- users_findOne (by_username username) ;;
       match existingUser with
       | Some _ =>
           ret (mkUserState
                  (Some "Moderator with this username already exists.") None)
       | None =>
           let hashedPassword := bcrypt_hash password in
           now <- new_Date ;;
           users_insertOne
             (UserDoc.mk new_id username hashedPassword moderator 0%float now) ;;;
           ret (mkUserState
                  (Some ("Moderator " ++ dquote ++ username ++ dquote
                         ++ " created successfully."))
                  (Some true))
       end)
      (fun _ =>
         ret (mkUserState
                (Some "An error occurred while creating the moderator.") None)).
End Auth.

(** ** Listings *)

(** [.sort({ createdAt: -1 })]: newest first.  Documents of the same
    instant are kept in store order. *)
Section SortCreatedAt.
Context {Doc : Type}.
Variable createdAt : Doc -> Date.

Fixpoint insert_newest_first (x : Doc) (l : list Doc) : list Doc :=
  match l with
  | [] => [x]
  | y :: rest =>
      if createdAt y <=? createdAt x then x :: y :: rest
      else y :: insert_newest_first x rest
  end.

Definition sort_newest_first (l : list Doc) : list Doc :=
  List.fold_right insert_newest_first [] l.
End SortCreatedAt.

(** [find(query).sort({ createdAt: -1 }).toArray()]. *)
Definition keys_find_sorted (query : KeyDoc.t -> bool) : M (list KeyDoc.t) :=
  store_call (fun w =>
    (sort_newest_first KeyDoc.createdAt (List.filter query (keys w)), w)).

Definition users_find_sorted (query : UserDoc.t -> bool) : M (list UserDoc.t) :=
  store_call (fun w =>
    (sort_newest_first UserDoc.createdAt (List.filter query (users w)), w)).

Definition prices_find_all : M (list PriceDoc.t) :=
  store_call (fun w => (prices w, w)).

(** [x || 0] on a number: [0], [-0] and [NaN] are falsy. *)
Definition or_zero (x : number) : number :=
  if PrimFloat.is_nan x || PrimFloat.is_zero x then 0%float else x.

(** What the dashboard is given of a moderator; [_id] and [createdAt]
    stand for their renderings as text. *)
Record ModeratorView : Type := mkModeratorView {
  m_id : ObjectId;
  m_username : string;
  m_debt : number;
  m_createdAt : Date
}.

Definition moderator_view (doc : UserDoc.t) : ModeratorView :=
  mkModeratorView (UserDoc._id doc) (UserDoc.username doc)
                  (or_zero (UserDoc.debt doc)) (UserDoc.createdAt doc).

Definition has_role (r : UserRole) (d : UserDoc.t) : bool :=
  UserRole_eqb (UserDoc.role d) r.

Definition getModerators : M (list ModeratorView) :=
  moderators <- users_find_sorted (has_role moderator) ;;
  ret (List.map moderator_view moderators).

(** [userId] is [None] for the empty text, which is falsy. *)
Definition getModerator (userId : option ObjectId) : M (option ModeratorView) :=
  match userId with
  | None => ret None
  | Some id =>
      moderator <- users_findOne (by_id id) ;;
      match moderator with
      | None => ret None
      | Some m => ret (Some (moderator_view m))
      end
  end.

Definition getPrices : M (list PriceDoc.t) := prices_find_all.

(** The documents go out as they are stored; the rendering of [_id] and
    [createdAt] as text is left out. *)
Definition getKeys (user : User.t) : M (list KeyDoc.t) :=
  let query := if UserRole_eqb (User.role user) admin then (fun _ => true)
               else by_createdBy (User.username user) in
  keys_find_sorted query.

(** ** The two HTTP routes *)

(** What a route reads of its request.  [Malformed] is a body that makes
    the first two statements throw: [request.json()] rejects on text
    that is not JSON, and taking [key] out of [null] throws.  Otherwise
    the body gives its [key], [None] when it has none; keys are taken
    to be text. *)
Inductive RequestBody : Type :=
| Malformed
| Json (key : option string).

Inductive ResponseBody : Type :=
| error_body (error : string)
| not_valid_body (message : string)
| valid_body (message : string) (expires : option IsoDate)
| activated_body (message : string) (expires : option IsoDate).

Record Response : Type := mkResponse {
  status : nat;
  body : ResponseBody
}.

Definition key_is_required : Response :=
  mkResponse 400 (error_body "Key is required").
Definition internal_server_error : Response :=
  mkResponse 500 (error_body "Internal Server Error").

(** [!key]. *)
Definition no_key (key : option string) : bool :=
  match key with
  | None => true
  | Some k => String.eqb k ""
  end.

Definition key_text (key : option string) : string :=
  match key with
  | Some k => k
  | None => ""
  end.

(** Whether the next store call of [w] is scheduled to fail. *)
Definition first_call_fails (w : World) : bool := List.hd false (faults w).

(** The body [POST /api/verify] sends for a verdict. *)
Definition verify_body (r : VerifyResult) : ResponseBody :=
  if valid r then valid_body (v_message r) (v_expires r)
  else not_valid_body (v_message r).

(** [POST /api/verify].  What a malformed body throws is answered by
    the [catch]. *)
Definition verify_POST (request : RequestBody) : M Response :=
  try_catch
    (match request with
     | Malformed => ret internal_server_error
     | Json key =>
         if no_key key then ret key_is_required
         else
           result <- verifyKey (key_text key) ;;
           if negb (valid result) then
             ret (mkResponse 200 (not_valid_body (v_message result)))
           else
             ret (mkResponse 200
                    (valid_body (v_message result) (v_expires result)))
     end)
    (fun _ => ret internal_server_error).

(** [POST /api/activate]. *)
Definition activate_POST (request : RequestBody) : M Response :=
  try_catch
    (match request with
     | Malformed => ret internal_server_error
     | Json key =>
         if no_key key then ret key_is_required
         else
           result <- activateKey (key_text key) ;;
           if negb (a_success result) then
             ret (mkResponse 404 (error_body (a_message result)))
           else
             ret (mkResponse 200
                    (activated_body (a_message result) (a_expires result)))
     end)
    (fun _ => ret internal_server_error).

(** ** The API functions on any answer of the time service

    [time_api] describes a time service that, when it answers, reports
    an instant.  The code takes whatever the body carries:
    [new Date(data.utc_datetime)] is an Invalid Date when the body has
    no [utc_datetime] or one that does not read as a date, and
    [getMoscowTime] returns it unchecked.  Here are [getMoscowTime] and
    the functions that call it once more, with the answer of the service
    in full; [service] stands where [time_api] stood. *)

(** A JavaScript [Date]: an instant, or the Invalid Date, whose time
    value is [NaN]. *)
Inductive JSDate : Type :=
| Instant (t : Date)
| InvalidDate.

(** How the [try] block of [getMoscowTime] ends: in its [catch] (the
    fetch rejects, the status is not ok, the body is not JSON or is
    [null]), or at [new Date(data.utc_datetime)]. *)
Inductive TimeService : Type :=
| Failed
| Answered (utc_datetime : JSDate).

(** The service that [time_api] describes. *)
Definition service_of (env : Env) : TimeService :=
  match time_api env with
  | Some t => Answered (Instant t)
  | None => Failed
  end.

Module Service.
Section Service.
Variable service : TimeService.

(** What [getMoscowTime] resolves to. *)
Definition reading (env : Env) : JSDate :=
  match service with
  | Answered utc_datetime => utc_datetime
  | Failed => Instant (server_clock env)
  end.

Definition getMoscowTime : M JSDate :=
  fun env w => (Returned (reading env), w).

(** [formatISO(date, { representation: 'date' })]: [date-fns] throws a
    [RangeError] on an invalid date. *)
Definition formatISO (date : JSDate) : M IsoDate :=
  match date with
  | Instant t => env <- ask ;; ret (formatISO_date (tz_offset env) t)
  | InvalidDate => throw RangeError
  end.

(** [addDays(date, amount)]: an invalid date stays invalid. *)
Definition addDays (date : JSDate) (amount : Z) : JSDate :=
  match date with
  | Instant t => Instant (JS.addDays t amount)
  | InvalidDate => InvalidDate
  end.

(** [a > b] on two dates compares their time values; it is false when
    one of them is [NaN]. *)
Definition later (a : JSDate) (b : Date) : bool :=
  match a with
  | Instant t => t >? b
  | InvalidDate => false
  end.

Definition activateKey (key : string) : M ActivateResult :=
  keyData <- keys_findOne (by_key key) ;;
  match keyData with
  | None => ret key_not_found
  | Some kd =>
      if KeyDoc.isActive kd then ret key_already_activated
      else
        now <- getMoscowTime ;;
        activationDateStr <- formatISO now ;;
        let validity := if KeyDoc.validityDays kd >=? 36500 then 36500
                        else KeyDoc.validityDays kd in
        let expirationDate := addDays now validity in
        expiresStr <- formatISO expirationDate ;;
        keys_updateOne (by_key key)
          (KeyDoc.set_activation activationDateStr expiresStr) ;;;
        ret (key_activated expiresStr)
  end.

Definition verifyKey (key : string) : M VerifyResult :=
  keyData <- keys_findOne (by_key key) ;;
  match keyData with
  | None => ret (mkVerifyResult false "Key not found." None)
  | Some kd =>
      match KeyDoc.isActive kd, KeyDoc.expires kd with
      | true, Some expires =>
          now <- getMoscowTime ;;
          let expirationDate := Date_of_iso expires in
          if later now expirationDate then ret key_expired
          else ret (key_is_active expires)
      | _, _ => ret key_not_activated
      end
  end.

(** [POST /api/verify]. *)
Definition verify_POST (request : RequestBody) : M Response :=
  try_catch
    (match request with
     | Malformed => ret internal_server_error
     | Json key =>
         if no_key key then ret key_is_required
         else
           result <- verifyKey (key_text key) ;;
           if negb (valid result) then
             ret (mkResponse 200 (not_valid_body (v_message result)))
           else
             ret (mkResponse 200
                    (valid_body (v_message result) (v_expires result)))
     end)
    (fun _ => ret internal_server_error).

(** [POST /api/activate]. *)
Definition activate_POST (request : RequestBody) : M Response :=
  try_catch
    (match request with
     | Malformed => ret internal_server_error
     | Json key =>
         if no_key key then ret key_is_required
         else
           result <- activateKey (key_text key) ;;
           if negb (a_success result) then
             ret (mkResponse 404 (error_body (a_message result)))
           else
             ret (mkResponse 200
                    (activated_body (a_message result) (a_expires result)))
     end)
    (fun _ => ret internal_server_error).
End Service.
End Service.

(** ** Project download *)

(** What [fs.readdir(dir, { withFileTypes: true })] lists: regular files
    with the bytes [fs.readFile] returns, and directories with their own
    listing. *)
Inductive Dirent : Type :=
| FileEnt (name : string) (content : string)
| DirEnt (name : string) (entries : list Dirent).

(** [['node_modules', '.next', '.git'].includes(dirent.name)]. *)
Definition skipped (name : string) : bool :=
  List.existsb (String.eqb name) ["node_modules"; ".next"; ".git"].

(** The archive: what [zip.file(relativePath, content)] has been given,
    in order.  A path is kept as its components; [path.relative(root,
    fullPath)] is their join. *)
Definition Zip : Type := list (list string * string).

Definition relativePath (components : list string) : string :=
  String.concat "/" components.

(** One turn of the loop of [readFiles] in the directory [dir] (its
    components below the root), on the entry [dirent]; a directory is
    read by the recursive call. *)
Fixpoint readEntry (dir : list string) (dirent : Dirent) (zip : Zip) : Zip :=
  match dirent with
  | FileEnt name content =>
      if skipped name then zip
      else (zip ++ [((dir ++ [name])%list, content)])%list
  | DirEnt name entries =>
      if skipped name then zip
      else List.fold_left (fun z e => readEntry (dir ++ [name])%list e z)
             entries zip
  end.

Definition readFiles (dir : list string) (dirents : list Dirent) (zip : Zip)
  : Zip :=
  List.fold_left (fun z e => readEntry dir e z) dirents zip.

(** What [downloadProject] returns, with the archive in place of its
    base64 text. *)
Record Download : Type := mkDownload {
  d_success : bool;
  d_file : Zip;
  d_fileName : string
}.

(** [projectRoot] is the listing of [process.cwd()]; the date in the
    name is the UTC one, the part of [toISOString()] before the T. *)
Definition downloadProject (projectRoot : list Dirent) : M Download :=
  now <- new_Date ;;
  ret (mkDownload true (readFiles [] projectRoot [])
         ("project-backup-" ++ IsoDate_to_string (formatISO_date 0 now)
          ++ ".zip")).

(** A file of the tree that is reached through names that are not
    skipped, by its path below the listing and its content. *)
Inductive reached : list Dirent -> list string -> string -> Prop :=
| reached_file (dirents : list Dirent) (name content : string) :
    In (FileEnt name content) dirents ->
    skipped name = false ->
    reached dirents [name] content
| reached_below (dirents entries : list Dirent) (name : string)
    (path : list string) (content : string) :
    In (DirEnt name entries) dirents ->
    skipped name = false ->
    reached entries path content ->
    reached dirents (name :: path) content.

(** ** Sample data *)

Module Sample.
Definition hour : Z := 3600000.

(** 2025-01-01T10:00:00Z, as the time service would report it. *)
Definition t_2025_01_01 : Date := Date_of_iso (days_from_civil 2025 1 1) + 10 * hour.
(** 2025-01-08T12:00:00Z. *)
Definition t_2025_01_08 : Date := Date_of_iso (days_from_civil 2025 1 8) + 12 * hour.

Definition hex (i : nat) : string :=
  "0123456789ABCDEF0123456789ABCDE" ++ decimal i.

(** A server in Moscow (UTC+3) whose time service answers. *)
Definition env_at (t : Date) : Env := mkEnv (Some t) t 180 hex.

Definition trial : KeyDoc.t :=
  KeyDoc.mk "TRIAL-00AA" "TRIAL" 7 0%float None None false 0 "admin".

Definition trial_active : KeyDoc.t :=
  KeyDoc.set_activation (days_from_civil 2025 1 1) (days_from_civil 2025 1 8) trial.

Definition abc1 : KeyDoc.t :=
  KeyDoc.mk "ABC-01" "ABC" 30 2.5%float None None false 0 "bob".
Definition abcd1 : KeyDoc.t :=
  KeyDoc.mk "ABCD-01" "ABCD" 30 0%float None None false 0 "carol".

Definition bob : UserDoc.t := UserDoc.mk 1%N "bob" "$2a$10$hash" moderator 10%float 0.
Definition carol : UserDoc.t := UserDoc.mk 2%N "carol" "$2a$10$hash" moderator 0%float 0.

Definition tier30 : PriceDoc.t := PriceDoc.mk 30 2.5%float.

Definition world : World := mkWorld [trial; abc1; abcd1] [bob; carol] [tier30] [].
Definition world_active : World :=
  mkWorld [trial_active; abc1; abcd1] [bob; carol] [tier30] [].

(** Session of bob as [login] builds it, and one without the id. *)
Definition bob_session : User.t := User.mk true moderator "bob" (Some 1%N).
Definition bob_no_id : User.t := User.mk true moderator "bob" None.
Definition admin_session : User.t := User.mk true admin "admin" None.

(** A stand-in for the two parsers on the few strings used below. *)
Definition parseInt10 (s : option string) : option Z :=
  match s with
  | Some "7" => Some 7
  | Some "30" => Some 30
  | Some "90" => Some 90
  | _ => None
  end.

Definition parseFloat (s : string) : number :=
  if String.eqb s "2.5" then 2.5%float
  else if String.eqb s "4" then 4%float
  else if String.eqb s "-1" then (-1)%float
  else nan.
End Sample.

(** More sample data: a password scheme that is easy to read, the admin
    of an unconfigured process, and keys stamped at different instants. *)
Module Fixture.
Definition bcrypt_hash (password : string) : string := "$2a$10$" ++ password.
Definition bcrypt_compare (password hash : string) : bool :=
  String.eqb (bcrypt_hash password) hash.

Definition unconfigured : ProcessEnv := mkProcessEnv None None.

Definition dave : UserDoc.t :=
  UserDoc.mk 3%N "dave" (bcrypt_hash "s3cret!") moderator 0%float 5.

Definition old_key : KeyDoc.t :=
  KeyDoc.mk "OLD-01" "OLD" 30 0%float None None false 100 "bob".
Definition new_key : KeyDoc.t :=
  KeyDoc.mk "NEW-01" "NEW" 30 0%float None None false 200 "carol".
Definition mid_key : KeyDoc.t :=
  KeyDoc.mk "MID-01" "MID" 7 0%float None None false 150 "bob".

Definition world : World :=
  mkWorld [old_key; new_key; mid_key] [Sample.bob; Sample.carol; dave]
          [Sample.tier30] [].

Definition project : list Dirent :=
  [FileEnt "package.json" "{}";
   DirEnt "node_modules" [DirEnt "next" [FileEnt "index.js" "x"]];
   DirEnt "src" [DirEnt "app" [FileEnt "actions.ts" "a";
                               DirEnt ".git" [FileEnt "HEAD" "h"]];
                 FileEnt ".next" "n"];
   DirEnt ".git" [FileEnt "config" "c"]].
End Fixture.

(** * Properties *)

Arguments formatISO_date : simpl never.
Arguments addDays : simpl never.
Arguments Date_of_iso : simpl never.
Arguments reported_time : simpl never.

(** ** Collections *)

Section CollectionFacts.
Context {Doc : Type}.
Variable flt : Doc -> bool.

Lemma findOne_Some_matches (c : list Doc) (d : Doc) :
  Mongo.findOne flt c = Some d -> flt d = true /\ In d c.
Proof.
  unfold Mongo.findOne. intros H.
  apply find_some in H. tauto.
Qed.

Lemma findOne_existsb (c : list Doc) (d : Doc) :
  Mongo.findOne flt c = Some d -> existsb flt c = true.
Proof.
  intros H. apply findOne_Some_matches in H.
  apply existsb_exists. exists d. tauto.
Qed.

(** An update that keeps the filtered field is seen by the next
    [findOne] with the same filter. *)
Lemma findOne_updateOne (update : Doc -> Doc) (c : list Doc) :
  (forall d, flt (update d) = flt d) ->
  Mongo.findOne flt (Mongo.updateOne flt update c)
  = option_map update (Mongo.findOne flt c).
Proof.
  intros keep. unfold Mongo.findOne.
  induction c as [|d c IH]; simpl; [reflexivity|].
  destruct (flt d) eqn:E; simpl.
  - rewrite keep, E. reflexivity.
  - rewrite E. exact IH.
Qed.

Lemma updateOne_no_match (update : Doc -> Doc) (c : list Doc) :
  Mongo.findOne flt c = None -> Mongo.updateOne flt update c = c.
Proof.
  unfold Mongo.findOne.
  induction c as [|d c IH]; simpl; [reflexivity|].
  destruct (flt d); [discriminate|].
  intros H. rewrite IH by exact H. reflexivity.
Qed.

(** [updateOne] leaves alone whatever the filter does not select. *)
Lemma updateOne_others (other : Doc -> bool) (update : Doc -> Doc)
    (c : list Doc) :
  (forall d, flt d = true -> other d = false) ->
  (forall d, other (update d) = other d) ->
  List.filter other (Mongo.updateOne flt update c) = List.filter other c.
Proof.
  intros disjoint keep.
  induction c as [|d c IH]; simpl; [reflexivity|].
  destruct (flt d) eqn:E; simpl.
  - rewrite keep, (disjoint d E). reflexivity.
  - rewrite IH. reflexivity.
Qed.

(** [deleteOne] takes out the document [findOne] would return, and
    nothing else. *)
Lemma deleteOne_split (c : list Doc) (d : Doc) :
  Mongo.findOne flt c = Some d ->
  exists before after,
    c = (before ++ d :: after)%list
    /\ Mongo.deleteOne flt c = (before ++ after)%list
    /\ Forall (fun x => flt x = false) before.
Proof.
  unfold Mongo.findOne.
  induction c as [|x c IH]; simpl; [discriminate|].
  destruct (flt x) eqn:E.
  - intros [= ->]. exists [], c. simpl. auto.
  - intros H. destruct (IH H) as (before & after & -> & Hdel & Hall).
    exists (x :: before), after. simpl. rewrite Hdel. auto.
Qed.

Lemma deleteMany_In (c : list Doc) (d : Doc) :
  In d (Mongo.deleteMany flt c) <-> In d c /\ flt d = false.
Proof.
  unfold Mongo.deleteMany. rewrite filter_In.
  destruct (flt d); simpl; intuition congruence.
Qed.

Lemma countDocuments_deleteMany (c : list Doc) :
  (Mongo.countDocuments flt c + List.length (Mongo.deleteMany flt c))%nat
  = List.length c.
Proof.
  unfold Mongo.countDocuments, Mongo.deleteMany.
  induction c as [|d c IH]; simpl; [reflexivity|].
  destruct (flt d); simpl; lia.
Qed.
End CollectionFacts.

(** ** Running actions on a store that does not fail *)

Lemma store_call_quiet {A} (op : World -> A * World) (env : Env) (w : World) :
  faults w = [] ->
  store_call op env w = (Returned (fst (op w)), snd (op w)).
Proof.
  unfold store_call. intros ->. destruct (op w). reflexivity.
Qed.

(** Destructs the world and forgets its (empty) fault schedule. *)
Ltac quiet w :=
  let ks := fresh "ks" in
  let us := fresh "us" in
  let ps := fresh "ps" in
  let fs := fresh "fs" in
  destruct w as [ks us ps fs]; simpl in *; subst.

Ltac run_action :=
  unfold bind, ret, ask, try_catch, store_call, getMoscowTime, new_Date; simpl.

(** ** Dates *)

Lemma formatISO_date_addDays (tz : Z) (d : Date) (n : Z) :
  formatISO_date tz (addDays d n) = formatISO_date tz d + n.
Proof.
  unfold formatISO_date, addDays.
  replace (d + n * ms_per_day + tz * ms_per_minute)
    with (d + tz * ms_per_minute + n * ms_per_day) by ring.
  apply Z.div_add. unfold ms_per_day. lia.
Qed.

Lemma validity_clamp (v : Z) :
  (if v >=? 36500 then 36500 else v) = Z.min v 36500.
Proof.
  destruct (Z.geb_spec v 36500); lia.
Qed.

(** The UTC day of an instant, against midnight UTC of a date. *)
Lemma utc_day_lt (now : Date) (e : IsoDate) :
  formatISO_date 0 now < e -> now < Date_of_iso e.
Proof.
  unfold formatISO_date, Date_of_iso, ms_per_minute, ms_per_day.
  rewrite Z.add_0_r. intros H.
  pose proof (Z.div_mod now 86400000 ltac:(lia)).
  pose proof (Z.mod_pos_bound now 86400000 ltac:(lia)).
  nia.
Qed.

Lemma utc_day_ge (now : Date) (e : IsoDate) :
  e <= formatISO_date 0 now -> Date_of_iso e <= now.
Proof.
  unfold formatISO_date, Date_of_iso, ms_per_minute, ms_per_day.
  rewrite Z.add_0_r. intros H.
  pose proof (Z.div_mod now 86400000 ltac:(lia)).
  pose proof (Z.mod_pos_bound now 86400000 ltac:(lia)).
  nia.
Qed.

(** ** Activation *)

(** C2. A key whose record is already active cannot be activated again:
    [activateKey] answers "Key already activated." with [success] false
    and the store, including that record's [expires] and
    [activationDate], is exactly what it was. *)
Theorem activateKey_already_active_rejected
    (key : string) (env : Env) (w : World) (kd : KeyDoc.t) :
  faults w = [] ->
  Mongo.findOne (by_key key) (keys w) = Some kd ->
  KeyDoc.isActive kd = true ->
  activateKey key env w = (Returned key_already_activated, w)
  /\ a_success key_already_activated = false.
Proof.
  intros Hq Hfind Hact. quiet w.
  unfold activateKey, keys_findOne. run_action.
  rewrite Hfind, Hact. split; reflexivity.
Qed.

Lemma activateKey_already_active_rejected_witness :
  activateKey "TRIAL-00AA" (Sample.env_at Sample.t_2025_01_08) Sample.world_active
  = (Returned key_already_activated, Sample.world_active)
  /\ a_success key_already_activated = false.
Proof.
  apply (activateKey_already_active_rejected _ _ _ Sample.trial_active);
    reflexivity.
Defined.

(** C4. Activating an inactive key on local calendar date [D] stores
    [expires = D + min(validityDays, 36500)], [activationDate = D] and
    [isActive = true], and returns that expiry; so 30 days give [D + 30]
    and anything from 36500 up gives [D + 36500]. *)
Theorem activateKey_sets_expiry
    (key : string) (env : Env) (w : World) (kd : KeyDoc.t) :
  faults w = [] ->
  Mongo.findOne (by_key key) (keys w) = Some kd ->
  KeyDoc.isActive kd = false ->
  let D := formatISO_date (tz_offset env) (reported_time env) in
  let E := D + Z.min (KeyDoc.validityDays kd) 36500 in
  exists w' kd',
    activateKey key env w = (Returned (key_activated E), w')
    /\ Mongo.findOne (by_key key) (keys w') = Some kd'
    /\ KeyDoc.expires kd' = Some E
    /\ KeyDoc.activationDate kd' = Some D
    /\ KeyDoc.isActive kd' = true
    /\ (KeyDoc.validityDays kd = 30 -> E = D + 30)
    /\ (36500 <= KeyDoc.validityDays kd -> E = D + 36500).
Proof.
  intros Hq Hfind Hact D E. quiet w.
  unfold activateKey, keys_findOne, keys_updateOne. run_action.
  rewrite Hfind, Hact. simpl.
  rewrite formatISO_date_addDays, validity_clamp. fold D. fold E.
  eexists. exists (KeyDoc.set_activation D E kd).
  split; [reflexivity|]. simpl.
  rewrite findOne_updateOne by reflexivity.
  rewrite Hfind. simpl.
  repeat split; subst E; lia.
Qed.

Lemma activateKey_sets_expiry_witness :
  exists w' kd',
    activateKey "TRIAL-00AA" (Sample.env_at Sample.t_2025_01_01) Sample.world
    = (Returned (key_activated (days_from_civil 2025 1 8)), w')
    /\ Mongo.findOne (by_key "TRIAL-00AA") (keys w') = Some kd'
    /\ option_map IsoDate_to_string (KeyDoc.expires kd') = Some "2025-01-08"
    /\ option_map IsoDate_to_string (KeyDoc.activationDate kd') = Some "2025-01-01"
    /\ KeyDoc.isActive kd' = true.
Proof.
  destruct (activateKey_sets_expiry "TRIAL-00AA"
              (Sample.env_at Sample.t_2025_01_01) Sample.world Sample.trial
              eq_refl eq_refl eq_refl)
    as (w' & kd' & Hrun & Hfind & He & Ha & Hact & _).
  exists w', kd'.
  rewrite He, Ha. repeat split; assumption.
Defined.

(** ** Verification *)

Lemma verifyKey_activated
    (key : string) (env : Env) (w : World) (kd : KeyDoc.t) (e : IsoDate) :
  faults w = [] ->
  Mongo.findOne (by_key key) (keys w) = Some kd ->
  KeyDoc.isActive kd = true ->
  KeyDoc.expires kd = Some e ->
  verifyKey key env w
  = (Returned (if reported_time env >? Date_of_iso e then key_expired
               else key_is_active e), w).
Proof.
  intros Hq Hfind Hact Hexp. quiet w.
  unfold verifyKey, keys_findOne. run_action.
  rewrite Hfind, Hact, Hexp. simpl.
  destruct (reported_time env >? Date_of_iso e); reflexivity.
Qed.

(** C1, as the code has it.  For an activated key, [verifyKey] compares
    the current instant with midnight UTC at the start of the stored
    [expires] date, to the millisecond: it answers valid exactly when the
    instant is not later than that midnight and expired exactly when it
    is later.  Hence every instant of an earlier UTC day is valid, every
    instant of a later UTC day is expired, and on the [expires] day
    itself only the first instant is still valid. *)
Theorem verifyKey_compares_with_utc_midnight
    (key : string) (env : Env) (w : World) (kd : KeyDoc.t) (e : IsoDate) :
  faults w = [] ->
  Mongo.findOne (by_key key) (keys w) = Some kd ->
  KeyDoc.isActive kd = true ->
  KeyDoc.expires kd = Some e ->
  let now := reported_time env in
  let today_utc := formatISO_date 0 now in
  (verifyKey key env w = (Returned (key_is_active e), w)
   <-> now <= Date_of_iso e)
  /\ (verifyKey key env w = (Returned key_expired, w)
      <-> Date_of_iso e < now)
  /\ (today_utc < e -> verifyKey key env w = (Returned (key_is_active e), w))
  /\ (e < today_utc -> verifyKey key env w = (Returned key_expired, w))
  /\ (today_utc = e -> now <> Date_of_iso e ->
      verifyKey key env w = (Returned key_expired, w)).
Proof.
  intros Hq Hfind Hact Hexp now today_utc.
  rewrite (verifyKey_activated key env w kd e Hq Hfind Hact Hexp).
  fold now.
  assert (Hlt : today_utc < e -> now < Date_of_iso e)
    by apply utc_day_lt.
  assert (Hge : e <= today_utc -> Date_of_iso e <= now)
    by apply utc_day_ge.
  assert (Hlate : e < today_utc -> Date_of_iso e < now).
  { intros H.
    assert (Date_of_iso (e + 1) <= now) by (apply utc_day_ge; fold now today_utc; lia).
    unfold Date_of_iso, ms_per_day in *. lia. }
  assert (Hdiff : key_is_active e <> key_expired) by discriminate.
  destruct (Z.gtb_spec now (Date_of_iso e)) as [Hgt|Hle].
  - split; [split; [intros [= H]; discriminate | lia]|].
    split; [split; [lia | reflexivity]|].
    split; [intros H; apply Hlt in H; lia|].
    split; reflexivity.
  - split; [split; [lia | reflexivity]|].
    split; [split; [intros [= H]; discriminate | lia]|].
    split; [reflexivity|].
    split; [intros H; apply Hlate in H; lia|].
    intros H Hne. assert (Date_of_iso e <= now) by (apply Hge; lia). lia.
Qed.

Lemma verifyKey_compares_with_utc_midnight_witness :
  verifyKey "TRIAL-00AA" (Sample.env_at Sample.t_2025_01_01) Sample.world_active
  = (Returned (key_is_active (days_from_civil 2025 1 8)), Sample.world_active).
Proof.
  apply (verifyKey_compares_with_utc_midnight "TRIAL-00AA"
           (Sample.env_at Sample.t_2025_01_01) Sample.world_active
           Sample.trial_active (days_from_civil 2025 1 8)
           eq_refl eq_refl eq_refl eq_refl).
  vm_compute. reflexivity.
Defined.

(** C1, as the spec states it, fails on the [expires] date itself: a key
    that expires on 2025-01-08 is verified at noon UTC of 2025-01-08 (the
    same calendar day in UTC and on the server) and the answer is
    "Key has expired.", not valid. *)
Lemma verifyKey_on_expires_date_is_expired :
  Mongo.findOne (by_key "TRIAL-00AA") (keys Sample.world_active)
  = Some Sample.trial_active
  /\ KeyDoc.isActive Sample.trial_active = true
  /\ option_map IsoDate_to_string (KeyDoc.expires Sample.trial_active)
     = Some "2025-01-08"
  /\ IsoDate_to_string
       (formatISO_date (tz_offset (Sample.env_at Sample.t_2025_01_08))
          (reported_time (Sample.env_at Sample.t_2025_01_08)))
     = "2025-01-08"
  /\ IsoDate_to_string
       (formatISO_date 0 (reported_time (Sample.env_at Sample.t_2025_01_08)))
     = "2025-01-08"
  /\ verifyKey "TRIAL-00AA" (Sample.env_at Sample.t_2025_01_08)
       Sample.world_active
     = (Returned key_expired, Sample.world_active)
  /\ valid key_expired = false.
Proof.
  vm_compute. repeat split; reflexivity.
Qed.

(** ** Ledger *)

Lemma clearModeratorDebt_run (id : ObjectId) (env : Env) (w : World) :
  faults w = [] ->
  clearModeratorDebt id env w
  = (Returned
       match Mongo.findOne (by_id id) (users w) with
       | Some u =>
           if same_number (UserDoc.debt u) 0%float
           then mkStatus false "Failed to clear debt."
           else mkStatus true "Debt cleared successfully."
       | None => mkStatus false "Failed to clear debt."
       end,
     with_users (Mongo.updateOne (by_id id) (UserDoc.set_debt 0%float) (users w)) w).
Proof.
  intros Hq. quiet w.
  unfold clearModeratorDebt, users_updateOne_set_debt, update_result, with_users.
  run_action.
  destruct (Mongo.findOne (by_id id) us) as [u|]; simpl; [|reflexivity].
  destruct (same_number (UserDoc.debt u) 0%float); reflexivity.
Qed.

(** For an account that exists, the stored debt is 0 afterwards whatever
    it was, and the answer is a success unless it already was 0. *)
Lemma clearModeratorDebt_existing
    (id : ObjectId) (env : Env) (w : World) (u : UserDoc.t) :
  faults w = [] ->
  Mongo.findOne (by_id id) (users w) = Some u ->
  exists st w',
    clearModeratorDebt id env w = (Returned st, w')
    /\ Mongo.findOne (by_id id) (users w') = Some (UserDoc.set_debt 0%float u)
    /\ success st = negb (same_number (UserDoc.debt u) 0%float).
Proof.
  intros Hq Hfind.
  rewrite clearModeratorDebt_run by exact Hq.
  do 2 eexists. split; [reflexivity|].
  unfold with_users; simpl.
  rewrite findOne_updateOne by reflexivity.
  rewrite Hfind. simpl. split; [reflexivity|].
  destruct (same_number (UserDoc.debt u) 0%float); reflexivity.
Qed.

Lemma clearModeratorDebt_missing (id : ObjectId) (env : Env) (w : World) :
  faults w = [] ->
  Mongo.findOne (by_id id) (users w) = None ->
  clearModeratorDebt id env w
  = (Returned (mkStatus false "Failed to clear debt."), w).
Proof.
  intros Hq Hfind.
  rewrite clearModeratorDebt_run by exact Hq.
  rewrite Hfind, updateOne_no_match by exact Hfind.
  destruct w; reflexivity.
Qed.

(** C3 at the input where the code departs from it.  Carol's account
    exists and owes 0, as every new moderator does; asked to clear her
    debt, [clearModeratorDebt] leaves the store as it is and answers
    "Failed to clear debt." with [success] false, because the driver
    counts a document that already holds the value as unmodified. *)
Theorem clearModeratorDebt_zero_debt_reports_failure :
  Mongo.findOne (by_id 2%N) (users Sample.world) = Some Sample.carol
  /\ UserDoc.debt Sample.carol = 0%float
  /\ clearModeratorDebt 2%N (Sample.env_at Sample.t_2025_01_01) Sample.world
     = (Returned (mkStatus false "Failed to clear debt."), Sample.world).
Proof.
  repeat split.
Qed.

(** ** Generation *)

Lemma to_nat_nonpos (z : Z) : z <= 0 -> Z.to_nat z = 0%nat.
Proof. lia. Qed.

(** On a store that does not fail: the charge, then the insert, which the
    driver refuses when there is nothing to insert. *)
Lemma generateKeys_quiet
    (prefix : string) (count validityDays : Z) (user : User.t)
    (env : Env) (w : World) :
  faults w = [] ->
  let unit := priceFor (prices w) validityDays in
  let charged := if is_moderator user then unit else 0%float in
  let us' := match User.role user, User.userId user with
             | moderator, Some id =>
                 Mongo.updateOne (by_id id)
                   (UserDoc.inc_debt (number_of_Z count * unit)%float) (users w)
             | _, _ => users w
             end in
  let docs := List.map (fun i =>
                KeyDoc.mk (prefix ++ "-" ++ random_hex env i) prefix
                  validityDays charged None None false (server_clock env)
                  (User.username user)) (List.seq 0 (Z.to_nat count)) in
  generateKeys prefix count validityDays user env w
  = (if 0 <? count
     then Returned (mkGenerateResult (List.map file_entry docs))
     else Thrown InvalidArgument,
     mkWorld (keys w ++ docs) us' (prices w) []).
Proof.
  intros Hq. quiet w.
  unfold generateKeys, prices_findOne, users_updateOne_inc_debt,
    keys_insertMany, is_moderator, priceFor, Mongo.insertMany, throw.
  destruct (Z.ltb_spec 0 count) as [Hpos|Hnonpos].
  - destruct (Z.to_nat count) as [|n] eqn:N; [lia|].
    destruct user as [li r un uid]; simpl.
    destruct r; simpl.
    + run_action. rewrite !map_map. reflexivity.
    + destruct uid as [id|]; run_action; rewrite !map_map; reflexivity.
  - rewrite (to_nat_nonpos count Hnonpos). simpl.
    destruct user as [li r un uid]; simpl.
    destruct r; simpl.
    + run_action. rewrite app_nil_r. reflexivity.
    + destruct uid as [id|]; run_action; rewrite app_nil_r; reflexivity.
Qed.

Lemma generateKeys_quiet_returns
    (prefix : string) (count validityDays : Z) (user : User.t)
    (env : Env) (w : World) :
  faults w = [] ->
  0 < count ->
  let unit := priceFor (prices w) validityDays in
  let charged := if is_moderator user then unit else 0%float in
  let us' := match User.role user, User.userId user with
             | moderator, Some id =>
                 Mongo.updateOne (by_id id)
                   (UserDoc.inc_debt (number_of_Z count * unit)%float) (users w)
             | _, _ => users w
             end in
  let docs := List.map (fun i =>
                KeyDoc.mk (prefix ++ "-" ++ random_hex env i) prefix
                  validityDays charged None None false (server_clock env)
                  (User.username user)) (List.seq 0 (Z.to_nat count)) in
  generateKeys prefix count validityDays user env w
  = (Returned (mkGenerateResult (List.map file_entry docs)),
     mkWorld (keys w ++ docs) us' (prices w) []).
Proof.
  intros Hq Hpos. rewrite generateKeys_quiet by exact Hq.
  apply Z.ltb_lt in Hpos. rewrite Hpos. reflexivity.
Qed.

Lemma generateKeys_quiet_store
    (prefix : string) (count validityDays : Z) (user : User.t)
    (env : Env) (w : World) :
  faults w = [] ->
  let unit := priceFor (prices w) validityDays in
  let charged := if is_moderator user then unit else 0%float in
  let us' := match User.role user, User.userId user with
             | moderator, Some id =>
                 Mongo.updateOne (by_id id)
                   (UserDoc.inc_debt (number_of_Z count * unit)%float) (users w)
             | _, _ => users w
             end in
  let docs := List.map (fun i =>
                KeyDoc.mk (prefix ++ "-" ++ random_hex env i) prefix
                  validityDays charged None None false (server_clock env)
                  (User.username user)) (List.seq 0 (Z.to_nat count)) in
  snd (generateKeys prefix count validityDays user env w)
  = mkWorld (keys w ++ docs) us' (prices w) [].
Proof.
  intros Hq. rewrite generateKeys_quiet by exact Hq. reflexivity.
Qed.


(** The document an [$inc] of the debt leaves: the debt moved by the
    amount, every other field as it was. *)
Lemma charged_account (id : ObjectId) (amount : number) (us : list UserDoc.t)
    (u : UserDoc.t) :
  Mongo.findOne (by_id id) us = Some u ->
  exists u',
    Mongo.findOne (by_id id)
      (Mongo.updateOne (by_id id) (UserDoc.inc_debt amount) us) = Some u'
    /\ UserDoc.debt u' = (UserDoc.debt u + amount)%float
    /\ UserDoc._id u' = UserDoc._id u
    /\ UserDoc.username u' = UserDoc.username u
    /\ UserDoc.password u' = UserDoc.password u
    /\ UserDoc.role u' = UserDoc.role u
    /\ UserDoc.createdAt u' = UserDoc.createdAt u.
Proof.
  intros Hfind. exists (UserDoc.inc_debt amount u).
  rewrite findOne_updateOne by reflexivity.
  rewrite Hfind. repeat split.
Qed.

(** C5, as the code has it.  On a store that does not fail,
    [generateKeys] records on every key it inserts the price of the tier
    (0 when the tier has no row) for a moderator and 0 for an admin.  A
    moderator whose session carries a [userId] has the debt of that
    account moved by exactly [count * price], and no other account
    changes; an admin, and a moderator whose session carries no
    [userId], leave every stored debt as it was.  With [count] at least
    1 the call returns the generated keys with that price; with [count]
    0 or less nothing is inserted and the call throws at the empty
    batch, after the debt was moved. *)
Theorem generateKeys_prices_and_charges
    (prefix : string) (count validityDays : Z) (user : User.t)
    (env : Env) (w : World) :
  faults w = [] ->
  let price := priceFor (prices w) validityDays in
  let charged := if is_moderator user then price else 0%float in
  exists out w' docs,
    generateKeys prefix count validityDays user env w = (out, w')
    /\ keys w' = (keys w ++ docs)%list
    /\ List.length docs = Z.to_nat count
    /\ Forall (fun d => KeyDoc.price d = charged) docs
    /\ (0 < count ->
        exists res,
          out = Returned res
          /\ g_keys res = List.map file_entry docs
          /\ List.length (g_keys res) = Z.to_nat count
          /\ Forall (fun g => g_price g = charged) (g_keys res))
    /\ (count <= 0 -> out = Thrown InvalidArgument)
    /\ (User.role user = admin -> charged = 0%float /\ users w' = users w)
    /\ (User.role user = moderator -> User.userId user = None ->
        charged = price /\ users w' = users w)
    /\ (forall id u,
          User.role user = moderator -> User.userId user = Some id ->
          Mongo.findOne (by_id id) (users w) = Some u ->
          charged = price
          /\ (exists u',
                Mongo.findOne (by_id id) (users w') = Some u'
                /\ UserDoc.debt u'
                   = (UserDoc.debt u + number_of_Z count * price)%float
                /\ UserDoc._id u' = UserDoc._id u
                /\ UserDoc.username u' = UserDoc.username u)
          /\ List.filter (fun x => negb (by_id id x)) (users w')
             = List.filter (fun x => negb (by_id id x)) (users w)).
Proof.
  intros Hq price charged.
  rewrite generateKeys_quiet by exact Hq. fold price. fold charged.
  do 3 eexists. split; [reflexivity|]. simpl.
  split; [reflexivity|].
  split; [rewrite length_map, length_seq; reflexivity|].
  assert (Hdocs : forall d,
            In d (List.map (fun i =>
                    KeyDoc.mk (prefix ++ "-" ++ random_hex env i) prefix
                      validityDays charged None None false (server_clock env)
                      (User.username user)) (List.seq 0 (Z.to_nat count))) ->
            KeyDoc.price d = charged).
  { intros d Hd. apply in_map_iff in Hd. destruct Hd as (i & <- & _).
    reflexivity. }
  split; [apply Forall_forall; exact Hdocs|].
  split.
  { intros Hpos. apply Z.ltb_lt in Hpos. rewrite Hpos.
    eexists. split; [reflexivity|]. simpl.
    split; [reflexivity|].
    split; [rewrite !length_map, length_seq; reflexivity|].
    apply Forall_forall. intros g Hg. apply in_map_iff in Hg.
    destruct Hg as (d & <- & Hd). apply Hdocs, Hd. }
  split.
  { intros Hnonpos. apply Z.ltb_ge in Hnonpos. rewrite Hnonpos. reflexivity. }
  unfold charged, is_moderator.
  split; [intros ->; split; reflexivity|].
  split; [intros -> ->; split; reflexivity|].
  intros id u -> -> Hfind. split; [reflexivity|].
  split.
  - destruct (charged_account id (number_of_Z count * price)%float
                (users w) u Hfind)
      as (u' & Hu' & Hdebt & Hid & Hname & _).
    exists u'. repeat split; assumption.
  - apply updateOne_others; [|reflexivity].
    intros d ->. reflexivity.
Qed.

(** Five keys of the 2.50 tier put exactly 12.50 on bob's debt of 10. *)
Lemma generateKeys_prices_and_charges_witness :
  exists out w',
    generateKeys "ABC" 5 30 Sample.bob_session
      (Sample.env_at Sample.t_2025_01_01) Sample.world = (out, w')
    /\ (exists res,
          out = Returned res
          /\ List.length (g_keys res) = 5%nat
          /\ Forall (fun g => g_price g = 2.5%float) (g_keys res))
    /\ exists u',
         Mongo.findOne (by_id 1%N) (users w') = Some u'
         /\ UserDoc.debt u' = 22.5%float.
Proof.
  destruct (generateKeys_prices_and_charges "ABC" 5 30 Sample.bob_session
              (Sample.env_at Sample.t_2025_01_01) Sample.world eq_refl)
    as (out & w' & docs & Hrun & _ & _ & _ & Hret & _ & _ & _ & Hdebt).
  exists out, w'. split; [exact Hrun|]. split.
  - destruct (Hret eq_refl) as (res & Hout & _ & Hlen & Hprices).
    exists res. repeat split; assumption.
  - destruct (Hdebt 1%N Sample.bob eq_refl eq_refl eq_refl)
      as (_ & (u' & Hu' & Hd & _) & _).
    exists u'. split; [exact Hu' | exact Hd].
Defined.

(** C5, as the spec states it, fails for a moderator session without a
    [userId]: bob generates five keys of the 2.50 tier, each key records
    2.50, and the debt stored for bob stays 10 instead of becoming
    22.50. *)
Lemma generateKeys_moderator_without_userId_not_charged :
  User.role Sample.bob_no_id = moderator
  /\ Mongo.findOne (by_username (User.username Sample.bob_no_id))
       (users Sample.world) = Some Sample.bob
  /\ priceFor (prices Sample.world) 30 = 2.5%float
  /\ exists res w',
       generateKeys "ABC" 5 30 Sample.bob_no_id
         (Sample.env_at Sample.t_2025_01_01) Sample.world = (Returned res, w')
       /\ List.map g_price (g_keys res)
          = [2.5; 2.5; 2.5; 2.5; 2.5]%float
       /\ Mongo.findOne (by_username (User.username Sample.bob_no_id))
            (users w') = Some Sample.bob
       /\ same_number (UserDoc.debt Sample.bob)
            (UserDoc.debt Sample.bob + number_of_Z 5 * 2.5)%float = false.
Proof.
  split; [reflexivity|]. split; [reflexivity|]. split; [reflexivity|].
  do 2 eexists. split; [vm_compute; reflexivity|].
  repeat split.
Qed.



(** ** Deletion *)

Lemma by_prefix_true (p : string) (d : KeyDoc.t) :
  by_prefix p d = true <-> KeyDoc.prefix d = p.
Proof. apply String.eqb_eq. Qed.

Lemma by_prefix_false (p : string) (d : KeyDoc.t) :
  by_prefix p d = false <-> KeyDoc.prefix d <> p.
Proof. apply String.eqb_neq. Qed.

Lemma by_createdBy_false (u : string) (d : KeyDoc.t) :
  by_createdBy u d = false <-> KeyDoc.createdBy d <> u.
Proof. apply String.eqb_neq. Qed.

(** C8. [deleteKeysByPrefix(P)] removes the records whose [prefix] field
    is exactly [P] and no other: the keys collection afterwards holds the
    records with another prefix, in their order, and users and prices
    are as before.  It always answers with [success] true and a message
    that starts with the number of records removed; when nothing matches
    that number is 0 and the keys collection is unchanged. *)
Theorem deleteKeysByPrefix_exact_match
    (P : string) (env : Env) (w : World) :
  faults w = [] ->
  let removed := List.filter (by_prefix P) (keys w) in
  let kept := List.filter (fun d => negb (by_prefix P d)) (keys w) in
  exists w',
    deleteKeysByPrefix P env w
    = (Returned (mkStatus true
                   (decimal (List.length removed) ++ " keys with prefix "
                    ++ dquote ++ P ++ dquote ++ " deleted.")),
       w')
    /\ keys w' = kept
    /\ users w' = users w
    /\ prices w' = prices w
    /\ (forall d, In d removed <-> In d (keys w) /\ KeyDoc.prefix d = P)
    /\ (forall d, In d (keys w') <-> In d (keys w) /\ KeyDoc.prefix d <> P)
    /\ (List.length removed + List.length (keys w'))%nat
       = List.length (keys w)
    /\ ((forall d, In d (keys w) -> KeyDoc.prefix d <> P) ->
        List.length removed = 0%nat /\ keys w' = keys w
        /\ decimal (List.length removed) = "0").
Proof.
  intros Hq removed kept.
  exists (mkWorld kept (users w) (prices w) []).
  split.
  { quiet w. unfold deleteKeysByPrefix, keys_deleteMany. run_action.
    reflexivity. }
  simpl. split; [reflexivity|]. split; [reflexivity|]. split; [reflexivity|].
  split.
  { intros d. unfold removed. rewrite filter_In, by_prefix_true. tauto. }
  split.
  { intros d. unfold kept. rewrite filter_In, negb_true_iff, by_prefix_false.
    tauto. }
  split.
  { apply (countDocuments_deleteMany (by_prefix P) (keys w)). }
  intros Hnone.
  assert (Hkept : kept = keys w).
  { unfold kept. apply forallb_filter_id. apply forallb_forall.
    intros d Hd. apply negb_true_iff, by_prefix_false, Hnone, Hd. }
  assert (Hlen : List.length removed = 0%nat).
  { pose proof (countDocuments_deleteMany (by_prefix P) (keys w)) as Hsum.
    unfold Mongo.countDocuments, Mongo.deleteMany in Hsum.
    fold removed in Hsum. fold kept in Hsum. rewrite Hkept in Hsum. lia. }
  rewrite Hlen. repeat split; assumption.
Qed.

(** Deleting prefix ABC takes ABC-01 and leaves ABCD-01 and TRIAL-00AA. *)
Lemma deleteKeysByPrefix_exact_match_witness :
  exists w',
    deleteKeysByPrefix "ABC" (Sample.env_at Sample.t_2025_01_01) Sample.world
    = (Returned (mkStatus true
                   ("1 keys with prefix " ++ dquote ++ "ABC" ++ dquote
                    ++ " deleted.")),
       w')
    /\ keys w' = [Sample.trial; Sample.abcd1]
    /\ users w' = users Sample.world
    /\ prices w' = prices Sample.world.
Proof.
  destruct (deleteKeysByPrefix_exact_match "ABC"
              (Sample.env_at Sample.t_2025_01_01) Sample.world eq_refl)
    as (w' & Hrun & Hkeys & Husers & Hprices & _).
  exists w'. repeat split; assumption.
Defined.

(** C9. Deleting a stored moderator removes that moderator's record and
    every key whose [createdBy] is the moderator's username; every other
    key, and every other account, stays as it was and where it was. *)
Theorem deleteModerator_cascades
    (id : ObjectId) (env : Env) (w : World) (m : UserDoc.t) :
  faults w = [] ->
  Mongo.findOne (by_id id) (users w) = Some m ->
  let kept := List.filter (fun d => negb (by_createdBy (UserDoc.username m) d))
                (keys w) in
  exists before after,
    users w = (before ++ m :: after)%list
    /\ Forall (fun x => by_id id x = false) before
    /\ deleteModerator id env w
       = (Returned (mkStatus true
                      ("Moderator " ++ dquote ++ UserDoc.username m ++ dquote
                       ++ " and all their keys have been deleted.")),
          mkWorld kept (before ++ after) (prices w) [])
    /\ (forall d, In d kept <->
                  In d (keys w) /\ KeyDoc.createdBy d <> UserDoc.username m).
Proof.
  intros Hq Hfind kept.
  destruct (deleteOne_split (by_id id) (users w) m Hfind)
    as (before & after & Hsplit & Hdel & Hbefore).
  exists before, after.
  split; [exact Hsplit|]. split; [exact Hbefore|].
  split.
  - pose proof (findOne_existsb _ _ _ Hfind) as Hex.
    quiet w.
    unfold deleteModerator, users_findOne, keys_deleteMany, users_deleteOne.
    run_action. rewrite Hfind. simpl. rewrite Hex. simpl.
    unfold with_users, with_keys; simpl. rewrite Hdel. reflexivity.
  - intros d. unfold kept.
    rewrite filter_In, negb_true_iff, by_createdBy_false. tauto.
Qed.

(** Deleting bob removes bob and ABC-01; carol and the other keys stay. *)
Lemma deleteModerator_cascades_witness :
  exists before after,
    users Sample.world = (before ++ Sample.bob :: after)%list
    /\ Forall (fun x => by_id 1%N x = false) before
    /\ deleteModerator 1%N (Sample.env_at Sample.t_2025_01_01) Sample.world
       = (Returned (mkStatus true
                      ("Moderator " ++ dquote ++ "bob" ++ dquote
                       ++ " and all their keys have been deleted.")),
          mkWorld [Sample.trial; Sample.abcd1] (before ++ after)
                  (prices Sample.world) []).
Proof.
  destruct (deleteModerator_cascades 1%N (Sample.env_at Sample.t_2025_01_01)
              Sample.world Sample.bob eq_refl eq_refl)
    as (before & after & Hsplit & Hbefore & Hrun & _).
  exists before, after. repeat split; assumption.
Defined.

(** ** Prices *)

Lemma by_validityDays_true (v : Z) (d : PriceDoc.t) :
  by_validityDays v d = true <-> PriceDoc.validityDays d = v.
Proof. apply Z.eqb_eq. Qed.

Lemma tier_price_updateOne_same (v : Z) (p : number) (ps : list PriceDoc.t) :
  existsb (by_validityDays v) ps = true ->
  tier_price (Mongo.updateOne (by_validityDays v) (PriceDoc.set_price p) ps) v
  = Some p.
Proof.
  unfold tier_price, Mongo.findOne.
  induction ps as [|d ps IH]; simpl; [discriminate|].
  destruct (by_validityDays v d) eqn:E; simpl.
  - intros _.
    assert (Hsame : by_validityDays v (PriceDoc.set_price p d) = true)
      by exact E.
    rewrite Hsame. reflexivity.
  - intros H. rewrite E. exact (IH H).
Qed.

Lemma tier_price_updateOne_other (v v' : Z) (p : number)
    (ps : list PriceDoc.t) :
  v' <> v ->
  tier_price (Mongo.updateOne (by_validityDays v') (PriceDoc.set_price p) ps) v
  = tier_price ps v.
Proof.
  intros Hne. unfold tier_price, Mongo.findOne.
  induction ps as [|d ps IH]; simpl; [reflexivity|].
  destruct (by_validityDays v' d) eqn:E'; simpl.
  - apply by_validityDays_true in E'.
    assert (Hd : by_validityDays v d = false)
      by (apply Z.eqb_neq; congruence).
    assert (Hd' : by_validityDays v (PriceDoc.set_price p d) = false)
      by exact Hd.
    rewrite Hd, Hd'. reflexivity.
  - destruct (by_validityDays v d); [reflexivity | exact IH].
Qed.

Lemma tier_price_append (v v' : Z) (p : number) (ps : list PriceDoc.t) :
  tier_price (ps ++ [PriceDoc.mk v' p])%list v
  = match tier_price ps v with
    | Some q => Some q
    | None => if Z.eqb v' v then Some p else None
    end.
Proof.
  unfold tier_price, Mongo.findOne.
  induction ps as [|d ps IH]; simpl.
  - unfold by_validityDays; simpl. destruct (Z.eqb v' v); reflexivity.
  - destruct (by_validityDays v d); [reflexivity | exact IH].
Qed.

(** One upsert sets the price of its tier and of no other. *)
Lemma tier_price_upsert (v : Z) (op : Z * number) (ps : list PriceDoc.t) :
  tier_price (price_upsert ps op) v
  = if Z.eqb (fst op) v then Some (snd op) else tier_price ps v.
Proof.
  destruct op as [v' p]; simpl.
  unfold price_upsert, Mongo.upsertOne; simpl.
  destruct (existsb (by_validityDays v') ps) eqn:Ex.
  - destruct (Z.eqb_spec v' v) as [->|Hne].
    + apply tier_price_updateOne_same, Ex.
    + apply tier_price_updateOne_other, Hne.
  - rewrite tier_price_append.
    destruct (Z.eqb_spec v' v) as [->|Hne].
    + unfold tier_price.
      destruct (Mongo.findOne (by_validityDays v) ps) as [d|] eqn:F;
        [|reflexivity].
      apply findOne_existsb in F. congruence.
    + destruct (tier_price ps v); reflexivity.
Qed.

Lemma tier_price_bulk (v : Z) (ops : list (Z * number)) (ps : list PriceDoc.t) :
  tier_price (List.fold_left price_upsert ops ps) v
  = applied_price v ops (tier_price ps v).
Proof.
  revert ps. induction ops as [|[v' p] ops IH]; intros ps; simpl;
    [reflexivity|].
  rewrite IH, tier_price_upsert. reflexivity.
Qed.

Lemma applied_price_app (v : Z) (l1 l2 : list (Z * number))
    (current : option number) :
  applied_price v (l1 ++ l2) current
  = applied_price v l2 (applied_price v l1 current).
Proof.
  revert current. induction l1 as [|[v' p] l1 IH]; intros current; simpl;
    [reflexivity|]. apply IH.
Qed.

Lemma applied_price_untouched (v : Z) (ops : list (Z * number))
    (current : option number) :
  (forall op, In op ops -> fst op <> v) ->
  applied_price v ops current = current.
Proof.
  revert current. induction ops as [|[v' p] ops IH]; intros current Hno; simpl;
    [reflexivity|].
  assert (Hne : v' <> v) by (apply (Hno (v', p)); left; reflexivity).
  apply Z.eqb_neq in Hne. rewrite Hne.
  apply IH. intros op Hin. apply Hno. right. exact Hin.
Qed.

Arguments bulk_upserts : simpl never.

Lemma bulk_upserts_cons (op : Z * number) (ops : list (Z * number))
    (env : Env) (w : World) :
  bulk_upserts (op :: ops) env w
  = match store_call
            (fun w0 => (tt, with_prices (price_upsert (prices w0) op) w0))
            env w with
    | (Returned _, w') => bulk_upserts ops env w'
    | (Thrown e, w') => (Thrown e, w')
    end.
Proof. reflexivity. Qed.

Lemma bulk_upserts_quiet (ops : list (Z * number)) (env : Env) (w : World) :
  faults w = [] ->
  bulk_upserts ops env w
  = (Returned tt, with_prices (List.fold_left price_upsert ops (prices w)) w).
Proof.
  revert w. induction ops as [|op ops IH]; intros w Hq.
  - destruct w; reflexivity.
  - rewrite bulk_upserts_cons, store_call_quiet by exact Hq. simpl.
    rewrite IH by exact Hq. destruct w; reflexivity.
Qed.

Section PriceUpdates.
Variable parseInt10 : option string -> option Z.
Variable parseFloat : string -> number.

Let operation := price_operation parseInt10 parseFloat.
Let operations := price_operations parseInt10 parseFloat.

Lemma price_operations_app (l1 l2 : list (string * string)) :
  operations (l1 ++ l2) = (operations l1 ++ operations l2)%list.
Proof.
  unfold operations.
  induction l1 as [|e l1 IH]; simpl; [reflexivity|].
  destruct (price_operation parseInt10 parseFloat e); simpl; rewrite IH;
    reflexivity.
Qed.

Lemma price_operation_bad_price (k value : string) :
  isNaN (parseFloat value) = true \/ (parseFloat value <? 0)%float = true ->
  operation (k, value) = None.
Proof.
  intros Hbad. unfold operation, price_operation.
  destruct (startsWith k "price-"); [|reflexivity].
  destruct (parseInt10 _); [|reflexivity].
  destruct Hbad as [-> | ->]; [reflexivity|].
  rewrite orb_true_r. reflexivity.
Qed.

Lemma price_operation_good (k value : string) (tier : Z) :
  startsWith k "price-" = true ->
  parseInt10 (List.nth_error (split "-" k) 1) = Some tier ->
  isNaN (parseFloat value) = false ->
  (parseFloat value <? 0)%float = false ->
  operation (k, value) = Some (tier, parseFloat value).
Proof.
  intros Hk Ht Hnan Hneg. unfold operation, price_operation.
  rewrite Hk, Ht, Hnan, Hneg. reflexivity.
Qed.

Lemma updateAllPrices_quiet (formData : list (string * string))
    (env : Env) (w : World) :
  faults w = [] ->
  updateAllPrices parseInt10 parseFloat formData env w
  = (Returned (mkStatus true "Prices updated successfully."),
     with_prices (List.fold_left price_upsert (operations formData) (prices w))
       w).
Proof.
  intros Hq.
  unfold updateAllPrices, prices_bulkWrite, getPricesCollection, operations,
    try_catch, bind, ret.
  rewrite store_call_quiet by exact Hq. simpl.
  destruct (price_operations parseInt10 parseFloat formData) as [|op ops];
    simpl.
  - destruct w; reflexivity.
  - rewrite (bulk_upserts_quiet (op :: ops) env w Hq). reflexivity.
Qed.

(** C6, as the code has it.  [updateAllPrices] always answers with
    [success] true and the fixed message "Prices updated successfully.",
    which carries no count.  An entry whose price parses to [NaN] or is
    negative is skipped: the outcome is the one of the form without it.
    An entry [price-<tier>] whose tier and price parse, with a price that
    is not negative, becomes one upsert, run in the order of the form; a
    tier's price afterwards is the price of its last such entry, and the
    price it had before when there is none. *)
Theorem updateAllPrices_partial_success
    (formData : list (string * string)) (env : Env) (w : World) :
  faults w = [] ->
  exists w',
    updateAllPrices parseInt10 parseFloat formData env w
    = (Returned (mkStatus true "Prices updated successfully."), w')
    /\ keys w' = keys w /\ users w' = users w
    /\ (forall v, tier_price (prices w') v
                  = applied_price v (operations formData)
                      (tier_price (prices w) v))
    /\ (forall before k value after,
          formData = (before ++ (k, value) :: after)%list ->
          isNaN (parseFloat value) = true
          \/ (parseFloat value <? 0)%float = true ->
          updateAllPrices parseInt10 parseFloat (before ++ after) env w
          = updateAllPrices parseInt10 parseFloat formData env w)
    /\ (forall before k value after tier,
          formData = (before ++ (k, value) :: after)%list ->
          startsWith k "price-" = true ->
          parseInt10 (List.nth_error (split "-" k) 1) = Some tier ->
          isNaN (parseFloat value) = false ->
          (parseFloat value <? 0)%float = false ->
          operations formData
          = (operations before ++ (tier, parseFloat value) :: operations after)%list
          /\ ((forall op, In op (operations after) -> fst op <> tier) ->
              tier_price (prices w') tier = Some (parseFloat value))).
Proof.
  intros Hq. eexists.
  split; [apply updateAllPrices_quiet, Hq|].
  unfold with_prices; simpl.
  split; [reflexivity|]. split; [reflexivity|].
  split; [intros v; apply tier_price_bulk|].
  split.
  - intros before k value after -> Hbad.
    rewrite !updateAllPrices_quiet by exact Hq.
    rewrite !price_operations_app.
    change (operations ((k, value) :: after))
      with (match operation (k, value) with
            | Some op => op :: operations after
            | None => operations after
            end).
    rewrite price_operation_bad_price by exact Hbad. reflexivity.
  - intros before k value after tier -> Hk Ht Hnan Hneg.
    assert (Hops : operations (before ++ (k, value) :: after)
                   = (operations before
                      ++ (tier, parseFloat value) :: operations after)%list).
    { rewrite price_operations_app.
      change (operations ((k, value) :: after))
        with (match operation (k, value) with
              | Some op => op :: operations after
              | None => operations after
              end).
      rewrite (price_operation_good k value tier Hk Ht Hnan Hneg).
      reflexivity. }
    split; [exact Hops|].
    intros Hlast.
    rewrite tier_price_bulk, Hops, applied_price_app. simpl.
    rewrite Z.eqb_refl. apply applied_price_untouched, Hlast.
Qed.
End PriceUpdates.

(** The 30-day tier is overwritten, the 90-day tier is created, and the
    entry with price -1 is skipped. *)
Lemma updateAllPrices_partial_success_witness :
  exists w',
    updateAllPrices Sample.parseInt10 Sample.parseFloat
      [("price-30", "4"); ("price-7", "-1"); ("price-90", "2.5"); ("other", "x")]
      (Sample.env_at Sample.t_2025_01_01) Sample.world
    = (Returned (mkStatus true "Prices updated successfully."), w')
    /\ tier_price (prices w') 30 = Some 4%float
    /\ tier_price (prices w') 7 = None
    /\ tier_price (prices w') 90 = Some 2.5%float.
Proof.
  destruct (updateAllPrices_partial_success Sample.parseInt10 Sample.parseFloat
              [("price-30", "4"); ("price-7", "-1"); ("price-90", "2.5");
               ("other", "x")]
              (Sample.env_at Sample.t_2025_01_01) Sample.world eq_refl)
    as (w' & Hrun & _ & _ & Hprice & _).
  exists w'. split; [exact Hrun|].
  rewrite !Hprice. repeat split.
Defined.

(** C6, as the spec states it, fails on the returned value: a form that
    applies no entry and a form that applies one are answered with the
    same value, so the count of applied entries is not what is
    returned. *)
Lemma updateAllPrices_returns_no_count :
  List.length (price_operations Sample.parseInt10 Sample.parseFloat []) = 0%nat
  /\ List.length (price_operations Sample.parseInt10 Sample.parseFloat
                    [("price-30", "4")]) = 1%nat
  /\ fst (updateAllPrices Sample.parseInt10 Sample.parseFloat []
            (Sample.env_at Sample.t_2025_01_01) Sample.world)
     = Returned (mkStatus true "Prices updated successfully.")
  /\ fst (updateAllPrices Sample.parseInt10 Sample.parseFloat
            [("price-30", "4")]
            (Sample.env_at Sample.t_2025_01_01) Sample.world)
     = Returned (mkStatus true "Prices updated successfully.").
Proof.
  repeat split.
Qed.

(** ** Overlapping activations *)

(** Two steps of the machine are one call of [activateKey]. *)
Lemma activation_steps_are_activateKey (key : string) (env : Env) (w : World) :
  exists st1 w1 r w2,
    activation_step key env Called w = (st1, w1)
    /\ activation_step key env st1 w1 = (Settled r, w2)
    /\ activateKey key env w = (r, w2).
Proof.
  destruct w as [ks us ps fs].
  unfold activateKey, activation_step, keys_findOne, keys_updateOne.
  run_action.
  destruct fs as [|[|] fs]; simpl;
    try (do 4 eexists; repeat split; reflexivity);
    (destruct (Mongo.findOne (by_key key) ks) as [kd|]; simpl;
     [destruct (KeyDoc.isActive kd); simpl|];
     try (do 4 eexists; repeat split; reflexivity)).
  destruct fs as [|[|] fs]; simpl; do 4 eexists; repeat split; reflexivity.
Qed.

Ltac run_race_steps :=
  unfold run_race, race_step, activation_step, keys_findOne, keys_updateOne;
  run_action.

(** Feeds each [findOne] of the race what the hypotheses say it finds. *)
Ltac race_through :=
  repeat (progress (repeat match goal with
                           | H : Mongo.findOne _ _ = Some _ |- _ => rewrite H
                           | H : KeyDoc.isActive _ = false |- _ => rewrite H
                           | H : forall a e, Mongo.findOne _ _ = _ |- _ =>
                               rewrite H
                           end; simpl)).

(** C7, as the code has it.  [activateKey] reads the record with
    [findOne] and later writes it with an [updateOne] whose filter is the
    key alone.  Of two calls on an inactive key, when one finishes before
    the other starts the first succeeds and the second is answered
    "Key already activated.", and the record keeps the dates of the
    first; when both read before either writes, in any of the four such
    orders, both succeed, each is told the expiry it computed from its
    own reading of the time, and the record is left with the dates of
    the call that wrote last: the later write overwrites the activation
    date and the expiry of the earlier one. *)
Theorem activateKey_two_calls
    (key : string) (env1 env2 : Env) (w : World) (kd : KeyDoc.t) :
  faults w = [] ->
  Mongo.findOne (by_key key) (keys w) = Some kd ->
  KeyDoc.isActive kd = false ->
  let D env := formatISO_date (tz_offset env) (reported_time env) in
  let E env := D env + Z.min (KeyDoc.validityDays kd) 36500 in
  let env_of c := match c with First => env1 | Second => env2 end in
  (succeeded (first (run_race key env1 env2 [First; First; Second; Second] w))
   = true
   /\ already_active
        (second (run_race key env1 env2 [First; First; Second; Second] w))
      = true)
  /\ (succeeded
        (second (run_race key env1 env2 [Second; Second; First; First] w))
      = true
      /\ already_active
           (first (run_race key env1 env2 [Second; Second; First; First] w))
         = true)
  /\ (forall schedule,
        In schedule [[First; Second; First; Second];
                     [First; Second; Second; First];
                     [Second; First; First; Second];
                     [Second; First; Second; First]] ->
        succeeded (first (run_race key env1 env2 schedule w)) = true
        /\ succeeded (second (run_race key env1 env2 schedule w)) = true)
  /\ (forall schedule served,
        (schedule = [First; First; Second; Second] /\ served = First
         \/ schedule = [Second; Second; First; First] /\ served = Second) ->
        exists kd',
          Mongo.findOne (by_key key)
            (keys (store (run_race key env1 env2 schedule w))) = Some kd'
          /\ KeyDoc.isActive kd' = true
          /\ KeyDoc.activationDate kd' = Some (D (env_of served))
          /\ KeyDoc.expires kd' = Some (E (env_of served)))
  /\ (forall schedule,
        In schedule [[First; Second; First; Second];
                     [First; Second; Second; First];
                     [Second; First; First; Second];
                     [Second; First; Second; First]] ->
        first (run_race key env1 env2 schedule w)
        = Settled (Returned (key_activated (E env1)))
        /\ second (run_race key env1 env2 schedule w)
           = Settled (Returned (key_activated (E env2)))
        /\ exists kd',
             Mongo.findOne (by_key key)
               (keys (store (run_race key env1 env2 schedule w))) = Some kd'
             /\ KeyDoc.isActive kd' = true
             /\ KeyDoc.activationDate kd'
                = Some (D (env_of (List.last schedule First)))
             /\ KeyDoc.expires kd'
                = Some (E (env_of (List.last schedule First)))).
Proof.
  intros Hq Hfind Hact D E env_of. quiet w.
  assert (Hseen : forall a e,
             Mongo.findOne (by_key key)
               (Mongo.updateOne (by_key key) (KeyDoc.set_activation a e) ks)
             = Some (KeyDoc.set_activation a e kd)).
  { intros a e. rewrite findOne_updateOne by reflexivity.
    rewrite Hfind. reflexivity. }
  assert (Hlast : forall a e a' e',
             Mongo.findOne (by_key key)
               (Mongo.updateOne (by_key key) (KeyDoc.set_activation a' e')
                  (Mongo.updateOne (by_key key)
                     (KeyDoc.set_activation a e) ks))
             = Some (KeyDoc.set_activation a' e'
                       (KeyDoc.set_activation a e kd))).
  { intros a e a' e'. rewrite findOne_updateOne by reflexivity.
    rewrite Hseen. reflexivity. }
  split; [|split; [|split; [|split]]].
  - run_race_steps. race_through. split; reflexivity.
  - run_race_steps. race_through. split; reflexivity.
  - intros schedule Hin. simpl in Hin.
    destruct Hin as [<-|[<-|[<-|[<-|[]]]]];
      run_race_steps; race_through; split; reflexivity.
  - intros schedule served [[-> ->]|[-> ->]];
      run_race_steps; race_through;
      eexists; (split; [reflexivity|]); simpl;
      unfold E, D; rewrite formatISO_date_addDays, validity_clamp;
      repeat split; reflexivity.
  - intros schedule Hin. simpl in Hin.
    destruct Hin as [<-|[<-|[<-|[<-|[]]]]];
      run_race_steps; race_through;
      unfold E, D; rewrite !formatISO_date_addDays, !validity_clamp;
      (split; [reflexivity|]); (split; [reflexivity|]);
      rewrite Hlast; eexists; (split; [reflexivity|]); simpl;
      repeat split; reflexivity.
Qed.

(** On the TRIAL key (7 days): served one after the other, the call of
    2025-01-01 succeeds and the call of 2025-01-08 is refused; overlapping,
    the record ends with the expiry of the call that wrote last. *)
Lemma activateKey_two_calls_witness :
  (succeeded
     (first (run_race "TRIAL-00AA" (Sample.env_at Sample.t_2025_01_01)
               (Sample.env_at Sample.t_2025_01_08)
               [First; First; Second; Second] Sample.world)) = true
   /\ already_active
        (second (run_race "TRIAL-00AA" (Sample.env_at Sample.t_2025_01_01)
                   (Sample.env_at Sample.t_2025_01_08)
                   [First; First; Second; Second] Sample.world)) = true)
  /\ exists kd',
       Mongo.findOne (by_key "TRIAL-00AA")
         (keys (store (run_race "TRIAL-00AA"
                         (Sample.env_at Sample.t_2025_01_01)
                         (Sample.env_at Sample.t_2025_01_08)
                         [First; Second; First; Second] Sample.world)))
       = Some kd'
       /\ KeyDoc.activationDate kd' = Some (days_from_civil 2025 1 8)
       /\ KeyDoc.expires kd' = Some (days_from_civil 2025 1 15).
Proof.
  destruct (activateKey_two_calls "TRIAL-00AA"
              (Sample.env_at Sample.t_2025_01_01)
              (Sample.env_at Sample.t_2025_01_08)
              Sample.world Sample.trial eq_refl eq_refl eq_refl)
    as (Hserial & _ & _ & _ & Hoverlap).
  split; [exact Hserial|].
  destruct (Hoverlap [First; Second; First; Second] (or_introl eq_refl))
    as (_ & _ & kd' & Hfind & _ & Hdate & Hexp).
  exists kd'. split; [exact Hfind|]. split; [exact Hdate | exact Hexp].
Defined.

(** C7, as the spec states it, fails when the calls overlap: both read
    the TRIAL key while it is inactive, both write, both are answered
    with a success, and the record keeps the dates of the later write
    (activated 2025-01-08, expires 2025-01-15) although the first caller
    was told 2025-01-08 as expiry. *)
Lemma activateKey_overlapping_calls_both_succeed :
  first (run_race "TRIAL-00AA" (Sample.env_at Sample.t_2025_01_01)
           (Sample.env_at Sample.t_2025_01_08)
           [First; Second; First; Second] Sample.world)
  = Settled (Returned (key_activated (days_from_civil 2025 1 8)))
  /\ second (run_race "TRIAL-00AA" (Sample.env_at Sample.t_2025_01_01)
               (Sample.env_at Sample.t_2025_01_08)
               [First; Second; First; Second] Sample.world)
     = Settled (Returned (key_activated (days_from_civil 2025 1 15)))
  /\ a_success (key_activated (days_from_civil 2025 1 8)) = true
  /\ a_success (key_activated (days_from_civil 2025 1 15)) = true
  /\ option_map KeyDoc.expires
       (Mongo.findOne (by_key "TRIAL-00AA")
          (keys (store (run_race "TRIAL-00AA"
                          (Sample.env_at Sample.t_2025_01_01)
                          (Sample.env_at Sample.t_2025_01_08)
                          [First; Second; First; Second] Sample.world))))
     = Some (Some (days_from_civil 2025 1 15)).
Proof.
  vm_compute. repeat split; reflexivity.
Qed.

(** * Further properties of the actions *)

(** ** More on collections *)

Section MoreCollectionFacts.
Context {Doc : Type}.
Variable flt : Doc -> bool.

Lemma updateOne_length (update : Doc -> Doc) (c : list Doc) :
  List.length (Mongo.updateOne flt update c) = List.length c.
Proof.
  induction c as [|d c IH]; simpl; [reflexivity|].
  destruct (flt d); simpl; [reflexivity | rewrite IH; reflexivity].
Qed.

Lemma deleteOne_no_match (c : list Doc) :
  Mongo.findOne flt c = None -> Mongo.deleteOne flt c = c.
Proof.
  unfold Mongo.findOne.
  induction c as [|d c IH]; simpl; [reflexivity|].
  destruct (flt d); [discriminate|].
  intros H. rewrite IH by exact H. reflexivity.
Qed.

Lemma findOne_None_forall (c : list Doc) :
  Mongo.findOne flt c = None <-> (forall d, In d c -> flt d = false).
Proof.
  unfold Mongo.findOne. split.
  - intros H d Hd. exact (find_none flt c H d Hd).
  - induction c as [|x c IH]; simpl; intros H; [reflexivity|].
    rewrite (H x) by (left; reflexivity).
    apply IH. intros d Hd. apply H. right. exact Hd.
Qed.

Lemma findOne_app (c1 c2 : list Doc) :
  Mongo.findOne flt (c1 ++ c2)
  = match Mongo.findOne flt c1 with
    | Some d => Some d
    | None => Mongo.findOne flt c2
    end.
Proof.
  unfold Mongo.findOne.
  induction c1 as [|x c1 IH]; simpl; [reflexivity|].
  destruct (flt x); [reflexivity | exact IH].
Qed.

Lemma existsb_false_findOne (c : list Doc) :
  existsb flt c = false -> Mongo.findOne flt c = None.
Proof.
  unfold Mongo.findOne.
  induction c as [|x c IH]; simpl; [reflexivity|].
  destruct (flt x); simpl; [discriminate | exact IH].
Qed.

Lemma deleteOne_others (other : Doc -> bool) (c : list Doc) :
  (forall d, flt d = true -> other d = false) ->
  List.filter other (Mongo.deleteOne flt c) = List.filter other c.
Proof.
  intros disjoint.
  induction c as [|d c IH]; simpl; [reflexivity|].
  destruct (flt d) eqn:E; simpl.
  - rewrite (disjoint d E). reflexivity.
  - rewrite IH. reflexivity.
Qed.

Lemma deleteMany_twice (c : list Doc) :
  Mongo.deleteMany flt (Mongo.deleteMany flt c) = Mongo.deleteMany flt c.
Proof.
  unfold Mongo.deleteMany.
  induction c as [|d c IH]; simpl; [reflexivity|].
  destruct (flt d) eqn:E; simpl; [exact IH|].
  rewrite E. simpl. rewrite IH. reflexivity.
Qed.

Lemma countDocuments_after_deleteMany (c : list Doc) :
  Mongo.countDocuments flt (Mongo.deleteMany flt c) = 0%nat.
Proof.
  unfold Mongo.countDocuments, Mongo.deleteMany.
  induction c as [|d c IH]; simpl; [reflexivity|].
  destruct (flt d) eqn:E; simpl; [exact IH|].
  rewrite E. exact IH.
Qed.
End MoreCollectionFacts.

(** ** Verification reads, and says valid only for what is stored *)

Lemma verifyKey_run (key : string) (env : Env) (w : World) :
  verifyKey key env w
  = match faults w with
    | true :: later => (Thrown StorageError, with_faults later w)
    | _ => (Returned (verdict (reported_time env) (keys w) key),
            with_faults (List.tl (faults w)) w)
    end.
Proof.
  destruct w as [ks us ps fs].
  unfold verifyKey, keys_findOne, verdict. run_action.
  destruct fs as [|[|] fs]; simpl; try reflexivity;
    (destruct (Mongo.findOne (by_key key) ks) as [kd|]; simpl;
       [|reflexivity];
     destruct (KeyDoc.isActive kd); [|reflexivity];
     destruct (KeyDoc.expires kd) as [e|]; [|reflexivity]; simpl;
     destruct (reported_time env >? Date_of_iso e); reflexivity).
Qed.

Lemma verifyKey_quiet (key : string) (env : Env) (w : World) :
  faults w = [] ->
  verifyKey key env w
  = (Returned (verdict (reported_time env) (keys w) key), w).
Proof.
  intros Hq. rewrite verifyKey_run, Hq. destruct w; simpl in *; subst.
  reflexivity.
Qed.

(** X1. [verifyKey] never writes: whatever the store holds and whether
    or not its call fails, the three collections are afterwards what
    they were; on a store that does not fail a second verification at
    the same clock gives the same answer and the same store. *)
Theorem verifyKey_reads_only (key : string) (env : Env) (w : World) :
  keys (snd (verifyKey key env w)) = keys w
  /\ users (snd (verifyKey key env w)) = users w
  /\ prices (snd (verifyKey key env w)) = prices w
  /\ (faults w = [] ->
      verifyKey key env (snd (verifyKey key env w)) = verifyKey key env w).
Proof.
  split; [|split; [|split]].
  4: { intros Hq. rewrite (verifyKey_quiet key env w Hq). simpl.
       apply verifyKey_quiet, Hq. }
  all: rewrite verifyKey_run; destruct (faults w) as [|[|] fs]; reflexivity.
Qed.

(** *** With the answer of the time service in full *)

Lemma reading_of_env (env : Env) :
  Service.reading (service_of env) env = Instant (reported_time env).
Proof.
  unfold Service.reading, service_of, reported_time.
  destruct (time_api env); reflexivity.
Qed.

Ltac run_service :=
  unfold Service.getMoscowTime, Service.formatISO, Service.addDays,
    Service.later, throw;
  run_action.

Lemma Service_verifyKey_run
    (service : TimeService) (key : string) (env : Env) (w : World) :
  Service.verifyKey service key env w
  = match faults w with
    | true :: later => (Thrown StorageError, with_faults later w)
    | _ =>
        (Returned
           match Mongo.findOne (by_key key) (keys w) with
           | None => mkVerifyResult false "Key not found." None
           | Some kd =>
               match KeyDoc.isActive kd, KeyDoc.expires kd with
               | true, Some e =>
                   if Service.later (Service.reading service env)
                        (Date_of_iso e)
                   then key_expired else key_is_active e
               | _, _ => key_not_activated
               end
           end,
         with_faults (List.tl (faults w)) w)
    end.
Proof.
  destruct w as [ks us ps fs].
  unfold Service.verifyKey, keys_findOne. run_service.
  destruct fs as [|[|] fs]; simpl; try reflexivity;
    (destruct (Mongo.findOne (by_key key) ks) as [kd|]; simpl;
       [|reflexivity];
     destruct (KeyDoc.isActive kd); [|reflexivity];
     destruct (KeyDoc.expires kd) as [e|]; [|reflexivity]; simpl;
     destruct (Service.reading service env) as [t|]; simpl;
     [destruct (t >? Date_of_iso e)|]; reflexivity).
Qed.

(** When the service reports an instant or fails, [Service.verifyKey] is
    [verifyKey]. *)
Lemma Service_verifyKey_of_env (key : string) (env : Env) (w : World) :
  Service.verifyKey (service_of env) key env w = verifyKey key env w.
Proof.
  rewrite Service_verifyKey_run, verifyKey_run, reading_of_env.
  reflexivity.
Qed.

(** X2. [verifyKey] answers valid only for a key that is stored, active
    and carries an expiry, and the expiry it returns is the stored one;
    when the time reading is an instant, that instant is not later than
    midnight UTC at the start of the expiry date.  This holds on any
    store, failing or not.  On a stored, active key with an expiry the
    answer is decided by the reading alone: an instant later than that
    midnight gives "Key has expired.", any other instant gives valid,
    and an Invalid Date, which is what [getMoscowTime] returns when the
    service answers without a [utc_datetime] that reads as a date, gives
    valid whatever the expiry, since the comparison is then false. *)
Theorem verifyKey_valid_is_sound
    (service : TimeService) (key : string) (env : Env) (w : World) :
  (forall r w',
     Service.verifyKey service key env w = (Returned r, w') ->
     valid r = true ->
     exists kd e,
       Mongo.findOne (by_key key) (keys w) = Some kd
       /\ KeyDoc.isActive kd = true
       /\ KeyDoc.expires kd = Some e
       /\ r = key_is_active e
       /\ (forall now, Service.reading service env = Instant now ->
                       now <= Date_of_iso e))
  /\ (forall kd e,
        first_call_fails w = false ->
        Mongo.findOne (by_key key) (keys w) = Some kd ->
        KeyDoc.isActive kd = true ->
        KeyDoc.expires kd = Some e ->
        fst (Service.verifyKey service key env w)
        = Returned match Service.reading service env with
                   | Instant now =>
                       if now >? Date_of_iso e then key_expired
                       else key_is_active e
                   | InvalidDate => key_is_active e
                   end).
Proof.
  rewrite Service_verifyKey_run. split.
  - intros r w' Hrun Hvalid.
    assert (Hr : r = match Mongo.findOne (by_key key) (keys w) with
                     | None => mkVerifyResult false "Key not found." None
                     | Some kd =>
                         match KeyDoc.isActive kd, KeyDoc.expires kd with
                         | true, Some e =>
                             if Service.later (Service.reading service env)
                                  (Date_of_iso e)
                             then key_expired else key_is_active e
                         | _, _ => key_not_activated
                         end
                     end).
    { destruct (faults w) as [|[|] fs]; congruence. }
    clear Hrun. subst r.
    destruct (Mongo.findOne (by_key key) (keys w)) as [kd|]; [|discriminate].
    destruct (KeyDoc.isActive kd) eqn:Hact; [|discriminate].
    destruct (KeyDoc.expires kd) as [e|] eqn:Hexp; [|discriminate].
    exists kd, e.
    destruct (Service.reading service env) as [t|]; simpl in *.
    + destruct (Z.gtb_spec t (Date_of_iso e)); [discriminate|].
      repeat split; auto. intros now [= <-]. lia.
    + repeat split; auto. discriminate.
  - intros kd e Hfirst Hfind Hact Hexp.
    unfold first_call_fails in Hfirst.
    rewrite Hfind, Hact, Hexp.
    destruct (faults w) as [|[|] fs]; simpl in *; try discriminate;
      destruct (Service.reading service env) as [t|]; reflexivity.
Qed.

(** The TRIAL key expired on 2025-01-08.  A year later, with a time
    service that answers without a [utc_datetime], it verifies as
    valid. *)
Lemma verifyKey_valid_is_sound_witness :
  fst (Service.verifyKey (Answered InvalidDate) "TRIAL-00AA"
         (mkEnv None (Date_of_iso (days_from_civil 2026 1 8)) 180 Sample.hex)
         Sample.world_active)
  = Returned (key_is_active (days_from_civil 2025 1 8)).
Proof.
  exact (proj2 (verifyKey_valid_is_sound (Answered InvalidDate) "TRIAL-00AA"
                  (mkEnv None (Date_of_iso (days_from_civil 2026 1 8)) 180
                     Sample.hex)
                  Sample.world_active)
               Sample.trial_active (days_from_civil 2025 1 8)
               eq_refl eq_refl eq_refl eq_refl).
Defined.

(** ** Activation: what it leaves alone, and what verification then says *)

Lemma activateKey_run (key : string) (env : Env) (w : World) :
  activateKey key env w
  = match faults w with
    | true :: later => (Thrown StorageError, with_faults later w)
    | _ =>
        let w1 := with_faults (List.tl (faults w)) w in
        match Mongo.findOne (by_key key) (keys w) with
        | None => (Returned key_not_found, w1)
        | Some kd =>
            if KeyDoc.isActive kd then (Returned key_already_activated, w1)
            else
              let D := formatISO_date (tz_offset env) (reported_time env) in
              let E := D + Z.min (KeyDoc.validityDays kd) 36500 in
              match faults w1 with
              | true :: later => (Thrown StorageError, with_faults later w1)
              | _ =>
                  (Returned (key_activated E),
                   with_keys (Mongo.updateOne (by_key key)
                                (KeyDoc.set_activation D E) (keys w))
                     (with_faults (List.tl (faults w1)) w1))
              end
        end
    end.
Proof.
  destruct w as [ks us ps fs].
  unfold activateKey, keys_findOne, keys_updateOne. run_action.
  destruct fs as [|[|] fs]; simpl; try reflexivity;
    (destruct (Mongo.findOne (by_key key) ks) as [kd|]; simpl;
       [|reflexivity];
     destruct (KeyDoc.isActive kd); simpl; [reflexivity|];
     rewrite formatISO_date_addDays, validity_clamp).
  - reflexivity.
  - destruct fs as [|[|] fs]; reflexivity.
Qed.

Lemma activateKey_quiet
    (key : string) (env : Env) (w : World) (kd : KeyDoc.t) :
  faults w = [] ->
  Mongo.findOne (by_key key) (keys w) = Some kd ->
  KeyDoc.isActive kd = false ->
  let D := formatISO_date (tz_offset env) (reported_time env) in
  let E := D + Z.min (KeyDoc.validityDays kd) 36500 in
  activateKey key env w
  = (Returned (key_activated E),
     with_keys (Mongo.updateOne (by_key key) (KeyDoc.set_activation D E)
                  (keys w)) w).
Proof.
  intros Hq Hfind Hact D E.
  destruct w as [ks us ps fs]; simpl in *; subst fs.
  rewrite activateKey_run. simpl. rewrite Hfind, Hact. reflexivity.
Qed.

(** X3. [activateKey] touches nothing but the record of its key: on any
    store, failing or not, the users and the prices are unchanged, the
    number of keys is unchanged, and every record with another key
    string is unchanged and in its place. *)
Theorem activateKey_frame (key : string) (env : Env) (w : World) :
  users (snd (activateKey key env w)) = users w
  /\ prices (snd (activateKey key env w)) = prices w
  /\ List.length (keys (snd (activateKey key env w))) = List.length (keys w)
  /\ List.filter (fun d => negb (by_key key d))
       (keys (snd (activateKey key env w)))
     = List.filter (fun d => negb (by_key key d)) (keys w).
Proof.
  rewrite activateKey_run.
  assert (Hothers : forall a e,
    List.filter (fun d => negb (by_key key d))
      (Mongo.updateOne (by_key key) (KeyDoc.set_activation a e) (keys w))
    = List.filter (fun d => negb (by_key key d)) (keys w)).
  { intros a e. apply updateOne_others; [|reflexivity].
    intros d ->. reflexivity. }
  destruct (faults w) as [|[|] fs]; simpl; auto;
    (destruct (Mongo.findOne (by_key key) (keys w)) as [kd|]; simpl; auto;
     destruct (KeyDoc.isActive kd); simpl; auto).
  - rewrite updateOne_length, Hothers. auto.
  - destruct fs as [|[|] fs]; simpl; auto;
      rewrite updateOne_length, Hothers; auto.
Qed.

(** X4. Activating a key string that no record carries answers
    "Key not found." with [success] false and changes nothing. *)
Theorem activateKey_missing_key (key : string) (env : Env) (w : World) :
  faults w = [] ->
  Mongo.findOne (by_key key) (keys w) = None ->
  activateKey key env w = (Returned key_not_found, w)
  /\ a_success key_not_found = false
  /\ a_message key_not_found = "Key not found.".
Proof.
  intros Hq Hfind.
  destruct w as [ks us ps fs]; simpl in *; subst fs.
  rewrite activateKey_run. simpl. rewrite Hfind. repeat split.
Qed.

Lemma activateKey_missing_key_witness :
  activateKey "NOPE-00" (Sample.env_at Sample.t_2025_01_01) Sample.world
  = (Returned key_not_found, Sample.world).
Proof.
  exact (proj1 (activateKey_missing_key "NOPE-00"
                  (Sample.env_at Sample.t_2025_01_01) Sample.world
                  eq_refl eq_refl)).
Defined.

Lemma verifyKey_after_activation
    (key : string) (env env' : Env) (w : World) (kd : KeyDoc.t) :
  faults w = [] ->
  Mongo.findOne (by_key key) (keys w) = Some kd ->
  KeyDoc.isActive kd = false ->
  let E := formatISO_date (tz_offset env) (reported_time env)
           + Z.min (KeyDoc.validityDays kd) 36500 in
  verifyKey key env' (snd (activateKey key env w))
  = (Returned (if reported_time env' >? Date_of_iso E then key_expired
               else key_is_active E),
     snd (activateKey key env w)).
Proof.
  intros Hq Hfind Hact E.
  rewrite (activateKey_quiet key env w kd Hq Hfind Hact). simpl.
  rewrite verifyKey_quiet by (destruct w; exact Hq).
  unfold verdict, with_keys; simpl.
  rewrite findOne_updateOne by reflexivity.
  rewrite Hfind. reflexivity.
Qed.

(** X5. Activation followed by verification: once [activateKey] has
    succeeded at local date [D] for a key of [validityDays = v], a later
    [verifyKey] answers valid with expiry [D + min(v, 36500)] when its
    clock is not past midnight UTC of that date, answers expired when it
    is, and leaves the store as activation left it. *)
Theorem activateKey_then_verifyKey
    (key : string) (env env' : Env) (w : World) (kd : KeyDoc.t) :
  faults w = [] ->
  Mongo.findOne (by_key key) (keys w) = Some kd ->
  KeyDoc.isActive kd = false ->
  let E := formatISO_date (tz_offset env) (reported_time env)
           + Z.min (KeyDoc.validityDays kd) 36500 in
  let w' := snd (activateKey key env w) in
  fst (activateKey key env w) = Returned (key_activated E)
  /\ (reported_time env' <= Date_of_iso E ->
      verifyKey key env' w' = (Returned (key_is_active E), w'))
  /\ (Date_of_iso E < reported_time env' ->
      verifyKey key env' w' = (Returned key_expired, w')).
Proof.
  intros Hq Hfind Hact E w'. unfold w'.
  rewrite (verifyKey_after_activation key env env' w kd Hq Hfind Hact).
  fold E.
  split; [rewrite (activateKey_quiet key env w kd Hq Hfind Hact); reflexivity|].
  destruct (Z.gtb_spec (reported_time env') (Date_of_iso E)); split; intros;
    try reflexivity; lia.
Qed.

Lemma activateKey_then_verifyKey_witness :
  fst (activateKey "TRIAL-00AA" (Sample.env_at Sample.t_2025_01_01) Sample.world)
  = Returned (key_activated (days_from_civil 2025 1 8))
  /\ fst (verifyKey "TRIAL-00AA" (Sample.env_at (Sample.t_2025_01_01 + 1))
            (snd (activateKey "TRIAL-00AA" (Sample.env_at Sample.t_2025_01_01)
                    Sample.world)))
     = Returned (key_is_active (days_from_civil 2025 1 8)).
Proof.
  destruct (activateKey_then_verifyKey "TRIAL-00AA"
              (Sample.env_at Sample.t_2025_01_01)
              (Sample.env_at (Sample.t_2025_01_01 + 1))
              Sample.world Sample.trial eq_refl eq_refl eq_refl)
    as (Hact & Hvalid & _).
  split; [exact Hact|].
  rewrite Hvalid; [reflexivity | vm_compute; discriminate].
Defined.

Lemma expiry_window (tz : Z) (now : Date) (V : Z) :
  now + tz * ms_per_minute + (V - 1) * ms_per_day
  < Date_of_iso (formatISO_date tz now + V)
  <= now + tz * ms_per_minute + V * ms_per_day.
Proof.
  unfold Date_of_iso, formatISO_date, ms_per_day.
  set (x := now + tz * ms_per_minute).
  pose proof (Z.div_mod x 86400000 ltac:(lia)).
  pose proof (Z.mod_pos_bound x 86400000 ltac:(lia)).
  nia.
Qed.

(** X6. How long an activated key lasts.  With [v = min(validityDays,
    36500)] and the server [tz] minutes east of UTC, a key activated at
    instant [t] verifies as valid up to [t + (v - 1) days + tz minutes]
    at least, and as expired from [t + v days + tz minutes] on; so on a
    server at or east of UTC a key of one day or more is valid at the
    instant of its activation. *)
Theorem activated_key_lifetime
    (key : string) (env env' : Env) (w : World) (kd : KeyDoc.t) :
  faults w = [] ->
  Mongo.findOne (by_key key) (keys w) = Some kd ->
  KeyDoc.isActive kd = false ->
  let v := Z.min (KeyDoc.validityDays kd) 36500 in
  let t := reported_time env in
  let off := tz_offset env * ms_per_minute in
  let w' := snd (activateKey key env w) in
  (reported_time env' <= t + (v - 1) * ms_per_day + off ->
   valid_after env' w' key = true)
  /\ (t + v * ms_per_day + off < reported_time env' ->
      valid_after env' w' key = false)
  /\ (0 <= tz_offset env -> 1 <= KeyDoc.validityDays kd ->
      valid_after env w' key = true).
Proof.
  intros Hq Hfind Hact v t off w'.
  pose proof (expiry_window (tz_offset env) t v) as Hwin. fold off in Hwin.
  assert (Hv : forall e2,
    valid_after e2 w' key
    = negb (reported_time e2
            >? Date_of_iso (formatISO_date (tz_offset env) t + v))).
  { intros e2. unfold valid_after, w'.
    rewrite (verifyKey_after_activation key env e2 w kd Hq Hfind Hact).
    simpl. fold t. fold v.
    destruct (reported_time e2
              >? Date_of_iso (formatISO_date (tz_offset env) t + v));
      reflexivity. }
  split; [|split].
  - intros H. rewrite Hv.
    destruct (Z.gtb_spec (reported_time env')
                (Date_of_iso (formatISO_date (tz_offset env) t + v)));
      [lia | reflexivity].
  - intros H. rewrite Hv.
    destruct (Z.gtb_spec (reported_time env')
                (Date_of_iso (formatISO_date (tz_offset env) t + v)));
      [reflexivity | lia].
  - intros Htz Hval. rewrite Hv. fold t.
    assert (1 <= v) by (unfold v; lia).
    assert (0 <= off) by (unfold off, ms_per_minute; lia).
    assert (0 <= (v - 1) * ms_per_day) by (unfold ms_per_day; lia).
    destruct (Z.gtb_spec t
                (Date_of_iso (formatISO_date (tz_offset env) t + v)));
      [lia | reflexivity].
Qed.

Lemma activated_key_lifetime_witness :
  valid_after (Sample.env_at Sample.t_2025_01_01)
    (snd (activateKey "TRIAL-00AA" (Sample.env_at Sample.t_2025_01_01)
            Sample.world))
    "TRIAL-00AA" = true.
Proof.
  apply (proj2 (proj2 (activated_key_lifetime "TRIAL-00AA"
                         (Sample.env_at Sample.t_2025_01_01)
                         (Sample.env_at Sample.t_2025_01_01)
                         Sample.world Sample.trial eq_refl eq_refl eq_refl)));
    cbv; discriminate.
Defined.

(** ** Generated keys *)

(** X7. Every record [generateKeys] inserts is inactive, has neither
    activation date nor expiry, carries the prefix, the validity and the
    requester's username, and has the key text prefix, dash, random
    suffix; the returned list names the same keys in the same order. *)
Theorem generateKeys_fresh_records
    (prefix : string) (count validityDays : Z) (user : User.t)
    (env : Env) (w : World) :
  faults w = [] ->
  0 < count ->
  exists res w' docs,
    generateKeys prefix count validityDays user env w = (Returned res, w')
    /\ keys w' = (keys w ++ docs)%list
    /\ docs <> []
    /\ List.map g_key (g_keys res) = List.map KeyDoc.key docs
    /\ List.map KeyDoc.key docs
       = List.map (fun i => prefix ++ "-" ++ random_hex env i)
           (List.seq 0 (Z.to_nat count))
    /\ Forall (fun d =>
                 KeyDoc.isActive d = false
                 /\ KeyDoc.expires d = None
                 /\ KeyDoc.activationDate d = None
                 /\ KeyDoc.prefix d = prefix
                 /\ KeyDoc.validityDays d = validityDays
                 /\ KeyDoc.createdBy d = User.username user) docs.
Proof.
  intros Hq Hcount.
  rewrite generateKeys_quiet_returns by assumption.
  do 3 eexists. split; [reflexivity|]. simpl.
  split; [reflexivity|].
  split.
  { destruct (Z.to_nat count) eqn:E; [lia|]. simpl. discriminate. }
  split; [rewrite !map_map; reflexivity|].
  split; [rewrite map_map; reflexivity|].
  apply Forall_forall. intros d Hd. apply in_map_iff in Hd.
  destruct Hd as (i & <- & _). repeat split.
Qed.

Lemma generateKeys_fresh_records_witness :
  exists res w' docs,
    generateKeys "ABC" 2 30 Sample.admin_session
      (Sample.env_at Sample.t_2025_01_01) Sample.world = (Returned res, w')
    /\ keys w' = (keys Sample.world ++ docs)%list
    /\ List.map KeyDoc.key docs
       = ["ABC-0123456789ABCDEF0123456789ABCDE0";
          "ABC-0123456789ABCDEF0123456789ABCDE1"]
    /\ Forall (fun d => KeyDoc.isActive d = false) docs.
Proof.
  destruct (generateKeys_fresh_records "ABC" 2 30 Sample.admin_session
              (Sample.env_at Sample.t_2025_01_01) Sample.world
              eq_refl eq_refl)
    as (res & w' & docs & Hrun & Hkeys & _ & _ & Hnames & Hall).
  exists res, w', docs. repeat split; try assumption.
  eapply Forall_impl; [|exact Hall]. simpl. tauto.
Defined.

(** X8. Generation followed by verification and activation: a generated
    key whose text no stored record carried before is found afterwards
    as an inactive record; [verifyKey] answers "Key not activated." for
    it and [activateKey] succeeds on it with the expiry of its
    validity. *)
Theorem generateKeys_then_use
    (prefix : string) (count validityDays : Z) (user : User.t)
    (env env' : Env) (w : World) (i : nat) :
  faults w = [] ->
  (i < Z.to_nat count)%nat ->
  let k := prefix ++ "-" ++ random_hex env i in
  Mongo.findOne (by_key k) (keys w) = None ->
  let w' := snd (generateKeys prefix count validityDays user env w) in
  (exists d, Mongo.findOne (by_key k) (keys w') = Some d
             /\ KeyDoc.isActive d = false
             /\ KeyDoc.validityDays d = validityDays)
  /\ verifyKey k env' w' = (Returned key_not_activated, w')
  /\ fst (activateKey k env' w')
     = Returned (key_activated
                   (formatISO_date (tz_offset env') (reported_time env')
                    + Z.min validityDays 36500)).
Proof.
  intros Hq Hi k Hnew w'.
  assert (Hfaults : faults w' = []).
  { unfold w'. rewrite generateKeys_quiet_store by exact Hq. reflexivity. }
  assert (Hfound : exists d, Mongo.findOne (by_key k) (keys w') = Some d
                             /\ KeyDoc.isActive d = false
                             /\ KeyDoc.expires d = None
                             /\ KeyDoc.validityDays d = validityDays).
  { unfold w'. rewrite generateKeys_quiet_store by exact Hq. simpl.
    rewrite findOne_app, Hnew.
    match goal with
    | |- context [Mongo.findOne _ ?l] =>
        destruct (Mongo.findOne (by_key k) l) as [d|] eqn:F
    end.
    - exists d. split; [reflexivity|].
      apply findOne_Some_matches in F. destruct F as [_ Hin].
      apply in_map_iff in Hin. destruct Hin as (j & <- & _).
      repeat split.
    - exfalso.
      rewrite findOne_None_forall in F.
      specialize (F (KeyDoc.mk k prefix validityDays
                       (if is_moderator user
                        then priceFor (prices w) validityDays else 0%float)
                       None None false (server_clock env)
                       (User.username user))).
      unfold by_key in F; simpl in F. rewrite String.eqb_refl in F.
      assert (true = false); [|discriminate].
      apply F. apply in_map_iff. exists i. split; [reflexivity|].
      apply in_seq. lia. }
  destruct Hfound as (d & Hd & Hact & Hexp & Hval).
  split; [exists d; auto|].
  split.
  - rewrite verifyKey_quiet by exact Hfaults.
    unfold verdict. rewrite Hd, Hact. reflexivity.
  - rewrite (activateKey_quiet k env' w' d Hfaults Hd Hact).
    rewrite Hval. reflexivity.
Qed.

Lemma generateKeys_then_use_witness :
  verifyKey "ABC-0123456789ABCDEF0123456789ABCDE1"
    (Sample.env_at Sample.t_2025_01_08)
    (snd (generateKeys "ABC" 2 30 Sample.admin_session
            (Sample.env_at Sample.t_2025_01_01) Sample.world))
  = (Returned key_not_activated,
     snd (generateKeys "ABC" 2 30 Sample.admin_session
            (Sample.env_at Sample.t_2025_01_01) Sample.world)).
Proof.
  refine (proj1 (proj2 (generateKeys_then_use "ABC" 2 30 Sample.admin_session
                          (Sample.env_at Sample.t_2025_01_01)
                          (Sample.env_at Sample.t_2025_01_08)
                          Sample.world 1 eq_refl _ eq_refl))).
  vm_compute. lia.
Defined.

(** ** Deleting one key *)

Lemma deleteKey_quiet (key : string) (env : Env) (w : World) :
  faults w = [] ->
  deleteKey key env w
  = (Returned (if existsb (by_key key) (keys w)
               then mkStatus true ("Key " ++ key ++ " deleted.")
               else mkStatus false "Key not found."),
     with_keys (Mongo.deleteOne (by_key key) (keys w)) w).
Proof.
  intros Hq. quiet w. unfold deleteKey, keys_deleteOne. run_action.
  destruct (existsb (by_key key) ks); reflexivity.
Qed.

(** X9. [deleteKey] removes at most one record: when some record carries
    the key it removes the first such record, so that the keys
    collection afterwards is what stood before that record followed by
    what stood after it, and answers with [success] true; when none does
    it answers "Key not found." and the keys collection is unchanged.
    Users and prices are as before either way. *)
Theorem deleteKey_removes_one (key : string) (env : Env) (w : World) :
  faults w = [] ->
  exists st w',
    deleteKey key env w = (Returned st, w')
    /\ users w' = users w
    /\ prices w' = prices w
    /\ (forall d, Mongo.findOne (by_key key) (keys w) = Some d ->
          st = mkStatus true ("Key " ++ key ++ " deleted.")
          /\ exists before after,
               keys w = (before ++ d :: after)%list
               /\ Forall (fun x => KeyDoc.key x <> key) before
               /\ keys w' = (before ++ after)%list)
    /\ (Mongo.findOne (by_key key) (keys w) = None ->
        st = mkStatus false "Key not found." /\ keys w' = keys w).
Proof.
  intros Hq. rewrite deleteKey_quiet by exact Hq.
  do 2 eexists. split; [reflexivity|]. simpl.
  split; [reflexivity|]. split; [reflexivity|]. split.
  - intros d Hd.
    rewrite (findOne_existsb _ _ _ Hd). split; [reflexivity|].
    destruct (deleteOne_split (by_key key) (keys w) d Hd)
      as (before & after & Hsplit & Hdel & Hbefore).
    exists before, after. split; [exact Hsplit|]. split; [|exact Hdel].
    eapply Forall_impl; [|exact Hbefore].
    intros x Hx. apply String.eqb_neq. exact Hx.
  - intros Hnone.
    rewrite deleteOne_no_match by exact Hnone.
    destruct (existsb (by_key key) (keys w)) eqn:Ex; [|split; reflexivity].
    apply existsb_exists in Ex. destruct Ex as (x & Hin & Hx).
    rewrite findOne_None_forall in Hnone. rewrite (Hnone x Hin) in Hx.
    discriminate.
Qed.

(** Deleting ABC-01 leaves TRIAL-00AA and ABCD-01. *)
Lemma deleteKey_removes_one_witness :
  exists st w',
    deleteKey "ABC-01" (Sample.env_at Sample.t_2025_01_01) Sample.world
    = (Returned st, w')
    /\ st = mkStatus true "Key ABC-01 deleted."
    /\ keys w' = [Sample.trial; Sample.abcd1]
    /\ users w' = users Sample.world
    /\ prices w' = prices Sample.world.
Proof.
  destruct (deleteKey_removes_one "ABC-01"
              (Sample.env_at Sample.t_2025_01_01) Sample.world eq_refl)
    as (st & w' & Hrun & Husers & Hprices & Hfound & _).
  destruct (Hfound Sample.abc1 eq_refl) as (Hst & _).
  exists st, w'. split; [exact Hrun|]. split; [exact Hst|].
  split; [|split; assumption].
  vm_compute in Hrun. injection Hrun as _ <-. reflexivity.
Defined.

Lemma findOne_deleteOne_unique (key : string) (ks : list KeyDoc.t) :
  NoDup (List.map KeyDoc.key ks) ->
  Mongo.findOne (by_key key) (Mongo.deleteOne (by_key key) ks) = None.
Proof.
  unfold Mongo.findOne.
  induction ks as [|d ks IH]; simpl; [reflexivity|].
  intros Hnd. inversion Hnd as [|? ? Hnotin Hnd']; subst.
  destruct (by_key key d) eqn:E; simpl.
  - apply String.eqb_eq in E.
    apply (proj2 (findOne_None_forall (by_key key) ks)).
    intros x Hx. apply String.eqb_neq. intros Heq.
    apply Hnotin. rewrite E, <- Heq. apply in_map. exact Hx.
  - rewrite E. apply IH. exact Hnd'.
Qed.

(** X10. Deletion followed by verification and activation: when key
    texts are unique in the store, a deleted key is gone for both
    API functions, which answer "Key not found.". *)
Theorem deleteKey_then_not_found
    (key : string) (env env' : Env) (w : World) :
  faults w = [] ->
  NoDup (List.map KeyDoc.key (keys w)) ->
  let w' := snd (deleteKey key env w) in
  fst (verifyKey key env' w')
  = Returned (mkVerifyResult false "Key not found." None)
  /\ fst (activateKey key env' w') = Returned key_not_found.
Proof.
  intros Hq Hnd w'.
  assert (Hgone : Mongo.findOne (by_key key) (keys w') = None).
  { unfold w'. rewrite deleteKey_quiet by exact Hq. simpl.
    apply findOne_deleteOne_unique, Hnd. }
  assert (Hfaults : faults w' = []).
  { unfold w'. rewrite deleteKey_quiet by exact Hq. destruct w; exact Hq. }
  split.
  - rewrite verifyKey_quiet by exact Hfaults.
    unfold verdict. rewrite Hgone. reflexivity.
  - rewrite activateKey_run, Hfaults. simpl. rewrite Hgone. reflexivity.
Qed.

Lemma deleteKey_then_not_found_witness :
  fst (verifyKey "ABC-01" (Sample.env_at Sample.t_2025_01_08)
         (snd (deleteKey "ABC-01" (Sample.env_at Sample.t_2025_01_01)
                 Sample.world)))
  = Returned (mkVerifyResult false "Key not found." None).
Proof.
  refine (proj1 (deleteKey_then_not_found "ABC-01"
                   (Sample.env_at Sample.t_2025_01_01)
                   (Sample.env_at Sample.t_2025_01_08)
                   Sample.world eq_refl _)).
  repeat constructor; simpl; intuition discriminate.
Defined.

(** ** Deleting many *)

(** X11. [deleteModerator] with an id that no account has answers
    "Moderator not found." with [success] false and deletes nothing,
    neither an account nor a key. *)
Theorem deleteModerator_missing (id : ObjectId) (env : Env) (w : World) :
  faults w = [] ->
  Mongo.findOne (by_id id) (users w) = None ->
  deleteModerator id env w
  = (Returned (mkStatus false "Moderator not found."), w).
Proof.
  intros Hq Hnone. quiet w.
  unfold deleteModerator, users_findOne. run_action.
  rewrite Hnone. reflexivity.
Qed.

Lemma deleteModerator_missing_witness :
  deleteModerator 9%N (Sample.env_at Sample.t_2025_01_01) Sample.world
  = (Returned (mkStatus false "Moderator not found."), Sample.world).
Proof.
  exact (deleteModerator_missing 9%N (Sample.env_at Sample.t_2025_01_01)
           Sample.world eq_refl eq_refl).
Defined.

Lemma deleteKeysByPrefix_quiet (P : string) (env : Env) (w : World) :
  faults w = [] ->
  deleteKeysByPrefix P env w
  = (Returned (mkStatus true
                 (decimal (Mongo.countDocuments (by_prefix P) (keys w))
                  ++ " keys with prefix " ++ dquote ++ P ++ dquote
                  ++ " deleted.")),
     with_keys (Mongo.deleteMany (by_prefix P) (keys w)) w).
Proof.
  intros Hq. quiet w. unfold deleteKeysByPrefix, keys_deleteMany. run_action.
  reflexivity.
Qed.

(** X12. [deleteKeysByPrefix] is idempotent: run again with the same
    prefix right after, it reports 0 keys deleted and leaves the store
    as the first run left it. *)
Theorem deleteKeysByPrefix_twice (P : string) (env env' : Env) (w : World) :
  faults w = [] ->
  let w' := snd (deleteKeysByPrefix P env w) in
  deleteKeysByPrefix P env' w'
  = (Returned (mkStatus true
                 ("0 keys with prefix " ++ dquote ++ P ++ dquote
                  ++ " deleted.")),
     w').
Proof.
  intros Hq w'. unfold w'.
  rewrite (deleteKeysByPrefix_quiet P env w Hq). simpl.
  rewrite deleteKeysByPrefix_quiet by (destruct w; exact Hq).
  unfold with_keys; simpl.
  rewrite countDocuments_after_deleteMany, deleteMany_twice. reflexivity.
Qed.

Lemma deleteKeysByPrefix_twice_witness :
  deleteKeysByPrefix "ABC" (Sample.env_at Sample.t_2025_01_08)
    (snd (deleteKeysByPrefix "ABC" (Sample.env_at Sample.t_2025_01_01)
            Sample.world))
  = (Returned (mkStatus true
                 ("0 keys with prefix " ++ dquote ++ "ABC" ++ dquote
                  ++ " deleted.")),
     snd (deleteKeysByPrefix "ABC" (Sample.env_at Sample.t_2025_01_01)
            Sample.world)).
Proof.
  exact (deleteKeysByPrefix_twice "ABC" (Sample.env_at Sample.t_2025_01_01)
           (Sample.env_at Sample.t_2025_01_08) Sample.world eq_refl).
Defined.

(** ** The ledger: what clearing a debt leaves alone *)

Lemma map_updateOne_kept {Doc B : Type} (flt : Doc -> bool)
    (update : Doc -> Doc) (f : Doc -> B) (c : list Doc) :
  (forall d, f (update d) = f d) ->
  List.map f (Mongo.updateOne flt update c) = List.map f c.
Proof.
  intros keep.
  induction c as [|d c IH]; simpl; [reflexivity|].
  destruct (flt d); simpl; [rewrite keep | rewrite IH]; reflexivity.
Qed.

Lemma clearModeratorDebt_store (id : ObjectId) (env : Env) (w : World) :
  snd (clearModeratorDebt id env w)
  = match faults w with
    | true :: later => with_faults later w
    | _ => with_users (Mongo.updateOne (by_id id)
                         (UserDoc.set_debt 0%float) (users w))
             (with_faults (List.tl (faults w)) w)
    end.
Proof.
  destruct w as [ks us ps fs].
  unfold clearModeratorDebt, users_updateOne_set_debt, update_result.
  run_action.
  destruct fs as [|[|] fs]; simpl; try reflexivity;
    (destruct (Mongo.findOne (by_id id) us) as [u|]; simpl; [|reflexivity];
     destruct (same_number (UserDoc.debt u) 0%float); reflexivity).
Qed.

(** X13. [clearModeratorDebt] changes nothing but the debt of the
    account with the given id: on any store, failing or not, keys and
    prices are unchanged, every other account is unchanged, and the
    ids, usernames, password hashes and roles of all accounts are what
    they were. *)
Theorem clearModeratorDebt_frame (id : ObjectId) (env : Env) (w : World) :
  let w' := snd (clearModeratorDebt id env w) in
  keys w' = keys w
  /\ prices w' = prices w
  /\ List.filter (fun u => negb (by_id id u)) (users w')
     = List.filter (fun u => negb (by_id id u)) (users w)
  /\ List.map UserDoc._id (users w') = List.map UserDoc._id (users w)
  /\ List.map UserDoc.username (users w') = List.map UserDoc.username (users w)
  /\ List.map UserDoc.password (users w') = List.map UserDoc.password (users w)
  /\ List.map UserDoc.role (users w') = List.map UserDoc.role (users w).
Proof.
  intros w'. unfold w'. rewrite clearModeratorDebt_store.
  assert (Hothers :
    List.filter (fun u => negb (by_id id u))
      (Mongo.updateOne (by_id id) (UserDoc.set_debt 0%float) (users w))
    = List.filter (fun u => negb (by_id id u)) (users w)).
  { apply updateOne_others; [|reflexivity]. intros d ->. reflexivity. }
  destruct (faults w) as [|[|] fs]; simpl;
    rewrite ?Hothers, ?map_updateOne_kept by reflexivity;
    repeat split; reflexivity.
Qed.

(** ** Prices: failures, the one-row-per-tier invariant, and charging *)

(** An ordered bulk write on any store: some first operations are
    applied, all of them exactly when the call returns. *)
Lemma bulk_upserts_any (ops : list (Z * number)) (env : Env) :
  forall w,
  exists out w' n,
    bulk_upserts ops env w = (out, w')
    /\ keys w' = keys w /\ users w' = users w
    /\ (n <= List.length ops)%nat
    /\ prices w' = List.fold_left price_upsert (List.firstn n ops) (prices w)
    /\ ((out = Returned tt /\ n = List.length ops)
        \/ (out = Thrown StorageError /\ (n < List.length ops)%nat)).
Proof.
  induction ops as [|op ops IH]; intros w.
  - exists (Returned tt), w, 0%nat. repeat split; auto.
  - rewrite bulk_upserts_cons. unfold store_call.
    destruct w as [ks us ps fs].
    assert (Hstep : forall fs',
      exists out w' n,
        bulk_upserts ops env (mkWorld ks us (price_upsert ps op) fs')
        = (out, w')
        /\ keys w' = ks /\ users w' = us
        /\ (n <= List.length (op :: ops))%nat
        /\ prices w'
           = List.fold_left price_upsert (List.firstn n (op :: ops)) ps
        /\ ((out = Returned tt /\ n = List.length (op :: ops))
            \/ (out = Thrown StorageError
                /\ (n < List.length (op :: ops))%nat))).
    { intros fs'.
      destruct (IH (mkWorld ks us (price_upsert ps op) fs'))
        as (out & w' & n & Hrun & Hk & Hu & Hn & Hp & Hout).
      exists out, w', (S n). simpl in *.
      split; [exact Hrun|]. split; [exact Hk|]. split; [exact Hu|].
      split; [lia|]. split; [exact Hp|].
      destruct Hout as [[-> ->]|[-> Hlt]]; [left | right]; split; auto; lia. }
    destruct fs as [|[|] fs]; simpl.
    + apply Hstep.
    + exists (Thrown StorageError), (mkWorld ks us ps fs), 0%nat.
      simpl. repeat split; auto; try lia. right. split; [reflexivity | lia].
    + apply Hstep.
Qed.

Lemma writes_through_quiet (m : nat) : writes_through [] m = m.
Proof. destruct m; reflexivity. Qed.

(** An ordered bulk write on any store, by the fault schedule: the
    operations before the first failing write are applied, and the call
    returns exactly when none fails. *)
Lemma bulk_upserts_through (ops : list (Z * number)) (env : Env) :
  forall w,
  exists out w',
    bulk_upserts ops env w = (out, w')
    /\ keys w' = keys w /\ users w' = users w
    /\ prices w'
       = List.fold_left price_upsert
           (List.firstn (writes_through (faults w) (List.length ops)) ops)
           (prices w)
    /\ out = (if Nat.eqb (writes_through (faults w) (List.length ops))
                   (List.length ops)
              then Returned tt else Thrown StorageError).
Proof.
  induction ops as [|op ops IH]; intros w.
  - exists (Returned tt), w. destruct (faults w); repeat split; reflexivity.
  - rewrite bulk_upserts_cons. unfold store_call.
    destruct w as [ks us ps fs].
    destruct fs as [|[|] fs]; simpl.
    + destruct (IH (mkWorld ks us (price_upsert ps op) []))
        as (out & w' & Hrun & Hk & Hu & Hp & Hout).
      simpl in *. rewrite writes_through_quiet in Hp, Hout.
      exists out, w'. repeat split; assumption.
    + exists (Thrown StorageError), (mkWorld ks us ps fs).
      repeat split; reflexivity.
    + destruct (IH (mkWorld ks us (price_upsert ps op) fs))
        as (out & w' & Hrun & Hk & Hu & Hp & Hout).
      simpl in *. exists out, w'. repeat split; assumption.
Qed.

Section MorePriceUpdates.
Variable parseInt10 : option string -> option Z.
Variable parseFloat : string -> number.

Let operations := price_operations parseInt10 parseFloat.

(** [updateAllPrices] on any store. *)
Lemma updateAllPrices_run (formData : list (string * string))
    (env : Env) (w : World) :
  exists st w' n,
    updateAllPrices parseInt10 parseFloat formData env w = (Returned st, w')
    /\ keys w' = keys w /\ users w' = users w
    /\ (n <= List.length (operations formData))%nat
    /\ prices w'
       = List.fold_left price_upsert (List.firstn n (operations formData))
           (prices w)
    /\ ((st = mkStatus true "Prices updated successfully."
         /\ n = List.length (operations formData)
         /\ first_call_fails w = false)
        \/ (st = mkStatus false "Database error while updating prices."
            /\ ((first_call_fails w = true /\ n = 0%nat)
                \/ (n < List.length (operations formData))%nat)))
    /\ (first_call_fails w = true -> n = 0%nat).
Proof.
  unfold updateAllPrices, prices_bulkWrite, getPricesCollection,
    try_catch, bind, ret, first_call_fails.
  fold operations.
  destruct w as [ks us ps fs]. unfold store_call. simpl.
  assert (Hrest : forall fs',
    exists st w' n,
      (let (o, w') :=
         let (o, w') :=
           (if (0 <? List.length (operations formData))%nat
            then match operations formData with
                 | [] => throw InvalidArgument
                 | _ :: _ => bulk_upserts (operations formData)
                 end
            else fun _ w0 => (Returned tt, w0)) env (mkWorld ks us ps fs') in
         match o with
         | Returned _ =>
             (Returned (mkStatus true "Prices updated successfully."), w')
         | Thrown e => (Thrown e, w')
         end in
       match o with
       | Returned a => (Returned a, w')
       | Thrown _ =>
           (Returned (mkStatus false "Database error while updating prices."),
            w')
       end) = (Returned st, w')
      /\ keys w' = ks /\ users w' = us
      /\ (n <= List.length (operations formData))%nat
      /\ prices w'
         = List.fold_left price_upsert (List.firstn n (operations formData)) ps
      /\ ((st = mkStatus true "Prices updated successfully."
           /\ n = List.length (operations formData))
          \/ (st = mkStatus false "Database error while updating prices."
              /\ (n < List.length (operations formData))%nat))).
  { intros fs'.
    destruct (operations formData) as [|op ops] eqn:Hops; simpl.
    - exists (mkStatus true "Prices updated successfully."),
        (mkWorld ks us ps fs'), 0%nat.
      split; [reflexivity|]. split; [reflexivity|]. split; [reflexivity|].
      split; [lia|]. split; [reflexivity|]. left. split; reflexivity.
    - destruct (bulk_upserts_any (op :: ops) env (mkWorld ks us ps fs'))
        as (out & w' & n & Hrun & Hk & Hu & Hn & Hp & Hout).
      rewrite Hrun.
      destruct Hout as [[-> ->]|[-> Hlt]].
      + exists (mkStatus true "Prices updated successfully."), w',
          (List.length (op :: ops)).
        split; [reflexivity|]. split; [exact Hk|]. split; [exact Hu|].
        split; [exact Hn|]. split; [exact Hp|]. left. split; reflexivity.
      + exists (mkStatus false "Database error while updating prices."), w',
          n.
        split; [reflexivity|]. split; [exact Hk|]. split; [exact Hu|].
        split; [exact Hn|]. split; [exact Hp|]. right. split; auto. }
  destruct fs as [|[|] fs]; simpl.
  - destruct (Hrest []) as (st & w' & n & Hrun & Hk & Hu & Hn & Hp & Hout).
    exists st, w', n.
    split; [exact Hrun|]. split; [exact Hk|]. split; [exact Hu|].
    split; [exact Hn|]. split; [exact Hp|].
    split; [|discriminate].
    destruct Hout as [[-> ->]|[-> Hlt]]; [left | right]; auto.
  - exists (mkStatus false "Database error while updating prices."),
      (mkWorld ks us ps fs), 0%nat.
    split; [reflexivity|]. split; [reflexivity|]. split; [reflexivity|].
    split; [lia|]. split; [reflexivity|].
    split; [|reflexivity].
    right. split; [reflexivity|]. left. split; reflexivity.
  - destruct (Hrest fs) as (st & w' & n & Hrun & Hk & Hu & Hn & Hp & Hout).
    exists st, w', n.
    split; [exact Hrun|]. split; [exact Hk|]. split; [exact Hu|].
    split; [exact Hn|]. split; [exact Hp|].
    split; [|discriminate].
    destruct Hout as [[-> ->]|[-> Hlt]]; [left | right]; auto.
Qed.

(** X14. [updateAllPrices] never throws, never touches keys or accounts,
    and applies its operations in order up to the first failure.  Its
    store calls are the connection and then one write per operation.  It
    returns the success state when all of them go through, and the
    state with [success] false and
    "Database error while updating prices." otherwise.  The prices
    afterwards are those of the operations that went through before the
    first failure: all of them when it succeeds, the earlier ones when a
    write fails part-way, none when connecting fails.  A form without
    any applicable entry succeeds exactly when connecting does, and
    changes no price. *)
Theorem updateAllPrices_never_throws
    (formData : list (string * string)) (env : Env) (w : World) :
  let calls := S (List.length (operations formData)) in
  let through := writes_through (faults w) calls in
  exists st w',
    updateAllPrices parseInt10 parseFloat formData env w = (Returned st, w')
    /\ keys w' = keys w /\ users w' = users w
    /\ prices w'
       = List.fold_left price_upsert
           (List.firstn (Nat.pred through) (operations formData)) (prices w)
    /\ st = (if Nat.eqb through calls
             then mkStatus true "Prices updated successfully."
             else mkStatus false "Database error while updating prices.")
    /\ (first_call_fails w = true ->
        st = mkStatus false "Database error while updating prices."
        /\ prices w' = prices w)
    /\ (operations formData = [] ->
        prices w' = prices w
        /\ (success st = true <-> first_call_fails w = false)).
Proof.
  intros calls through.
  assert (Hmain : exists st w',
    updateAllPrices parseInt10 parseFloat formData env w = (Returned st, w')
    /\ keys w' = keys w /\ users w' = users w
    /\ prices w'
       = List.fold_left price_upsert
           (List.firstn (Nat.pred through) (operations formData)) (prices w)
    /\ st = (if Nat.eqb through calls
             then mkStatus true "Prices updated successfully."
             else mkStatus false "Database error while updating prices.")).
  { unfold through, calls.
    unfold updateAllPrices, prices_bulkWrite, getPricesCollection,
      try_catch, bind, ret.
    fold operations.
    destruct w as [ks us ps fs]. unfold store_call. simpl faults.
    assert (Hrest : forall fs',
      exists st w',
        (let (o, w') :=
           let (o, w') :=
             (if (0 <? List.length (operations formData))%nat
              then match operations formData with
                   | [] => throw InvalidArgument
                   | _ :: _ => bulk_upserts (operations formData)
                   end
              else fun _ w0 => (Returned tt, w0)) env (mkWorld ks us ps fs') in
           match o with
           | Returned _ =>
               (Returned (mkStatus true "Prices updated successfully."), w')
           | Thrown e => (Thrown e, w')
           end in
         match o with
         | Returned a => (Returned a, w')
         | Thrown _ =>
             (Returned
                (mkStatus false "Database error while updating prices."),
              w')
         end) = (Returned st, w')
        /\ keys w' = ks /\ users w' = us
        /\ prices w'
           = List.fold_left price_upsert
               (List.firstn
                  (writes_through fs' (List.length (operations formData)))
                  (operations formData)) ps
        /\ st = (if Nat.eqb
                      (writes_through fs' (List.length (operations formData)))
                      (List.length (operations formData))
                 then mkStatus true "Prices updated successfully."
                 else mkStatus false
                        "Database error while updating prices.")).
    { intros fs'.
      destruct (operations formData) as [|op ops] eqn:Hops.
      - exists (mkStatus true "Prices updated successfully."),
          (mkWorld ks us ps fs').
        destruct fs'; repeat split; reflexivity.
      - destruct (bulk_upserts_through (op :: ops) env (mkWorld ks us ps fs'))
          as (out & w' & Hrun & Hk & Hu & Hp & Hout).
        change ((0 <? List.length (op :: ops))%nat) with true. cbv iota.
        rewrite Hrun. simpl faults in Hp, Hout. simpl prices in Hp.
        simpl keys in Hk. simpl users in Hu.
        destruct (Nat.eqb (writes_through fs' (List.length (op :: ops)))
                    (List.length (op :: ops))); subst out;
          eexists; exists w'; repeat split; assumption. }
    destruct fs as [|[|] fs].
    - destruct (Hrest []) as (st & w' & Hrun & Hk & Hu & Hp & Hst).
      rewrite writes_through_quiet in Hp, Hst.
      exists st, w'. simpl. rewrite Nat.eqb_refl in *.
      repeat split; assumption.
    - exists (mkStatus false "Database error while updating prices."),
        (mkWorld ks us ps fs).
      repeat split; reflexivity.
    - destruct (Hrest fs) as (st & w' & Hrun & Hk & Hu & Hp & Hst).
      exists st, w'. simpl. repeat split; assumption. }
  destruct Hmain as (st & w' & Hrun & Hk & Hu & Hp & Hst).
  exists st, w'.
  split; [exact Hrun|]. split; [exact Hk|]. split; [exact Hu|].
  split; [exact Hp|]. split; [exact Hst|].
  unfold first_call_fails. split.
  - intros Hfail. subst st. rewrite Hp. unfold through, calls.
    destruct (faults w) as [|[|] fs]; try discriminate.
    split; reflexivity.
  - intros Hops. subst st. rewrite Hp. unfold through, calls.
    rewrite Hops. simpl.
    destruct (faults w) as [|[|] fs]; simpl;
      (split; [reflexivity|]); split; intros H; try reflexivity;
      discriminate.
Qed.

End MorePriceUpdates.

(** Two operations on a store whose second write fails: the connection
    and the write of the 30-day tier go through, the write of the 90-day
    tier does not; the answer is the failure and the 30-day price is
    changed all the same. *)
Lemma updateAllPrices_never_throws_witness :
  exists w',
    updateAllPrices Sample.parseInt10 Sample.parseFloat
      [("price-30", "4"); ("price-90", "2.5")]
      (Sample.env_at Sample.t_2025_01_01)
      (with_faults [false; false; true] Sample.world)
    = (Returned (mkStatus false "Database error while updating prices."), w')
    /\ tier_price (prices w') 30 = Some 4%float
    /\ tier_price (prices w') 90 = None.
Proof.
  destruct (updateAllPrices_never_throws Sample.parseInt10 Sample.parseFloat
              [("price-30", "4"); ("price-90", "2.5")]
              (Sample.env_at Sample.t_2025_01_01)
              (with_faults [false; false; true] Sample.world))
    as (st & w' & Hrun & _ & _ & Hp & Hst & _).
  exists w'. rewrite Hrun, Hst, Hp. repeat split.
Defined.


Lemma price_upsert_tiers_NoDup (ps : list PriceDoc.t) (op : Z * number) :
  NoDup (List.map PriceDoc.validityDays ps) ->
  NoDup (List.map PriceDoc.validityDays (price_upsert ps op)).
Proof.
  intros Hnd. destruct op as [v p].
  unfold price_upsert, Mongo.upsertOne; simpl.
  destruct (existsb (by_validityDays v) ps) eqn:Ex.
  - rewrite map_updateOne_kept by reflexivity. exact Hnd.
  - rewrite map_app. simpl.
    apply NoDup_app; [exact Hnd | repeat constructor; intros [] |].
    intros t Hin [<-|[]].
    apply in_map_iff in Hin. destruct Hin as (d & Hd & Hin).
    assert (existsb (by_validityDays (PriceDoc.validityDays d)) ps = true).
    { apply existsb_exists. exists d. split; [exact Hin|].
      apply Z.eqb_refl. }
    congruence.
Qed.

(** X15. The prices collection keeps one row per tier: if no two rows
    share a [validityDays] before [updateAllPrices], none do after, on
    any store and for any form, repeated tiers included. *)
Theorem updateAllPrices_one_row_per_tier
    (parseInt10 : option string -> option Z) (parseFloat : string -> number)
    (formData : list (string * string)) (env : Env) (w : World) :
  NoDup (List.map PriceDoc.validityDays (prices w)) ->
  NoDup (List.map PriceDoc.validityDays
           (prices (snd (updateAllPrices parseInt10 parseFloat formData
                           env w)))).
Proof.
  intros Hnd.
  assert (Hfold : forall ops ps,
            NoDup (List.map PriceDoc.validityDays ps) ->
            NoDup (List.map PriceDoc.validityDays
                     (List.fold_left price_upsert ops ps))).
  { induction ops as [|op ops IH]; intros ps Hps; simpl; [exact Hps|].
    apply IH, price_upsert_tiers_NoDup, Hps. }
  destruct (updateAllPrices_run parseInt10 parseFloat formData env w)
    as (st & w' & n & Hrun & _ & _ & _ & Hp & _).
  rewrite Hrun. simpl. rewrite Hp. apply Hfold, Hnd.
Qed.

Lemma updateAllPrices_one_row_per_tier_witness :
  NoDup (List.map PriceDoc.validityDays
           (prices (snd (updateAllPrices Sample.parseInt10 Sample.parseFloat
                           [("price-30", "4"); ("price-90", "2.5");
                            ("price-90", "4")]
                           (Sample.env_at Sample.t_2025_01_01)
                           Sample.world)))).
Proof.
  apply updateAllPrices_one_row_per_tier.
  simpl. repeat constructor. intros [].
Defined.

Lemma priceFor_tier_price (ps : list PriceDoc.t) (v : Z) :
  priceFor ps v = match tier_price ps v with
                  | Some p => p
                  | None => 0%float
                  end.
Proof.
  unfold priceFor, tier_price.
  destruct (Mongo.findOne (by_validityDays v) ps); reflexivity.
Qed.

(** X16. A price set is the price charged.  After [updateAllPrices] has
    run on a form whose last applicable entry for a tier carries price
    [p], a moderator who generates keys of that tier ([count] at least
    1) gets [p] recorded on every key and, when the session carries the
    id of a stored account, finds that account's debt higher by
    [count * p]. *)
Theorem updateAllPrices_then_generateKeys
    (parseInt10 : option string -> option Z) (parseFloat : string -> number)
    (before after : list (string * string)) (k value : string) (tier : Z)
    (prefix : string) (count : Z) (user : User.t) (env env' : Env)
    (w : World) :
  faults w = [] ->
  0 < count ->
  startsWith k "price-" = true ->
  parseInt10 (List.nth_error (split "-" k) 1) = Some tier ->
  isNaN (parseFloat value) = false ->
  (parseFloat value <? 0)%float = false ->
  (forall op, In op (price_operations parseInt10 parseFloat after) ->
              fst op <> tier) ->
  User.role user = moderator ->
  let w1 := snd (updateAllPrices parseInt10 parseFloat
                   (before ++ (k, value) :: after) env w) in
  exists res w2,
    generateKeys prefix count tier user env' w1 = (Returned res, w2)
    /\ List.length (g_keys res) = Z.to_nat count
    /\ Forall (fun g => g_price g = parseFloat value) (g_keys res)
    /\ (forall id u,
          User.userId user = Some id ->
          Mongo.findOne (by_id id) (users w) = Some u ->
          exists u',
            Mongo.findOne (by_id id) (users w2) = Some u'
            /\ UserDoc.debt u'
               = (UserDoc.debt u + number_of_Z count * parseFloat value)%float
            /\ UserDoc.username u' = UserDoc.username u).
Proof.
  intros Hq Hpos Hk Ht Hnan Hneg Hlast Hrole w1.
  assert (Hw1 : w1 = with_prices
                       (List.fold_left price_upsert
                          (price_operations parseInt10 parseFloat
                             (before ++ (k, value) :: after)) (prices w)) w).
  { unfold w1. rewrite updateAllPrices_quiet by exact Hq. reflexivity. }
  assert (Hprice : priceFor (prices w1) tier = parseFloat value).
  { rewrite priceFor_tier_price, Hw1. unfold with_prices; simpl.
    rewrite tier_price_bulk, price_operations_app.
    change (price_operations parseInt10 parseFloat ((k, value) :: after))
      with (match price_operation parseInt10 parseFloat (k, value) with
            | Some op => op :: price_operations parseInt10 parseFloat after
            | None => price_operations parseInt10 parseFloat after
            end).
    rewrite (price_operation_good parseInt10 parseFloat k value tier
               Hk Ht Hnan Hneg).
    rewrite applied_price_app. simpl. rewrite Z.eqb_refl.
    rewrite applied_price_untouched by exact Hlast. reflexivity. }
  assert (Hq1 : faults w1 = []) by (rewrite Hw1; exact Hq).
  rewrite generateKeys_quiet_returns by assumption.
  do 2 eexists. split; [reflexivity|].
  unfold is_moderator. rewrite Hrole, Hprice. simpl.
  split; [rewrite !length_map, length_seq; reflexivity|].
  split.
  - apply Forall_forall. intros g Hg. apply in_map_iff in Hg.
    destruct Hg as (d & <- & Hd). apply in_map_iff in Hd.
    destruct Hd as (i & <- & _). reflexivity.
  - intros id u Hid Hu. rewrite Hid.
    assert (Husers : users w1 = users w) by (rewrite Hw1; reflexivity).
    rewrite Husers.
    destruct (charged_account id (number_of_Z count * parseFloat value)%float
                (users w) u Hu)
      as (u' & Hu' & Hdebt & _ & Hname & _).
    exists u'. repeat split; assumption.
Qed.

Lemma updateAllPrices_then_generateKeys_witness :
  exists res w2 u',
    generateKeys "ABC" 5 30 Sample.bob_session
      (Sample.env_at Sample.t_2025_01_08)
      (snd (updateAllPrices Sample.parseInt10 Sample.parseFloat
              ([("price-7", "-1")] ++ ("price-30", "4") :: [("other", "x")])
              (Sample.env_at Sample.t_2025_01_01) Sample.world))
    = (Returned res, w2)
    /\ Forall (fun g => g_price g = 4%float) (g_keys res)
    /\ Mongo.findOne (by_id 1%N) (users w2) = Some u'
    /\ UserDoc.debt u' = 30%float.
Proof.
  destruct (updateAllPrices_then_generateKeys
              Sample.parseInt10 Sample.parseFloat
              [("price-7", "-1")] [("other", "x")] "price-30" "4" 30
              "ABC" 5 Sample.bob_session
              (Sample.env_at Sample.t_2025_01_01)
              (Sample.env_at Sample.t_2025_01_08) Sample.world
              eq_refl eq_refl eq_refl eq_refl eq_refl eq_refl
              (fun op H => match H with end) eq_refl)
    as (res & w2 & Hrun & _ & Hprices & Hdebt).
  destruct (Hdebt 1%N Sample.bob eq_refl eq_refl) as (u' & Hu' & Hd & _).
  exists res, w2, u'. repeat split; assumption.
Defined.

(** ** Logging in and creating moderators *)

Section AuthFacts.
Variable bcrypt_compare : string -> string -> bool.
Variable bcrypt_hash : string -> string.

Lemma login_run (penv : ProcessEnv) (username password : string)
    (env : Env) (w : World) :
  login bcrypt_compare penv username password env w
  = if admin_credentials penv username password then
      (Returned (Redirected
                   (User.mk true admin (env_or (APP_USERNAME penv) "admin")
                            None)), w)
    else
      match faults w with
      | true :: later => (Thrown StorageError, with_faults later w)
      | _ =>
          (Returned
             match Mongo.findOne (by_username username) (users w) with
             | Some m =>
                 if bcrypt_compare password (UserDoc.password m)
                 then Redirected (moderator_session m)
                 else login_failed
             | None => login_failed
             end,
           with_faults (List.tl (faults w)) w)
      end.
Proof.
  destruct w as [ks us ps fs].
  unfold login, admin_credentials, users_findOne.
  destruct (String.eqb username _ && String.eqb password _); [reflexivity|].
  run_action.
  destruct fs as [|[|] fs]; simpl; try reflexivity;
    (destruct (Mongo.findOne (by_username username) us) as [m|]; simpl;
       [|reflexivity];
     destruct (bcrypt_compare password (UserDoc.password m)); reflexivity).
Qed.

(** X17. The configured admin logs in without the store: when the
    posted fields are the configured username and password ("admin" and
    "password" when the variables are unset or empty), [login] redirects
    with a session of role admin that carries no user id, makes no store
    call, so it works on a failing store, and any stored account of the
    same username is not looked at. *)
Theorem login_admin (penv : ProcessEnv) (username password : string)
    (env : Env) (w : World) :
  username = env_or (APP_USERNAME penv) "admin" ->
  password = env_or (APP_PASSWORD penv) "password" ->
  login bcrypt_compare penv username password env w
  = (Returned (Redirected (User.mk true admin username None)), w).
Proof.
  intros Hu Hp. rewrite login_run. unfold admin_credentials.
  rewrite <- Hu, <- Hp, !String.eqb_refl. reflexivity.
Qed.

(** X18. [login] lets in only on matching credentials and never writes.
    If it redirects, then either the posted fields are the configured
    admin's and the session is the admin's, or the first account stored
    under the posted username has a hash that [bcrypt.compare] accepts
    for the posted password and the session carries that account's
    role, username and id.  The three collections are unchanged in
    every case. *)
Theorem login_is_sound (penv : ProcessEnv) (username password : string)
    (env : Env) (w w' : World) (s : User.t) :
  login bcrypt_compare penv username password env w
  = (Returned (Redirected s), w') ->
  keys w' = keys w /\ users w' = users w /\ prices w' = prices w
  /\ ((admin_credentials penv username password = true
       /\ s = User.mk true admin (env_or (APP_USERNAME penv) "admin") None)
      \/ (admin_credentials penv username password = false
          /\ exists m,
               Mongo.findOne (by_username username) (users w) = Some m
               /\ bcrypt_compare password (UserDoc.password m) = true
               /\ s = moderator_session m)).
Proof.
  rewrite login_run.
  destruct (admin_credentials penv username password).
  - intros [= <- <-]. repeat split. left. split; reflexivity.
  - destruct (faults w) as [|[|] fs]; try discriminate;
      (destruct (Mongo.findOne (by_username username) (users w)) as [m|];
         [|discriminate];
       destruct (bcrypt_compare password (UserDoc.password m)) eqn:C;
         [|discriminate];
       intros [= <- <-]; repeat split; right; split; [reflexivity|];
       exists m; repeat split; assumption).
Qed.
End AuthFacts.

Lemma login_admin_witness :
  login Fixture.bcrypt_compare Fixture.unconfigured "admin" "password"
    (Sample.env_at Sample.t_2025_01_01)
    (with_faults [true] Fixture.world)
  = (Returned (Redirected (User.mk true admin "admin" None)),
     with_faults [true] Fixture.world).
Proof.
  exact (login_admin Fixture.bcrypt_compare Fixture.unconfigured
           "admin" "password" (Sample.env_at Sample.t_2025_01_01)
           (with_faults [true] Fixture.world) eq_refl eq_refl).
Defined.

Lemma login_is_sound_witness :
  keys Fixture.world = keys Fixture.world
  /\ users Fixture.world = users Fixture.world
  /\ prices Fixture.world = prices Fixture.world
  /\ ((admin_credentials Fixture.unconfigured "dave" "s3cret!" = true
       /\ moderator_session Fixture.dave
          = User.mk true admin (env_or (APP_USERNAME Fixture.unconfigured)
                                  "admin") None)
      \/ (admin_credentials Fixture.unconfigured "dave" "s3cret!" = false
          /\ exists m,
               Mongo.findOne (by_username "dave") (users Fixture.world)
               = Some m
               /\ Fixture.bcrypt_compare "s3cret!" (UserDoc.password m) = true
               /\ moderator_session Fixture.dave = moderator_session m)).
Proof.
  exact (login_is_sound Fixture.bcrypt_compare Fixture.unconfigured
           "dave" "s3cret!" (Sample.env_at Sample.t_2025_01_01)
           Fixture.world Fixture.world (moderator_session Fixture.dave)
           eq_refl).
Defined.

Lemma findOne_by_id_unique (us : list UserDoc.t) (m : UserDoc.t) :
  NoDup (List.map UserDoc._id us) ->
  In m us ->
  Mongo.findOne (by_id (UserDoc._id m)) us = Some m.
Proof.
  unfold Mongo.findOne.
  induction us as [|u us IH]; simpl; [intros _ []|].
  intros Hnd Hin. inversion Hnd as [|? ? Hnotin Hnd']; subst.
  unfold by_id at 1.
  destruct (N.eqb_spec (UserDoc._id u) (UserDoc._id m)) as [Heq|Hne].
  - destruct Hin as [->|Hin]; [reflexivity|].
    exfalso. apply Hnotin. rewrite Heq. apply in_map. exact Hin.
  - destruct Hin as [->|Hin]; [congruence|].
    apply IH; assumption.
Qed.

(** X19. A moderator who logged in is charged.  When ids are unique in
    the users collection, the session [login] writes for a stored
    moderator carries that account's id, and [generateKeys] with it
    ([count] at least 1) returns and leaves the debt of that very
    account higher by [count * price]. *)
Theorem login_then_generateKeys
    (bcrypt_compare : string -> string -> bool) (penv : ProcessEnv)
    (username password : string) (m : UserDoc.t)
    (prefix : string) (count validityDays : Z) (env env' : Env) (w : World) :
  faults w = [] ->
  0 < count ->
  NoDup (List.map UserDoc._id (users w)) ->
  admin_credentials penv username password = false ->
  Mongo.findOne (by_username username) (users w) = Some m ->
  bcrypt_compare password (UserDoc.password m) = true ->
  UserDoc.role m = moderator ->
  exists s w1 res w2 m',
    login bcrypt_compare penv username password env w
    = (Returned (Redirected s), w1)
    /\ User.userId s = Some (UserDoc._id m)
    /\ generateKeys prefix count validityDays s env' w1 = (Returned res, w2)
    /\ Mongo.findOne (by_id (UserDoc._id m)) (users w2) = Some m'
    /\ UserDoc.debt m'
       = (UserDoc.debt m
          + number_of_Z count * priceFor (prices w) validityDays)%float
    /\ UserDoc.username m' = UserDoc.username m.
Proof.
  intros Hq Hpos Hnd Hadmin Hfind Hcmp Hrole.
  rewrite login_run, Hadmin, Hq, Hfind, Hcmp. simpl.
  assert (Hw : with_faults [] w = w)
    by (destruct w; simpl in *; subst; reflexivity).
  rewrite Hw.
  assert (Hm : Mongo.findOne (by_id (UserDoc._id m)) (users w) = Some m).
  { apply findOne_by_id_unique; [exact Hnd|].
    apply findOne_Some_matches in Hfind. tauto. }
  destruct (charged_account (UserDoc._id m)
              (number_of_Z count * priceFor (prices w) validityDays)%float
              (users w) m Hm)
    as (m' & Hm' & Hdebt & _ & Hname & _).
  exists (moderator_session m), w. do 2 eexists. exists m'.
  split; [reflexivity|]. split; [reflexivity|].
  rewrite generateKeys_quiet_returns by assumption.
  split; [reflexivity|]. simpl. rewrite Hrole.
  split; [exact Hm'|]. split; assumption.
Qed.

Lemma login_then_generateKeys_witness :
  exists s w1 res w2 m',
    login Fixture.bcrypt_compare Fixture.unconfigured "dave" "s3cret!"
      (Sample.env_at Sample.t_2025_01_01) Fixture.world
    = (Returned (Redirected s), w1)
    /\ User.userId s = Some 3%N
    /\ generateKeys "ABC" 5 30 s (Sample.env_at Sample.t_2025_01_08) w1
       = (Returned res, w2)
    /\ Mongo.findOne (by_id 3%N) (users w2) = Some m'
    /\ UserDoc.debt m' = 12.5%float.
Proof.
  destruct (login_then_generateKeys Fixture.bcrypt_compare
              Fixture.unconfigured "dave" "s3cret!" Fixture.dave "ABC" 5 30
              (Sample.env_at Sample.t_2025_01_01)
              (Sample.env_at Sample.t_2025_01_08) Fixture.world
              eq_refl eq_refl
              ltac:(repeat constructor; simpl; intuition discriminate)
              eq_refl eq_refl eq_refl eq_refl)
    as (s & w1 & res & w2 & m' & Hlogin & Hid & Hgen & Hfind & Hdebt & _).
  exists s, w1, res, w2, m'. repeat split; assumption.
Defined.

Section ModeratorAccounts.
Variable bcrypt_hash : string -> string.

Lemma createModerator_run (new_id : ObjectId) (username password : string)
    (env : Env) (w : World) :
  createModerator bcrypt_hash new_id username password env w
  = if String.eqb username "" || String.eqb password "" then
      (Returned (mkUserState (Some "Username and password are required.")
                   None), w)
    else
      let failed :=
        mkUserState (Some "An error occurred while creating the moderator.")
          None in
      match faults w with
      | true :: later => (Returned failed, with_faults later w)
      | _ =>
          let w1 := with_faults (List.tl (faults w)) w in
          match Mongo.findOne (by_username username) (users w) with
          | Some _ =>
              (Returned
                 (mkUserState
                    (Some "Moderator with this username already exists.")
                    None), w1)
          | None =>
              match faults w1 with
              | true :: later => (Returned failed, with_faults later w1)
              | _ =>
                  (Returned
                     (mkUserState
                        (Some ("Moderator " ++ dquote ++ username ++ dquote
                               ++ " created successfully."))
                        (Some true)),
                   with_users
                     (users w
                      ++ [new_moderator new_id username (bcrypt_hash password)
                            (server_clock env)])%list
                     (with_faults (List.tl (faults w1)) w1))
              end
          end
      end.
Proof.
  destruct w as [ks us ps fs].
  unfold createModerator, users_findOne, users_insertOne, new_moderator.
  destruct (String.eqb username "" || String.eqb password "");
    [reflexivity|].
  run_action.
  destruct fs as [|[|] fs]; simpl; try reflexivity;
    (destruct (Mongo.findOne (by_username username) us) as [m|]; simpl;
       [reflexivity|]).
  - reflexivity.
  - destruct fs as [|[|] fs]; reflexivity.
Qed.

(** X20. [createModerator] never throws and writes at most one account.
    On any store it returns a state.  The state has [success] true only
    when both fields were non-empty and no account had the username, and
    then the users collection has gained, at its end, one account with
    that username, the hash of the password, role moderator and debt 0;
    in every other case the users collection is unchanged.  Keys and
    prices are never touched. *)
Theorem createModerator_outcomes
    (new_id : ObjectId) (username password : string) (env : Env) (w : World) :
  exists st w',
    createModerator bcrypt_hash new_id username password env w
    = (Returned st, w')
    /\ keys w' = keys w /\ prices w' = prices w
    /\ (u_success st = Some true ->
        username <> "" /\ password <> ""
        /\ Mongo.findOne (by_username username) (users w) = None
        /\ users w'
           = (users w
              ++ [UserDoc.mk new_id username (bcrypt_hash password) moderator
                    0%float (server_clock env)])%list)
    /\ (u_success st <> Some true ->
        u_success st = None /\ users w' = users w).
Proof.
  rewrite createModerator_run.
  assert (Hrefused : forall (msg : string) (w0 : World),
    keys w0 = keys w -> prices w0 = prices w -> users w0 = users w ->
    exists st w',
      (Returned (mkUserState (Some msg) None), w0) = (Returned st, w')
      /\ keys w' = keys w /\ prices w' = prices w
      /\ (u_success st = Some true ->
          username <> "" /\ password <> ""
          /\ Mongo.findOne (by_username username) (users w) = None
          /\ users w'
             = (users w
                ++ [UserDoc.mk new_id username (bcrypt_hash password) moderator
                      0%float (server_clock env)])%list)
      /\ (u_success st <> Some true ->
          u_success st = None /\ users w' = users w)).
  { intros msg w0 Hk Hp Hus. do 2 eexists. split; [reflexivity|]. simpl.
    split; [exact Hk|]. split; [exact Hp|].
    split; [discriminate|]. intros _. split; [reflexivity | exact Hus]. }
  destruct (String.eqb_spec username "") as [Hu|Hu]; simpl.
  { apply Hrefused; reflexivity. }
  destruct (String.eqb_spec password "") as [Hp|Hp]; simpl.
  { apply Hrefused; reflexivity. }
  assert (Hcreated : forall fs0,
    Mongo.findOne (by_username username) (users w) = None ->
    exists st w',
      (Returned
         (mkUserState
            (Some ("Moderator " ++ dquote ++ username ++ dquote
                   ++ " created successfully."))
            (Some true)),
       with_users
         (users w
          ++ [new_moderator new_id username (bcrypt_hash password)
                (server_clock env)])%list
         (with_faults fs0 w)) = (Returned st, w')
      /\ keys w' = keys w /\ prices w' = prices w
      /\ (u_success st = Some true ->
          username <> "" /\ password <> ""
          /\ Mongo.findOne (by_username username) (users w) = None
          /\ users w'
             = (users w
                ++ [UserDoc.mk new_id username (bcrypt_hash password) moderator
                      0%float (server_clock env)])%list)
      /\ (u_success st <> Some true ->
          u_success st = None /\ users w' = users w)).
  { intros fs0 Hnone. do 2 eexists. split; [reflexivity|]. simpl.
    split; [reflexivity|]. split; [reflexivity|].
    split; [intros _; repeat split; assumption|].
    intros Hneg. exfalso. apply Hneg. reflexivity. }
  destruct (faults w) as [|[|] fs]; simpl.
  - destruct (Mongo.findOne (by_username username) (users w)) as [m|] eqn:F;
      simpl; [apply Hrefused; reflexivity | apply Hcreated; reflexivity].
  - apply Hrefused; reflexivity.
  - destruct (Mongo.findOne (by_username username) (users w)) as [m|] eqn:F;
      simpl; [apply Hrefused; reflexivity|].
    destruct fs as [|[|] fs]; simpl;
      [apply Hcreated; reflexivity | apply Hrefused; reflexivity
       | apply Hcreated; reflexivity].
Qed.

Lemma NoDup_snoc {A : Type} (l : list A) (x : A) :
  NoDup l -> ~ In x l -> NoDup (l ++ [x]).
Proof.
  intros Hnd Hx. apply NoDup_app; [exact Hnd | repeat constructor; intros [] |].
  intros y Hy [<-|[]]. exact (Hx Hy).
Qed.

(** X21. Usernames stay unique: if no two accounts share a username
    before [createModerator], none do after, on any store and for any
    input. *)
Theorem createModerator_unique_usernames
    (new_id : ObjectId) (username password : string) (env : Env) (w : World) :
  NoDup (List.map UserDoc.username (users w)) ->
  NoDup (List.map UserDoc.username
           (users (snd (createModerator bcrypt_hash new_id username password
                          env w)))).
Proof.
  intros Hnd. rewrite createModerator_run.
  destruct (String.eqb username "" || String.eqb password ""); [exact Hnd|].
  assert (Hadd : Mongo.findOne (by_username username) (users w) = None ->
    NoDup (List.map UserDoc.username
             (users w
              ++ [new_moderator new_id username (bcrypt_hash password)
                    (server_clock env)]))).
  { intros Hnone. rewrite map_app. simpl. apply NoDup_snoc; [exact Hnd|].
    intros Hin. apply in_map_iff in Hin. destruct Hin as (u & Hu & Hin).
    rewrite findOne_None_forall in Hnone. specialize (Hnone u Hin).
    unfold by_username in Hnone. rewrite Hu, String.eqb_refl in Hnone.
    discriminate. }
  destruct (faults w) as [|[|] fs]; simpl; try exact Hnd;
    (destruct (Mongo.findOne (by_username username) (users w)) as [m|];
       simpl; [exact Hnd|]).
  - apply Hadd. reflexivity.
  - destruct fs as [|[|] fs]; simpl; try exact Hnd; apply Hadd; reflexivity.
Qed.
End ModeratorAccounts.

Lemma createModerator_unique_usernames_witness :
  NoDup (List.map UserDoc.username
           (users (snd (createModerator Fixture.bcrypt_hash 4%N "erin" "pa55word"
                          (Sample.env_at Sample.t_2025_01_01) Fixture.world)))).
Proof.
  apply createModerator_unique_usernames.
  repeat constructor; simpl; intuition discriminate.
Defined.

(** X22. A created moderator can log in.  Provided [bcrypt.compare]
    accepts a password against its own hash, after a successful
    [createModerator] on a store that does not fail, [login] with the
    same username and password, when these are not the admin's,
    redirects with a session of role moderator that carries the new
    account's id. *)
Theorem createModerator_then_login
    (bcrypt_compare : string -> string -> bool)
    (bcrypt_hash : string -> string) (penv : ProcessEnv)
    (new_id : ObjectId) (username password : string)
    (env env' : Env) (w : World) :
  (forall p, bcrypt_compare p (bcrypt_hash p) = true) ->
  faults w = [] ->
  username <> "" -> password <> "" ->
  Mongo.findOne (by_username username) (users w) = None ->
  admin_credentials penv username password = false ->
  let w' := snd (createModerator bcrypt_hash new_id username password env w) in
  u_success (match fst (createModerator bcrypt_hash new_id username password
                          env w) with
             | Returned st => st
             | Thrown _ => mkUserState None None
             end) = Some true
  /\ login bcrypt_compare penv username password env' w'
     = (Returned (Redirected (User.mk true moderator username (Some new_id))),
        w').
Proof.
  intros Hlaw Hq Hu Hp Hfresh Hadmin w'. unfold w'.
  rewrite createModerator_run.
  apply String.eqb_neq in Hu. apply String.eqb_neq in Hp.
  rewrite Hu, Hp. simpl.
  destruct w as [ks us ps fs]; simpl in *; subst fs. simpl.
  rewrite Hfresh. simpl. split; [reflexivity|].
  rewrite login_run, Hadmin. simpl.
  rewrite findOne_app, Hfresh. unfold Mongo.findOne, by_username; simpl.
  rewrite String.eqb_refl, Hlaw. reflexivity.
Qed.

Lemma createModerator_then_login_witness :
  login Fixture.bcrypt_compare Fixture.unconfigured "erin" "pa55word"
    (Sample.env_at Sample.t_2025_01_08)
    (snd (createModerator Fixture.bcrypt_hash 4%N "erin" "pa55word"
            (Sample.env_at Sample.t_2025_01_01) Fixture.world))
  = (Returned (Redirected (User.mk true moderator "erin" (Some 4%N))),
     snd (createModerator Fixture.bcrypt_hash 4%N "erin" "pa55word"
            (Sample.env_at Sample.t_2025_01_01) Fixture.world)).
Proof.
  refine (proj2 (createModerator_then_login Fixture.bcrypt_compare
                   Fixture.bcrypt_hash Fixture.unconfigured 4%N
                   "erin" "pa55word"
                   (Sample.env_at Sample.t_2025_01_01)
                   (Sample.env_at Sample.t_2025_01_08) Fixture.world
                   _ eq_refl _ _ eq_refl eq_refl)).
  - intros p. unfold Fixture.bcrypt_compare. apply String.eqb_refl.
  - discriminate.
  - discriminate.
Defined.

(** ** Listings *)

From Stdlib Require Import Permutation Sorted.

Section SortFacts.
Context {Doc : Type}.
Variable createdAt : Doc -> Date.

Let newest_first (a b : Doc) : Prop := createdAt b <= createdAt a.

Lemma insert_newest_first_perm (x : Doc) (l : list Doc) :
  Permutation (insert_newest_first createdAt x l) (x :: l).
Proof.
  induction l as [|y l IH]; simpl; [reflexivity|].
  destruct (createdAt y <=? createdAt x); [reflexivity|].
  rewrite IH. apply perm_swap.
Qed.

Lemma sort_newest_first_perm (l : list Doc) :
  Permutation (sort_newest_first createdAt l) l.
Proof.
  induction l as [|x l IH]; simpl; [reflexivity|].
  rewrite insert_newest_first_perm. constructor. exact IH.
Qed.

Lemma insert_newest_first_sorted (x : Doc) (l : list Doc) :
  Sorted newest_first l ->
  Sorted newest_first (insert_newest_first createdAt x l).
Proof.
  induction l as [|y l IH]; simpl; intros Hs.
  - repeat constructor.
  - destruct (Z.leb_spec (createdAt y) (createdAt x)) as [Hle|Hgt].
    + constructor; [exact Hs|]. constructor. exact Hle.
    + inversion Hs as [|? ? Hs' Hhd]; subst.
      constructor; [apply IH, Hs'|].
      destruct l as [|z l]; simpl.
      * constructor. unfold newest_first. lia.
      * destruct (Z.leb_spec (createdAt z) (createdAt x)).
        -- constructor. unfold newest_first. lia.
        -- inversion Hhd; subst. constructor. assumption.
Qed.

Lemma sort_newest_first_sorted (l : list Doc) :
  Sorted newest_first (sort_newest_first createdAt l).
Proof.
  induction l as [|x l IH]; simpl; [constructor|].
  apply insert_newest_first_sorted, IH.
Qed.
End SortFacts.

Lemma getKeys_quiet (user : User.t) (env : Env) (w : World) :
  faults w = [] ->
  getKeys user env w
  = (Returned
       (sort_newest_first KeyDoc.createdAt
          (List.filter (if UserRole_eqb (User.role user) admin
                        then fun _ => true
                        else by_createdBy (User.username user)) (keys w))),
     w).
Proof.
  intros Hq. quiet w. unfold getKeys, keys_find_sorted. run_action.
  reflexivity.
Qed.

(** X23. [getKeys] shows an admin every key and anyone else exactly the
    keys created under the session's username, each stored record once,
    newest first; it changes nothing. *)
Theorem getKeys_scope (user : User.t) (env : Env) (w : World) :
  faults w = [] ->
  exists listed,
    getKeys user env w = (Returned listed, w)
    /\ Sorted (fun a b => KeyDoc.createdAt b <= KeyDoc.createdAt a) listed
    /\ (User.role user = admin -> Permutation listed (keys w))
    /\ (User.role user <> admin ->
        Permutation listed
          (List.filter (by_createdBy (User.username user)) (keys w))
        /\ forall d, In d listed <->
                     In d (keys w)
                     /\ KeyDoc.createdBy d = User.username user).
Proof.
  intros Hq. rewrite getKeys_quiet by exact Hq.
  eexists. split; [reflexivity|].
  split; [apply sort_newest_first_sorted|].
  split.
  - intros ->. simpl. rewrite sort_newest_first_perm.
    rewrite forallb_filter_id; [reflexivity|].
    apply forallb_forall. reflexivity.
  - intros Hrole.
    assert (Hnot : UserRole_eqb (User.role user) admin = false)
      by (destruct (User.role user); [congruence | reflexivity]).
    rewrite Hnot.
    split; [apply sort_newest_first_perm|].
    intros d. split.
    + intros Hin.
      apply (Permutation_in d (sort_newest_first_perm _ _)) in Hin.
      apply filter_In in Hin. destruct Hin as [Hin Hby].
      split; [exact Hin | apply String.eqb_eq, Hby].
    + intros [Hin Hby].
      apply (Permutation_in d
               (Permutation_sym (sort_newest_first_perm _ _))).
      apply filter_In. split; [exact Hin | apply String.eqb_eq, Hby].
Qed.

Lemma getKeys_scope_witness :
  getKeys Sample.bob_session (Sample.env_at Sample.t_2025_01_01) Fixture.world
  = (Returned [Fixture.mid_key; Fixture.old_key], Fixture.world)
  /\ getKeys Sample.admin_session (Sample.env_at Sample.t_2025_01_01)
       Fixture.world
     = (Returned [Fixture.new_key; Fixture.mid_key; Fixture.old_key],
        Fixture.world).
Proof.
  destruct (getKeys_scope Sample.bob_session
              (Sample.env_at Sample.t_2025_01_01) Fixture.world eq_refl)
    as (listed & Hrun & _).
  split; [|reflexivity].
  rewrite Hrun. vm_compute in Hrun. injection Hrun as <-. reflexivity.
Defined.

Lemma or_zero_not_NaN (x : number) : isNaN (or_zero x) = false.
Proof.
  unfold or_zero, isNaN.
  destruct (PrimFloat.is_nan x) eqn:E; simpl; [reflexivity|].
  destruct (PrimFloat.is_zero x); [reflexivity | exact E].
Qed.

Lemma Sorted_map {A B : Type} (R : A -> A -> Prop) (R' : B -> B -> Prop)
    (f : A -> B) (l : list A) :
  (forall a b, R a b -> R' (f a) (f b)) ->
  Sorted R l -> Sorted R' (List.map f l).
Proof.
  intros Hf Hs.
  induction Hs as [|a l Hs IH Hhd]; simpl; constructor; [exact IH|].
  destruct Hhd; simpl; constructor. apply Hf. assumption.
Qed.

(** X24. [getModerators] lists exactly the accounts of role moderator,
    each once, newest first, with id and username as stored; the debt
    it shows is the stored one unless that is zero or [NaN], which are
    shown as 0, so a shown debt is never [NaN]. *)
Theorem getModerators_lists_moderators (env : Env) (w : World) :
  faults w = [] ->
  exists listed,
    getModerators env w = (Returned listed, w)
    /\ Permutation listed
         (List.map moderator_view
            (List.filter (has_role moderator) (users w)))
    /\ Sorted (fun a b => m_createdAt b <= m_createdAt a) listed
    /\ Forall (fun v => isNaN (m_debt v) = false) listed
    /\ (forall v, In v listed ->
          exists u, In u (users w) /\ UserDoc.role u = moderator
                    /\ m_id v = UserDoc._id u
                    /\ m_username v = UserDoc.username u
                    /\ (isNaN (UserDoc.debt u) = false ->
                        PrimFloat.is_zero (UserDoc.debt u) = false ->
                        m_debt v = UserDoc.debt u)).
Proof.
  intros Hq. quiet w. unfold getModerators, users_find_sorted. run_action.
  eexists. split; [reflexivity|].
  set (mods := List.filter (has_role moderator) us).
  assert (Hin : forall v,
    In v (List.map moderator_view
            (sort_newest_first UserDoc.createdAt mods)) ->
    exists u, In u us /\ UserDoc.role u = moderator /\ v = moderator_view u).
  { intros v Hv. apply in_map_iff in Hv. destruct Hv as (u & <- & Hu).
    apply (Permutation_in u (sort_newest_first_perm _ _)) in Hu.
    apply filter_In in Hu. destruct Hu as [Hu Hr]. exists u.
    split; [exact Hu|]. split; [|reflexivity].
    unfold has_role in Hr. destruct (UserDoc.role u);
      [discriminate | reflexivity]. }
  split; [apply Permutation_map, sort_newest_first_perm|].
  split.
  { apply (Sorted_map
             (fun a b => UserDoc.createdAt b <= UserDoc.createdAt a));
      [intros a b H; exact H | apply sort_newest_first_sorted]. }
  split.
  { apply Forall_forall. intros v Hv. apply Hin in Hv.
    destruct Hv as (u & _ & _ & ->). apply or_zero_not_NaN. }
  intros v Hv. apply Hin in Hv. destruct Hv as (u & Hu & Hr & ->).
  exists u. repeat split; try assumption.
  simpl. unfold or_zero, isNaN. intros -> ->. reflexivity.
Qed.

Lemma getModerators_lists_moderators_witness :
  getModerators (Sample.env_at Sample.t_2025_01_01) Fixture.world
  = (Returned [moderator_view Fixture.dave; moderator_view Sample.bob;
               moderator_view Sample.carol], Fixture.world).
Proof.
  destruct (getModerators_lists_moderators
              (Sample.env_at Sample.t_2025_01_01) Fixture.world eq_refl)
    as (listed & Hrun & _).
  rewrite Hrun. vm_compute in Hrun. injection Hrun as <-. reflexivity.
Defined.

(** X25. Deleting a moderator empties that moderator's listing: after a
    successful [deleteModerator], [getKeys] for a non-admin session of
    the deleted username returns no key. *)
Theorem deleteModerator_then_getKeys
    (id : ObjectId) (m : UserDoc.t) (user : User.t) (env env' : Env)
    (w : World) :
  faults w = [] ->
  Mongo.findOne (by_id id) (users w) = Some m ->
  User.role user <> admin ->
  User.username user = UserDoc.username m ->
  let w' := snd (deleteModerator id env w) in
  getKeys user env' w' = (Returned [], w').
Proof.
  intros Hq Hfind Hrole Hname w'.
  assert (Hw' : faults w' = []
                /\ keys w' = Mongo.deleteMany
                               (by_createdBy (UserDoc.username m)) (keys w)).
  { unfold w'. pose proof (findOne_existsb _ _ _ Hfind) as Hex.
    quiet w.
    unfold deleteModerator, users_findOne, keys_deleteMany, users_deleteOne.
    run_action. rewrite Hfind. simpl. rewrite Hex. simpl.
    split; reflexivity. }
  destruct Hw' as [Hq' Hkeys].
  rewrite getKeys_quiet by exact Hq'.
  assert (Hnot : UserRole_eqb (User.role user) admin = false)
    by (destruct (User.role user); [congruence | reflexivity]).
  rewrite Hnot, Hname, Hkeys.
  assert (Hnone : List.filter (by_createdBy (UserDoc.username m))
                    (Mongo.deleteMany (by_createdBy (UserDoc.username m))
                       (keys w)) = []).
  { pose proof (countDocuments_after_deleteMany
                  (by_createdBy (UserDoc.username m)) (keys w)) as Hc.
    unfold Mongo.countDocuments in Hc.
    apply length_zero_iff_nil. exact Hc. }
  rewrite Hnone. reflexivity.
Qed.

Lemma deleteModerator_then_getKeys_witness :
  getKeys Sample.bob_session (Sample.env_at Sample.t_2025_01_08)
    (snd (deleteModerator 1%N (Sample.env_at Sample.t_2025_01_01)
            Fixture.world))
  = (Returned [],
     snd (deleteModerator 1%N (Sample.env_at Sample.t_2025_01_01)
            Fixture.world)).
Proof.
  refine (deleteModerator_then_getKeys 1%N Sample.bob Sample.bob_session
            (Sample.env_at Sample.t_2025_01_01)
            (Sample.env_at Sample.t_2025_01_08) Fixture.world
            eq_refl eq_refl _ eq_refl).
  discriminate.
Defined.

(** ** The two HTTP routes *)

Lemma verify_POST_run (request : RequestBody) (env : Env) (w : World) :
  verify_POST request env w
  = match request with
    | Malformed => (Returned internal_server_error, w)
    | Json key =>
        if no_key key then (Returned key_is_required, w)
        else
          match faults w with
          | true :: later =>
              (Returned internal_server_error, with_faults later w)
          | _ =>
              (Returned
                 (mkResponse 200
                    (verify_body
                       (verdict (reported_time env) (keys w) (key_text key)))),
               with_faults (List.tl (faults w)) w)
          end
    end.
Proof.
  destruct request as [|key]; [reflexivity|].
  unfold verify_POST, try_catch, bind, ret, verify_body.
  destruct (no_key key); [reflexivity|].
  rewrite verifyKey_run.
  destruct (faults w) as [|[|] fs]; try reflexivity;
    destruct (valid (verdict (reported_time env) (keys w) (key_text key)));
    reflexivity.
Qed.

(** X26. [POST /api/verify] always answers and never writes.  Its status
    is 400 exactly when the body has no key (absent or empty), and then
    the store is not called; it is 500 exactly when the body is
    malformed or the store call fails; otherwise it is 200, whether the
    key is valid or not: not found, not activated and expired all come
    back as 200 with [valid] false and the message, and a valid key as
    200 with the stored expiry. *)
Theorem verify_POST_responses (request : RequestBody) (env : Env) (w : World) :
  exists resp w',
    verify_POST request env w = (Returned resp, w')
    /\ keys w' = keys w /\ users w' = users w /\ prices w' = prices w
    /\ (status resp = 400%nat <->
        exists key, request = Json key /\ no_key key = true)
    /\ (status resp = 500%nat <->
        request = Malformed
        \/ exists key, request = Json key /\ no_key key = false
                       /\ first_call_fails w = true)
    /\ (forall key,
          request = Json key -> no_key key = false ->
          first_call_fails w = false ->
          resp = mkResponse 200
                   (verify_body
                      (verdict (reported_time env) (keys w) (key_text key))))
    /\ (status resp = 400%nat -> w' = w).
Proof.
  rewrite verify_POST_run. unfold first_call_fails.
  destruct request as [|key].
  { do 2 eexists. split; [reflexivity|]. simpl.
    repeat split; auto; try discriminate.
    intros (key & Hk & _). discriminate. }
  destruct (no_key key) eqn:Hno.
  { do 2 eexists. split; [reflexivity|]. simpl.
    repeat split; auto; try discriminate.
    - intros _. exists key. auto.
    - intros [H|(k & Hk & Hn & _)]; [discriminate|].
      injection Hk as <-. congruence.
    - intros k Hk Hn. injection Hk as <-. congruence. }
  destruct (faults w) as [|[|] fs]; simpl;
    do 2 eexists; (split; [reflexivity|]); simpl;
    repeat split; auto; try discriminate;
    try (intros (k & Hk & Hn); injection Hk as <-; congruence);
    try (intros [H|(k & _ & _ & H)]; discriminate);
    try (intros k Hk _ _; injection Hk as <-; reflexivity).
  intros _. right. exists key. auto.
Qed.

Lemma Service_activateKey_run
    (service : TimeService) (key : string) (env : Env) (w : World) :
  Service.activateKey service key env w
  = match faults w with
    | true :: later => (Thrown StorageError, with_faults later w)
    | _ =>
        let w1 := with_faults (List.tl (faults w)) w in
        match Mongo.findOne (by_key key) (keys w) with
        | None => (Returned key_not_found, w1)
        | Some kd =>
            if KeyDoc.isActive kd then (Returned key_already_activated, w1)
            else
              match Service.reading service env with
              | InvalidDate => (Thrown RangeError, w1)
              | Instant now =>
                  let D := formatISO_date (tz_offset env) now in
                  let E := D + Z.min (KeyDoc.validityDays kd) 36500 in
                  match faults w1 with
                  | true :: later =>
                      (Thrown StorageError, with_faults later w1)
                  | _ =>
                      (Returned (key_activated E),
                       with_keys (Mongo.updateOne (by_key key)
                                    (KeyDoc.set_activation D E) (keys w))
                         (with_faults (List.tl (faults w1)) w1))
                  end
              end
        end
    end.
Proof.
  destruct w as [ks us ps fs].
  unfold Service.activateKey, keys_findOne, keys_updateOne. run_service.
  destruct fs as [|[|] fs]; simpl; try reflexivity;
    (destruct (Mongo.findOne (by_key key) ks) as [kd|]; simpl;
       [|reflexivity];
     destruct (KeyDoc.isActive kd); simpl; [reflexivity|];
     destruct (Service.reading service env) as [t|]; simpl; [|reflexivity];
     rewrite formatISO_date_addDays, validity_clamp).
  - reflexivity.
  - destruct fs as [|[|] fs]; reflexivity.
Qed.

(** When the service reports an instant or fails, [Service.activateKey]
    is [activateKey], and so for the route. *)
Lemma Service_activateKey_of_env (key : string) (env : Env) (w : World) :
  Service.activateKey (service_of env) key env w = activateKey key env w.
Proof.
  rewrite Service_activateKey_run, activateKey_run, reading_of_env.
  reflexivity.
Qed.

Lemma Service_activate_POST_of_env
    (request : RequestBody) (env : Env) (w : World) :
  Service.activate_POST (service_of env) request env w
  = activate_POST request env w.
Proof.
  unfold Service.activate_POST, activate_POST, try_catch, bind.
  destruct request as [|key]; [reflexivity|].
  destruct (no_key key); [reflexivity|].
  rewrite Service_activateKey_of_env. reflexivity.
Qed.

Lemma Service_activateKey_users_prices
    (service : TimeService) (key : string) (env : Env) (w : World) :
  users (snd (Service.activateKey service key env w)) = users w
  /\ prices (snd (Service.activateKey service key env w)) = prices w.
Proof.
  rewrite Service_activateKey_run.
  destruct w as [ks us ps fs].
  destruct fs as [|[|] fs]; simpl; try (split; reflexivity);
    (destruct (Mongo.findOne (by_key key) ks) as [kd|];
       [|split; reflexivity];
     destruct (KeyDoc.isActive kd); [split; reflexivity|];
     destruct (Service.reading service env) as [t|];
       [|split; reflexivity]).
  - split; reflexivity.
  - destruct fs as [|[|] fs]; split; reflexivity.
Qed.

Lemma Service_activate_POST_run
    (service : TimeService) (request : RequestBody) (env : Env) (w : World) :
  Service.activate_POST service request env w
  = match request with
    | Malformed => (Returned internal_server_error, w)
    | Json key =>
        if no_key key then (Returned key_is_required, w)
        else
          match Service.activateKey service (key_text key) env w with
          | (Returned result, w') =>
              (Returned
                 (if a_success result
                  then mkResponse 200
                         (activated_body (a_message result) (a_expires result))
                  else mkResponse 404 (error_body (a_message result))),
               w')
          | (Thrown _, w') => (Returned internal_server_error, w')
          end
    end.
Proof.
  destruct request as [|key]; [reflexivity|].
  unfold Service.activate_POST, try_catch, bind, ret.
  destruct (no_key key); [reflexivity|].
  destruct (Service.activateKey service (key_text key) env w)
    as [[result|e] w']; [|reflexivity].
  destruct (a_success result); reflexivity.
Qed.

(** The record an activation leaves behind. *)
Lemma activated_record
    (key : string) (D E : IsoDate) (ks : list KeyDoc.t) (kd : KeyDoc.t) :
  Mongo.findOne (by_key key) ks = Some kd ->
  exists kd',
    Mongo.findOne (by_key key)
      (Mongo.updateOne (by_key key) (KeyDoc.set_activation D E) ks) = Some kd'
    /\ KeyDoc.isActive kd' = true
    /\ KeyDoc.activationDate kd' = Some D
    /\ KeyDoc.expires kd' = Some E
    /\ KeyDoc.key kd' = KeyDoc.key kd
    /\ KeyDoc.validityDays kd' = KeyDoc.validityDays kd.
Proof.
  intros Hfind. rewrite findOne_updateOne by reflexivity. rewrite Hfind.
  eexists. split; [reflexivity|]. repeat split.
Qed.

(** X27. [POST /api/activate] always answers, with status 200, 400, 404
    or 500, and touches neither users nor prices.  It answers 400 exactly
    when the body has no key, and 500 on a malformed body.  On a store
    that does not fail, a key that is not stored gets 404 with
    "Key not found." and a key already active gets 404 with
    "Key already activated.", both without any write.  An inactive key
    gets 200 with the expiry computed from the time reading, and the
    stored record is then active with that expiry and that activation
    date, when the reading is an instant; when it is an Invalid Date,
    [formatISO] throws, the route answers 500 and nothing is written. *)
Theorem activate_POST_responses
    (service : TimeService) (request : RequestBody) (env : Env) (w : World) :
  exists resp w',
    Service.activate_POST service request env w = (Returned resp, w')
    /\ users w' = users w /\ prices w' = prices w
    /\ In (status resp) [200; 400; 404; 500]%nat
    /\ (status resp = 400%nat <->
        exists key, request = Json key /\ no_key key = true)
    /\ (request = Malformed -> resp = internal_server_error /\ w' = w)
    /\ (forall key,
          request = Json key -> no_key key = false -> faults w = [] ->
          match Mongo.findOne (by_key (key_text key)) (keys w) with
          | None =>
              resp = mkResponse 404 (error_body "Key not found.") /\ w' = w
          | Some kd =>
              if KeyDoc.isActive kd then
                resp = mkResponse 404 (error_body "Key already activated.")
                /\ w' = w
              else
                match Service.reading service env with
                | InvalidDate => resp = internal_server_error /\ w' = w
                | Instant now =>
                    let D := formatISO_date (tz_offset env) now in
                    let E := D + Z.min (KeyDoc.validityDays kd) 36500 in
                    resp = mkResponse 200
                             (activated_body "Key activated successfully."
                                (Some E))
                    /\ exists kd',
                         Mongo.findOne (by_key (key_text key)) (keys w')
                         = Some kd'
                         /\ KeyDoc.isActive kd' = true
                         /\ KeyDoc.activationDate kd' = Some D
                         /\ KeyDoc.expires kd' = Some E
                         /\ KeyDoc.key kd' = KeyDoc.key kd
                         /\ KeyDoc.validityDays kd' = KeyDoc.validityDays kd
                end
          end).
Proof.
  rewrite Service_activate_POST_run.
  destruct request as [|key].
  { do 2 eexists. split; [reflexivity|]. simpl.
    repeat split; auto 6; try discriminate.
    intros (key & Hk & _). discriminate. }
  destruct (no_key key) eqn:Hno.
  { do 2 eexists. split; [reflexivity|]. simpl.
    repeat split; auto 6; try discriminate.
    - intros _. exists key. auto.
    - intros k Hk Hn. injection Hk as <-. congruence. }
  pose proof (Service_activateKey_users_prices service (key_text key) env w)
    as (Hu & Hp).
  assert (Hnot400 : forall n : nat,
            n <> 400%nat ->
            (n = 400%nat <->
             exists k, Json key = Json k /\ no_key k = true)).
  { intros n Hn. split; [intros H; contradiction|].
    intros (k & Hk & Hk'). injection Hk as <-. congruence. }
  assert (Hquiet : faults w = [] ->
    Service.activateKey service (key_text key) env w
    = match Mongo.findOne (by_key (key_text key)) (keys w) with
      | None => (Returned key_not_found, w)
      | Some kd =>
          if KeyDoc.isActive kd then (Returned key_already_activated, w)
          else
            match Service.reading service env with
            | InvalidDate => (Thrown RangeError, w)
            | Instant now =>
                (Returned (key_activated
                             (formatISO_date (tz_offset env) now
                              + Z.min (KeyDoc.validityDays kd) 36500)),
                 with_keys
                   (Mongo.updateOne (by_key (key_text key))
                      (KeyDoc.set_activation
                         (formatISO_date (tz_offset env) now)
                         (formatISO_date (tz_offset env) now
                          + Z.min (KeyDoc.validityDays kd) 36500))
                      (keys w)) w)
            end
      end).
  { intros Hq. rewrite Service_activateKey_run.
    destruct w as [ks us ps fs]; simpl in *; subst fs. simpl.
    destruct (Mongo.findOne (by_key (key_text key)) ks) as [kd|];
      [|reflexivity].
    destruct (KeyDoc.isActive kd); [reflexivity|].
    destruct (Service.reading service env); reflexivity. }
  destruct (Service.activateKey service (key_text key) env w)
    as [[result|e] w1] eqn:Hrun; simpl in Hu, Hp.
  - destruct (a_success result) eqn:Hs;
      do 2 eexists; (split; [reflexivity|]); simpl;
      (split; [exact Hu|]); (split; [exact Hp|]);
      (split; [auto 6|]);
      (split; [apply Hnot400; discriminate|]);
      (split; [discriminate|]);
      intros k Hk _ Hq; injection Hk as <-; specialize (Hquiet Hq);
      destruct (Mongo.findOne (by_key (key_text key)) (keys w)) as [kd|] eqn:F;
      try destruct (KeyDoc.isActive kd) eqn:A;
      try destruct (Service.reading service env) as [now|] eqn:R;
      try discriminate Hquiet;
      injection Hquiet as -> ->; try (simpl in Hs; discriminate Hs);
      try (split; reflexivity).
    split; [reflexivity|]. simpl.
    apply activated_record. exact F.
  - do 2 eexists. split; [reflexivity|]. simpl.
    split; [exact Hu|]. split; [exact Hp|]. split; [auto 6|].
    split; [apply Hnot400; discriminate|].
    split; [discriminate|].
    intros k Hk _ Hq. injection Hk as <-. specialize (Hquiet Hq).
    destruct (Mongo.findOne (by_key (key_text key)) (keys w)) as [kd|];
      [destruct (KeyDoc.isActive kd);
       [|destruct (Service.reading service env)]|];
      try discriminate Hquiet.
    injection Hquiet as _ ->. split; reflexivity.
Qed.

(** Activating the TRIAL key while the time service answers without a
    [utc_datetime] is answered 500 and leaves the key as it was. *)
Lemma activate_POST_responses_witness :
  Service.activate_POST (Answered InvalidDate) (Json (Some "TRIAL-00AA"))
    (Sample.env_at Sample.t_2025_01_01) Sample.world
  = (Returned internal_server_error, Sample.world).
Proof.
  destruct (activate_POST_responses (Answered InvalidDate)
              (Json (Some "TRIAL-00AA"))
              (Sample.env_at Sample.t_2025_01_01) Sample.world)
    as (resp & w' & Hrun & _ & _ & _ & _ & _ & Htable).
  destruct (Htable (Some "TRIAL-00AA") eq_refl eq_refl eq_refl) as (Hr & Hw).
  rewrite Hrun, Hr, Hw. reflexivity.
Defined.

(** ** Project download *)

Section DirentInduction.
Variable P : Dirent -> Prop.
Hypothesis on_file : forall name content, P (FileEnt name content).
Hypothesis on_dir :
  forall name entries, Forall P entries -> P (DirEnt name entries).

Fixpoint Dirent_nested_ind (e : Dirent) : P e :=
  match e with
  | FileEnt name content => on_file name content
  | DirEnt name entries =>
      on_dir name entries
        ((fix all (es : list Dirent) : Forall P es :=
            match es with
            | [] => Forall_nil P
            | e' :: es' => Forall_cons e' (Dirent_nested_ind e') (all es')
            end) entries)
  end.
End DirentInduction.

Lemma fold_readEntry_appends (dir : list string) (es : list Dirent) :
  Forall (fun e => forall d zip,
            readEntry d e zip = (zip ++ readEntry d e [])%list) es ->
  forall zip,
    List.fold_left (fun z e => readEntry dir e z) es zip
    = (zip ++ List.flat_map (fun e => readEntry dir e []) es)%list.
Proof.
  induction 1 as [|e es He _ IH]; intros zip; simpl.
  - rewrite app_nil_r. reflexivity.
  - rewrite IH, He, app_assoc. reflexivity.
Qed.

(** [readFiles] only ever adds to the archive. *)
Lemma readEntry_appends (e : Dirent) :
  forall dir zip, readEntry dir e zip = (zip ++ readEntry dir e [])%list.
Proof.
  induction e as [name content|name entries IH] using Dirent_nested_ind;
    intros dir zip; simpl.
  - destruct (skipped name); [rewrite app_nil_r|]; reflexivity.
  - destruct (skipped name); [rewrite app_nil_r; reflexivity|].
    rewrite (fold_readEntry_appends _ _ IH zip).
    rewrite (fold_readEntry_appends _ _ IH []). reflexivity.
Qed.

Lemma readFiles_flat_map (dir : list string) (es : list Dirent) (zip : Zip) :
  readFiles dir es zip
  = (zip ++ List.flat_map (fun e => readEntry dir e []) es)%list.
Proof.
  apply fold_readEntry_appends, Forall_forall.
  intros e _. apply readEntry_appends.
Qed.

Lemma reached_cons (e : Dirent) (es : list Dirent) (p : list string)
    (c : string) :
  reached (e :: es) p c <-> reached [e] p c \/ reached es p c.
Proof.
  split.
  - intros H. inversion H as [? n c' Hin Hs|? sub n p' c' Hin Hs Hr]; subst.
    + destruct Hin as [Heq|Hin];
        [subst e; left | right]; constructor; simpl; auto.
    + destruct Hin as [Heq|Hin];
        [subst e; left | right]; econstructor; simpl; eauto.
  - intros [H|H];
      inversion H as [? n c' Hin Hs|? sub n p' c' Hin Hs Hr]; subst.
    + destruct Hin as [Heq|[]]. subst e. constructor; simpl; auto.
    + destruct Hin as [Heq|[]]. subst e. econstructor; simpl; eauto.
    + constructor; simpl; auto.
    + econstructor; simpl; eauto.
Qed.

Lemma reached_nil (p : list string) (c : string) : ~ reached [] p c.
Proof.
  intros H. inversion H; subst; contradiction.
Qed.

Lemma in_flat_map_readEntry (dir : list string) (es : list Dirent)
    (q : list string) (c : string) :
  Forall (fun e => forall d q' c',
            In (q', c') (readEntry d e [])
            <-> exists p, q' = (d ++ p)%list /\ reached [e] p c') es ->
  In (q, c) (List.flat_map (fun e => readEntry dir e []) es)
  <-> exists p, q = (dir ++ p)%list /\ reached es p c.
Proof.
  induction 1 as [|e es He _ IH]; simpl.
  - split; [intros [] | intros (p & _ & H); exact (reached_nil p c H)].
  - rewrite in_app_iff, He, IH. split.
    + intros [(p & -> & H)|(p & -> & H)]; exists p;
        (split; [reflexivity|]); apply reached_cons; auto.
    + intros (p & -> & H). apply reached_cons in H.
      destruct H as [H|H]; [left | right]; exists p; auto.
Qed.

Lemma in_readEntry (e : Dirent) :
  forall dir q c,
    In (q, c) (readEntry dir e [])
    <-> exists p, q = (dir ++ p)%list /\ reached [e] p c.
Proof.
  induction e as [name content|name entries IH] using Dirent_nested_ind;
    intros dir q c; simpl.
  - destruct (skipped name) eqn:Hs; simpl.
    + split; [intros []|].
      intros (p & _ & H).
      inversion H as [? n c' Hin Hs'|? sub n p' c' Hin Hs' Hr]; subst;
        destruct Hin as [Heq|[]]; inversion Heq; subst; congruence.
    + split.
      * intros [[= <- <-]|[]]. exists [name]. split; [reflexivity|].
        constructor; simpl; auto.
      * intros (p & -> & H).
        inversion H as [? n c' Hin Hs'|? sub n p' c' Hin Hs' Hr]; subst;
          destruct Hin as [Heq|[]]; inversion Heq; subst.
        left. reflexivity.
  - destruct (skipped name) eqn:Hs.
    + split; [intros []|].
      intros (p & _ & H).
      inversion H as [? n c' Hin Hs'|? sub n p' c' Hin Hs' Hr]; subst;
        destruct Hin as [Heq|[]]; inversion Heq; subst; congruence.
    + change (List.fold_left (fun z e => readEntry (dir ++ [name]) e z)
                entries [])
        with (readFiles (dir ++ [name]) entries []).
      rewrite readFiles_flat_map. simpl.
      rewrite (in_flat_map_readEntry (dir ++ [name]) entries q c IH).
      split.
      * intros (p & -> & H). exists (name :: p).
        rewrite <- app_assoc. split; [reflexivity|].
        econstructor; simpl; eauto.
      * intros (p & -> & H).
        inversion H as [? n c' Hin Hs'|? sub n p' c' Hin Hs' Hr]; subst;
          destruct Hin as [Heq|[]]; inversion Heq; subst.
        exists p'. rewrite <- app_assoc. split; [reflexivity | exact Hr].
Qed.

Lemma reached_not_skipped (es : list Dirent) (p : list string) (c : string) :
  reached es p c -> p <> [] /\ Forall (fun name => skipped name = false) p.
Proof.
  induction 1 as [es n c Hin Hs|es sub n p c Hin Hs Hr IH].
  - split; [discriminate | repeat constructor; exact Hs].
  - split; [discriminate | constructor; [exact Hs | apply IH]].
Qed.

(** X28. What the project archive holds.  [downloadProject] makes no
    store call and answers with [success] true and the name
    project-backup-, UTC date, .zip.  Its archive holds exactly the
    files of the project tree reached through names other than
    node_modules, .next and .git, each under its path below the root
    and with its content, so no archived path has one of these three
    names at any depth, and a file bearing such a name is left out
    too. *)
Theorem downloadProject_archive
    (projectRoot : list Dirent) (env : Env) (w : World) :
  exists d,
    downloadProject projectRoot env w = (Returned d, w)
    /\ d_success d = true
    /\ d_fileName d
       = "project-backup-"
         ++ IsoDate_to_string (formatISO_date 0 (server_clock env)) ++ ".zip"
    /\ (forall path content,
          In (path, content) (d_file d) <-> reached projectRoot path content)
    /\ (forall path content,
          In (path, content) (d_file d) ->
          Forall (fun name => skipped name = false) path).
Proof.
  eexists. split; [reflexivity|]. simpl.
  split; [reflexivity|]. split; [reflexivity|].
  assert (Hin : forall path content,
            In (path, content) (readFiles [] projectRoot [])
            <-> reached projectRoot path content).
  { intros path content. rewrite readFiles_flat_map. simpl.
    rewrite (in_flat_map_readEntry [] projectRoot path content).
    - simpl. split; [intros (p & -> & H); exact H|].
      intros H. exists path. auto.
    - apply Forall_forall. intros e _. apply in_readEntry. }
  split; [exact Hin|].
  intros path content H. apply Hin in H.
  apply (reached_not_skipped _ _ _ H).
Qed.

(** The sample project: only package.json and src/app/actions.ts are
    archived. *)
Example downloadProject_of_sample_project :
  fst (downloadProject Fixture.project (Sample.env_at Sample.t_2025_01_08)
         Fixture.world)
  = Returned (mkDownload true
                [(["package.json"], "{}");
                 (["src"; "app"; "actions.ts"], "a")]
                "project-backup-2025-01-08.zip").
Proof. vm_compute. reflexivity. Qed.

(** ** What a moderator is shown after generating *)

(** X29. The debt a moderator is shown is the debt charged.  After a
    moderator whose session carries the id of a stored account has
    generated keys, [getModerator] for that id shows the account with
    its former debt plus [count * price], or 0 when that sum is zero or
    [NaN]; without an id [getModerator] answers nothing and makes no
    store call. *)
Theorem generateKeys_then_getModerator
    (prefix : string) (count validityDays : Z) (user : User.t)
    (id : ObjectId) (u : UserDoc.t) (env env' : Env) (w : World) :
  faults w = [] ->
  User.role user = moderator ->
  User.userId user = Some id ->
  Mongo.findOne (by_id id) (users w) = Some u ->
  let w' := snd (generateKeys prefix count validityDays user env w) in
  getModerator (Some id) env' w'
  = (Returned
       (Some (mkModeratorView (UserDoc._id u) (UserDoc.username u)
                (or_zero (UserDoc.debt u
                          + number_of_Z count
                            * priceFor (prices w) validityDays)%float)
                (UserDoc.createdAt u))), w')
  /\ getModerator None env' w' = (Returned None, w').
Proof.
  intros Hq Hrole Hid Hfind w'. split; [|reflexivity].
  unfold w'. rewrite generateKeys_quiet_store by exact Hq.
  rewrite Hrole, Hid.
  unfold getModerator, users_findOne. run_action.
  rewrite findOne_updateOne by reflexivity.
  rewrite Hfind. reflexivity.
Qed.

Lemma generateKeys_then_getModerator_witness :
  fst (getModerator (Some 1%N) (Sample.env_at Sample.t_2025_01_08)
         (snd (generateKeys "ABC" 5 30 Sample.bob_session
                 (Sample.env_at Sample.t_2025_01_01) Sample.world)))
  = Returned (Some (mkModeratorView 1%N "bob" 22.5%float 0)).
Proof.
  pose proof (generateKeys_then_getModerator "ABC" 5 30 Sample.bob_session
                1%N Sample.bob (Sample.env_at Sample.t_2025_01_01)
                (Sample.env_at Sample.t_2025_01_08) Sample.world
                eq_refl eq_refl eq_refl eq_refl) as H.
  cbv zeta in H. destruct H as [H _]. exact (f_equal fst H).
Defined.
